(** * controller-heliospectra: a shallow embedding of [main.go]

    The development follows the source file top-down.  Go strings are byte
    strings ([string] of 8-bit [ascii]); Go's [int] is the 64-bit integer of
    the platforms the controller is built for and is carried as [Z];
    [float64] is IEEE-754 binary64, carried as [spec_float] with the
    binary64 parameters; the process is a state-and-stop monad over a
    [World] that holds the wall clock, what the network will answer, and the
    trace of observable effects. *)

From Stdlib Require Import ZArith List String Ascii Bool Lia.
From Stdlib Require Import SpecFloat DecimalString.
Import ListNotations.

Open Scope string_scope.
Open Scope Z_scope.
Open Scope list_scope.

(* ================================================================== *)
(** * Bytes and character classes *)

Definition byte_code (c : ascii) : Z := Z.of_N (N_of_ascii c).

Definition is_digit (c : ascii) : bool :=
  (48 <=? byte_code c) && (byte_code c <=? 57).

Definition is_upper (c : ascii) : bool :=
  (65 <=? byte_code c) && (byte_code c <=? 90).

Definition is_lower (c : ascii) : bool :=
  (97 <=? byte_code c) && (byte_code c <=? 122).

(** The class [\w] of Go's regexp (RE2 syntax): [[0-9A-Za-z_]]. *)
Definition is_word (c : ascii) : bool :=
  is_digit c || is_upper c || is_lower c || (byte_code c =? 95).

(** The ASCII white space of [strings.TrimSpace]:
    tab, line feed, vertical tab, form feed, carriage return, space. *)
Definition is_space (c : ascii) : bool :=
  ((9 <=? byte_code c) && (byte_code c <=? 13)) || (byte_code c =? 32).

(** The white space of [unicode.IsSpace] beyond ASCII, in UTF-8: the two
    bytes of U+0085 and U+00A0, and the three bytes of U+1680,
    U+2000..U+200A, U+2028, U+2029, U+202F, U+205F and U+3000. *)
Definition is_space2 (a b : ascii) : bool :=
  (byte_code a =? 194) && ((byte_code b =? 133) || (byte_code b =? 160)).

Definition is_space3 (a b c : ascii) : bool :=
  ((byte_code a =? 225) && ((byte_code b =? 154) && (byte_code c =? 128)))
  || ((byte_code a =? 226) &&
      (((byte_code b =? 128) &&
        (((128 <=? byte_code c) && (byte_code c <=? 138))
         || (byte_code c =? 168) || (byte_code c =? 169) || (byte_code c =? 175)))
       || ((byte_code b =? 129) && (byte_code c =? 159))))
  || ((byte_code a =? 227) && ((byte_code b =? 128) && (byte_code c =? 128))).

Definition digit_val (c : ascii) : Z := byte_code c - 48.

Fixpoint all_chars (p : ascii -> bool) (s : string) : bool :=
  match s with
  | EmptyString => true
  | String c s' => p c && all_chars p s'
  end.

Fixpoint has_char (c : ascii) (s : string) : bool :=
  match s with
  | EmptyString => false
  | String d s' => Ascii.eqb c d || has_char c s'
  end.

(* ================================================================== *)
(** * Package [strings] *)

Module strings.

(** White space taken off the front: an ASCII space byte, or the UTF-8
    bytes of one of the other spaces. *)
Fixpoint TrimLeft (s : string) : string :=
  match s with
  | EmptyString => EmptyString
  | String a r1 =>
      if is_space a then TrimLeft r1
      else
        match r1 with
        | EmptyString => s
        | String b r2 =>
            if is_space2 a b then TrimLeft r2
            else
              match r2 with
              | EmptyString => s
              | String c r3 => if is_space3 a b c then TrimLeft r3 else s
              end
        end
  end.

(** White space taken off the end: the text is cut where what is left is
    white space only (the encodings above read the same from either end). *)
Fixpoint TrimRight (s : string) : string :=
  match s with
  | EmptyString => EmptyString
  | String c s' =>
      match TrimLeft s with
      | EmptyString => EmptyString
      | _ => String c (TrimRight s')
      end
  end.

(** [strings.TrimSpace]: leading and trailing white space removed, as
    [unicode.IsSpace] defines it. *)
Definition TrimSpace (s : string) : string := TrimRight (TrimLeft s).

(** [strings.Split(s, sep)] for a one-byte separator: the pieces between
    the separators, always at least one piece. *)
Fixpoint Split_from (sep : ascii) (s : string) (cur : string) : list string :=
  match s with
  | EmptyString => [cur]
  | String c s' =>
      if Ascii.eqb c sep then cur :: Split_from sep s' EmptyString
      else Split_from sep s' (cur ++ String c EmptyString)%string
  end.

Definition Split (s : string) (sep : ascii) : list string :=
  Split_from sep s EmptyString.

(** [strings.Join(elems, sep)]. *)
Fixpoint Join (elems : list string) (sep : string) : string :=
  match elems with
  | [] => EmptyString
  | [e] => e
  | e :: rest => (e ++ sep ++ Join rest sep)%string
  end.

End strings.

(* ================================================================== *)
(** * Errors *)

(** What went wrong in a [*strconv.NumError]. *)
Inductive NumErrKind := ErrSyntax | ErrRange.

(** Go [error] values, by the constructor that made them. *)
Inductive error :=
| ErrText (msg : string)                              (* fmt.Errorf *)
| ErrNum (fn : string) (arg : string) (k : NumErrKind) (* strconv *)
| ErrNet (msg : string).                              (* telnet, udp, io *)

(* ================================================================== *)
(** * Package [strconv] *)

Module strconv.

Fixpoint digits_val (s : string) (acc : Z) : Z :=
  match s with
  | EmptyString => acc
  | String c s' => digits_val s' (10 * acc + digit_val c)
  end.

Definition maxInt64 : Z := 2 ^ 63 - 1.
Definition minInt64 : Z := - 2 ^ 63.

(** [strconv.ParseInt(s, 10, 64)]: an optional sign, then one or more
    decimal digits; a value outside int64 is a range error. *)
Definition ParseInt (s : string) : Z + error :=
  let syntax := inr (ErrNum "ParseInt" s ErrSyntax) in
  let range := inr (ErrNum "ParseInt" s ErrRange) in
  match s with
  | EmptyString => syntax
  | String c rest =>
      let neg := Ascii.eqb c "-" in
      let body := if neg || Ascii.eqb c "+" then rest else s in
      match body with
      | EmptyString => syntax
      | _ =>
          if all_chars is_digit body then
            let n := digits_val body 0 in
            if neg then (if n <=? 2 ^ 63 then inl (- n) else range)
            else (if n <=? maxInt64 then inl n else range)
          else syntax
      end
  end.

(** [strconv.Itoa]. *)
Definition Itoa (i : Z) : string := NilZero.string_of_int (Z.to_int i).

End strconv.

Definition intToString (a : list Z) : list string := map strconv.Itoa a.

(* ================================================================== *)
(** * The regular expressions of the source

    [matchFloatExp = `[-+]?\d*\.\d+|\d+`], [matchIntsExp = `\b(\d+)\b`],
    [matchOKExp = `OK`], [matchStringsExp = `\b(\w+)\b`], with Go's
    leftmost-first matching; [FindAllString] returns the successive
    non-overlapping matches. *)

(** [matchOK.MatchString]: the text contains the two bytes [OK]. *)
Fixpoint matchOK_MatchString (s : string) : bool :=
  match s with
  | EmptyString => false
  | String c s' =>
      (Ascii.eqb c "O" &&
       match s' with String d _ => Ascii.eqb d "K" | EmptyString => false end)
      || matchOK_MatchString s'
  end.

Definition flush (cur : string) : list string :=
  match cur with EmptyString => [] | _ => [cur] end.

(** The maximal runs of word characters of [s], left to right; [cur] is the
    run being read. *)
Fixpoint word_runs (s : string) (cur : string) : list string :=
  match s with
  | EmptyString => flush cur
  | String c s' =>
      if is_word c then word_runs s' (cur ++ String c EmptyString)%string
      else flush cur ++ word_runs s' EmptyString
  end.

(** [matchStrings.FindAllString(data, -1)]: between two word boundaries
    [\w+] takes a whole run of word characters. *)
Definition matchStrings_FindAllString (data : string) : list string :=
  word_runs data EmptyString.

(** [matchInts.FindAllString(data, -1)]: [\d+] must start and end at a word
    boundary, so it matches exactly the runs of word characters that are all
    digits (a digit glued to a letter or underscore has no boundary). *)
Definition matchInts_FindAllString (data : string) : list string :=
  filter (all_chars is_digit) (word_runs data EmptyString).

(** The longest prefix of digits, and what follows it. *)
Fixpoint span_digits (s : string) : string * string :=
  match s with
  | EmptyString => (EmptyString, EmptyString)
  | String c s' =>
      if is_digit c then
        let (ds, r) := span_digits s' in (String c ds, r)
      else (EmptyString, s)
  end.

(** [\d*\.\d+] at the start of [s]. *)
Definition float_alt1_unsigned (s : string) : option string :=
  let (ds, r) := span_digits s in
  match r with
  | String c r' =>
      if Ascii.eqb c "." then
        match span_digits r' with
        | (EmptyString, _) => None
        | (fs, _) => Some (ds ++ String "." fs)%string
        end
      else None
  | EmptyString => None
  end.

(** [[-+]?\d*\.\d+] at the start of [s]. *)
Definition float_alt1 (s : string) : option string :=
  match s with
  | String c s' =>
      if Ascii.eqb c "-" || Ascii.eqb c "+" then
        match float_alt1_unsigned s' with
        | Some m => Some (String c m)
        | None => float_alt1_unsigned s
        end
      else float_alt1_unsigned s
  | EmptyString => None
  end.

(** [\d+] at the start of [s]. *)
Definition float_alt2 (s : string) : option string :=
  match span_digits s with
  | (EmptyString, _) => None
  | (ds, _) => Some ds
  end.

(** [matchFloat.FindString]: the match at the leftmost position that has
    one, the first alternative before the second; the empty string when
    there is none. *)
Fixpoint matchFloat_FindString (s : string) : string :=
  match
    match float_alt1 s with Some m => Some m | None => float_alt2 s end
  with
  | Some m => m
  | None =>
      match s with
      | EmptyString => EmptyString
      | String _ s' => matchFloat_FindString s'
      end
  end.

(* ================================================================== *)
(** * [float64] *)

Definition float64 : Type := spec_float.

Definition prec : Z := 53.
Definition emax : Z := 1024.

Definition f64_mul (x y : float64) : float64 := SFmul prec emax x y.
Definition f64_div (x y : float64) : float64 := SFdiv prec emax x y.

(** The float64 nearest to the integer [m] times [2^e]. *)
Definition f64_make (m e : Z) : float64 := binary_normalize prec emax m e false.

(** The conversion [float64(v)] of an integer. *)
Definition f64_of_int (v : Z) : float64 := f64_make v 0.

(** The integer left when the fraction of a finite float is discarded
    (truncation towards zero); [None] on NaN and the infinities. *)
Definition f64_trunc (f : float64) : option Z :=
  match f with
  | S754_zero _ => Some 0
  | S754_finite s m e =>
      let mag := if 0 <=? e then Z.pos m * 2 ^ e else Z.pos m / 2 ^ (- e) in
      Some (if s then - mag else mag)
  | _ => None
  end.

Definition in_int64 (z : Z) : bool :=
  (strconv.minInt64 <=? z) && (z <=? strconv.maxInt64).

(** The conversion [int(f)].  Go discards the fraction; when the value does
    not fit the integer type the result is implementation-dependent, and
    [unrep] is what the platform gives then (amd64: the least int64). *)
Definition f64_to_int (unrep : float64 -> Z) (f : float64) : Z :=
  match f64_trunc f with
  | Some z => if in_int64 z then z else unrep f
  | None => unrep f
  end.

Definition amd64_unrep (_ : float64) : Z := strconv.minInt64.

(** [strconv.ParseFloat(s, 64)] on the texts [matchFloat.FindString] can
    give it: an optional sign, digits, optionally a point and digits, at
    least one digit in all; anything else is a syntax error here.  The value
    is the decimal rounded to nearest even; one that rounds to an infinity is
    a range error. *)
Definition ParseFloat (s : string) : float64 + error :=
  let syntax := inr (ErrNum "ParseFloat" s ErrSyntax) in
  match s with
  | EmptyString => syntax
  | String c rest =>
      let neg := Ascii.eqb c "-" in
      let body := if neg || Ascii.eqb c "+" then rest else s in
      let (ip, r) := span_digits body in
      let fp_ok :=
        match r with
        | EmptyString => Some EmptyString
        | String d r' =>
            if Ascii.eqb d "." then
              let (fp, r'') := span_digits r' in
              match r'' with EmptyString => Some fp | _ => None end
            else None
        end in
      match fp_ok with
      | None => syntax
      | Some fp =>
          match (ip ++ fp)%string with
          | EmptyString => syntax
          | ds =>
              let n := strconv.digits_val ds 0 in
              let k := Z.of_nat (String.length fp) in
              match n with
              | Z.pos _ =>
                  let '(q, e, l) := SFdiv_core_binary prec emax n 0 (10 ^ k) 0 in
                  match binary_round_aux prec emax neg q e l with
                  | S754_infinity _ => inr (ErrNum "ParseFloat" s ErrRange)
                  | f => inl f
                  end
              | _ => inl (S754_zero neg)
              end
          end
      end
  end.

(* ================================================================== *)
(** * Value encoding *)

Definition min (x y : Z) : Z := if x <? y then x else y.

Definition max (x y : Z) : Z := if x >? y then x else y.

Definition minMax (value : Z) : Z := min (max value 0) 1000.

(* ================================================================== *)
(** * Package [fmt]: formatting with no operands

    [execCommand] hands the device's text to [fmt.Errorf] as the format
    string, with no operand.  [Sprintf0 format] is what [fmt.Sprintf(format)]
    prints then: text is copied up to a [%]; after it come flags, an argument
    index, a width, a precision and the verb, and with no operand every verb
    but [%%] prints one of the library's complaints. *)

Module fmt.

Open Scope string_scope.

Fixpoint drop (n : nat) (s : string) : string :=
  match n, s with
  | O, _ => s
  | S n', String _ s' => drop n' s'
  | S _, EmptyString => EmptyString
  end.

Definition tooLarge (x : Z) : bool := (1000000 <? x)%Z.

(** [parsenum]: whether a number was read, and the text after it; a number
    that grows too large gives up and eats the whole text. *)
Fixpoint parsenum_from (s : string) (num : Z) (isnum : bool) : bool * string :=
  match s with
  | EmptyString => (isnum, EmptyString)
  | String c s' =>
      if is_digit c then
        if tooLarge num then (false, EmptyString)
        else parsenum_from s' (10 * num + digit_val c)%Z true
      else (isnum, s)
  end.

Definition parsenum (s : string) : bool * string := parsenum_from s 0%Z false.

(** The text before the first [']'] of [s] and its position, if any. *)
Fixpoint upto_bracket (s : string) (pos : nat) : option (string * nat) :=
  match s with
  | EmptyString => None
  | String c s' =>
      if Ascii.eqb c "]" then Some (EmptyString, pos)
      else
        match upto_bracket s' (S pos) with
        | Some (b, p) => Some (String c b, p)
        | None => None
        end
  end.

(** [parseArgNumber] on a text that starts with ['[']: the width to skip
    and whether [[n]] was well formed. *)
Definition parseArgNumber (s : string) : nat * bool :=
  if (String.length s <? 3)%nat then (1%nat, false)
  else
    match upto_bracket (drop 1 s) 1 with
    | Some (body, i) =>
        match parsenum body with
        | (true, EmptyString) => (S i, true)
        | _ => (S i, false)
        end
    | None => (1%nat, false)
    end.

(** [argNumber] with no operand: the text after the index, whether an
    index was found, and whether the argument number is still good (an
    index can never be in range when there is no operand). *)
Definition argNumber (s : string) : string * bool * bool :=
  match s with
  | String c _ =>
      if Ascii.eqb c "[" then
        let (wid, ok) := parseArgNumber s in (drop wid s, ok, false)
      else (s, false, true)
  | EmptyString => (s, false, true)
  end.

Fixpoint skip_flags (s : string) : string :=
  match s with
  | String c s' =>
      if Ascii.eqb c "#" || Ascii.eqb c "0" || Ascii.eqb c "+"
         || Ascii.eqb c "-" || Ascii.eqb c " "
      then skip_flags s' else s
  | EmptyString => s
  end.

Definition is_cont (lo hi : Z) (c : ascii) : bool :=
  (lo <=? byte_code c)%Z && (byte_code c <=? hi)%Z.

Definition RuneError : string :=
  String (ascii_of_nat 239) (String (ascii_of_nat 191) (String (ascii_of_nat 189) "")).

(** [utf8.DecodeRuneInString] followed by writing the rune back: the bytes
    of the first rune of a non-empty [s] as they are printed (U+FFFD for an
    invalid encoding, which takes one byte), and the text after it. *)
Definition decode_rune (s : string) : string * string :=
  match s with
  | EmptyString => (RuneError, EmptyString)
  | String b0 r0 =>
      let x := byte_code b0 in
      let bad := (RuneError, r0) in
      if (x <? 128)%Z then (String b0 "", r0)
      else
        let need : option (nat * Z * Z) :=
          if (194 <=? x)%Z && (x <=? 223)%Z then Some (1%nat, 128, 191)%Z
          else if (x =? 224)%Z then Some (2%nat, 160, 191)%Z
          else if (x =? 237)%Z then Some (2%nat, 128, 159)%Z
          else if (225 <=? x)%Z && (x <=? 239)%Z then Some (2%nat, 128, 191)%Z
          else if (x =? 240)%Z then Some (3%nat, 144, 191)%Z
          else if (x =? 244)%Z then Some (3%nat, 128, 143)%Z
          else if (241 <=? x)%Z && (x <=? 243)%Z then Some (3%nat, 128, 191)%Z
          else None in
        match need, r0 with
        | Some (1%nat, lo, hi), String b1 r1 =>
            if is_cont lo hi b1 then (String b0 (String b1 ""), r1) else bad
        | Some (2%nat, lo, hi), String b1 (String b2 r2) =>
            if is_cont lo hi b1 && is_cont 128 191 b2
            then (String b0 (String b1 (String b2 "")), r2) else bad
        | Some (3%nat, lo, hi), String b1 (String b2 (String b3 r3)) =>
            if is_cont lo hi b1 && is_cont 128 191 b2 && is_cont 128 191 b3
            then (String b0 (String b1 (String b2 (String b3 ""))), r3) else bad
        | _, _ => bad
        end
  end.

(** One directive, from just after its [%]: what is printed and the text
    that is left. *)
Definition directive (s0 : string) : string * string :=
  let s1 := skip_flags s0 in
  let '(s2, afterIndex, good) := argNumber s1 in
  let '(out_w, s3, afterIndex, good) :=
    match s2 with
    | String "*" r => ("%!(BADWIDTH)", r, false, good)
    | _ =>
        let (present, r) := parsenum s2 in
        ("", r, afterIndex, good && negb (afterIndex && present))
    end in
  let '(out_p, s4, afterIndex, good) :=
    match s3 with
    | String "." r =>
        let good := good && negb afterIndex in
        let '(r1, ai, g1) := argNumber r in
        match r1 with
        | String "*" r2 => ("%!(BADPREC)", r2, false, good && g1)
        | _ => let (_, r2) := parsenum r1 in ("", r2, ai, good && g1)
        end
    | _ => ("", s3, afterIndex, good)
    end in
  let '(s5, good) :=
    if afterIndex then (s4, good)
    else let '(r, _, g) := argNumber s4 in (r, good && g) in
  match s5 with
  | EmptyString => (out_w ++ out_p ++ "%!(NOVERB)", EmptyString)
  | _ =>
      let (verb, r) := decode_rune s5 in
      (out_w ++ out_p ++
         (if String.eqb verb "%" then "%"
          else if good then "%!" ++ verb ++ "(MISSING)"
          else "%!" ++ verb ++ "(BADINDEX)"), r)
  end.

(** The loop of [doPrintf]; every round takes at least one byte, so the
    length of the format (and one) is fuel enough. *)
Fixpoint doPrintf (fuel : nat) (format : string) : string :=
  match fuel with
  | O => EmptyString
  | S n =>
      match format with
      | EmptyString => EmptyString
      | String c r =>
          if Ascii.eqb c "%" then
            let (out, rest) := directive r in out ++ doPrintf n rest
          else String c (doPrintf n r)
      end
  end.

Definition Sprintf0 (format : string) : string :=
  doPrintf (S (String.length format)) format.

(** [fmt.Errorf(format)] with no operand. *)
Definition Errorf (format : string) : error := ErrText (Sprintf0 format).

End fmt.

(* ================================================================== *)
(** * The world the process runs in *)

(** An instant, in nanoseconds since the Unix epoch, and a span of
    nanoseconds. *)
Definition Time : Type := Z.
Definition Duration : Type := Z.

Definition Millisecond : Duration := 1000000.
Definition Second : Duration := 1000 * Millisecond.

(** The zero [time.Time]: January 1, year 1, 00:00 UTC. *)
Definition zeroTime : Time := - 62135596800 * Second.

(** A [time.Duration] is an int64; [Time.Sub] saturates. *)
Definition sat_duration (d : Z) : Duration :=
  Z.max strconv.minInt64 (Z.min strconv.maxInt64 d).

(** A telegraf measurement: a name, and the field and tag maps in the order
    their keys were first set. *)
Record Measurement := mkMeasurement {
  m_name : string;
  m_fields : list (string * float64);
  m_tags : list (string * string)
}.

(** Assignment in a Go map: a key that is there gets the new value. *)
Fixpoint map_set {V : Type} (k : string) (v : V) (m : list (string * V))
  : list (string * V) :=
  match m with
  | [] => [(k, v)]
  | (k', v') :: m' =>
      if String.eqb k k' then (k, v) :: m' else (k', v') :: map_set k v m'
  end.

(** The lines of the error log, by the statement that prints them. *)
Inductive LogLine :=
| LogErr (e : error)                          (* errLog.Println(err) *)
| LogText (msg : string)                      (* a fixed message *)
| LogExtract (e : error)                      (* couldn't extract datetime *)
| LogRunning (path : string)                  (* running conditions file *)
| LogSleeping (d : Duration)                  (* sleeping for ..s *)
| LogRan (t : Time) (values : list float64).  (* ran <time> <values> *)

(** What the process does to the outside, in the order it does it. *)
Inductive Event :=
| EvLog (l : LogLine)
| EvSleep (d : Duration)
| EvDial
| EvClose
| EvWrite (bytes : string)
| EvUDPOpen (host : string)
| EvUDPClose
| EvMetric (m : Measurement)
| EvPrint (label : string) (shown : list string + list float64).

(** What a [telnet.DialTimeout] meets: how long it takes, and either the
    connect error, or a connection with the outcome of the priming
    [SkipUntil] and the bytes the device sends after it (telnet negotiation
    already taken out by the library). *)
Inductive DialOutcome :=
| DialFails (took : Duration) (e : error)
| DialOk (took : Duration) (prime : option error) (incoming : string).

Record World := mkWorld {
  clock : Time;                   (* the wall clock *)
  dials : list DialOutcome;       (* what the coming dials will meet *)
  udps : list (option error);     (* what the coming telegraf.NewUDP will meet *)
  prime : option error;           (* the live connection: outcome of SkipUntil *)
  incoming : string;              (* the live connection: bytes still to come *)
  trace : list Event              (* effects so far, oldest first *)
}.

Definition emit_in (e : Event) (w : World) : World :=
  mkWorld (clock w) (dials w) (udps w) (prime w) (incoming w) (trace w ++ [e]).

Definition advance (d : Duration) (w : World) : World :=
  mkWorld (clock w + d) (dials w) (udps w) (prime w) (incoming w) (trace w).

Definition set_incoming (s : string) (w : World) : World :=
  mkWorld (clock w) (dials w) (udps w) (prime w) s (trace w).

(** How a run can stop early: a run-time panic, or [os.Exit] through
    [log.Fatal]. *)
Inductive Stop :=
| Panic (msg : string)
| Exit (code : Z).

Inductive Res (A : Type) :=
| Done (a : A) (w : World)
| Stopped (s : Stop) (w : World).

Arguments Done {A} a w.
Arguments Stopped {A} s w.

Definition M (A : Type) : Type := World -> Res A.

Definition ret {A} (a : A) : M A := fun w => Done a w.

Definition bind {A B} (m : M A) (k : A -> M B) : M B :=
  fun w =>
    match m w with
    | Done a w' => k a w'
    | Stopped s w' => Stopped s w'
    end.

Definition panic {A} (msg : string) : M A := fun w => Stopped (Panic msg) w.

Definition emit (e : Event) : M unit := fun w => Done tt (emit_in e w).

Definition logLine (l : LogLine) : M unit := emit (EvLog l).

Declare Scope go_scope.
Delimit Scope go_scope with go.
Notation "x <- m ;; k" := (bind m (fun x => k))
  (at level 61, m at next level, right associativity) : go_scope.
Notation "' pat <- m ;; k" := (bind m (fun x => match x with pat => k end))
  (at level 61, pat pattern, m at next level, right associativity) : go_scope.
Notation "m ;; k" := (bind m (fun _ => k))
  (at level 61, right associativity) : go_scope.
Open Scope go_scope.

(** [defer d] around [body]: [d] runs when [body] returns and when it
    panics, not when the process exits. *)
Definition with_defer {A} (d : M unit) (body : M A) : M A :=
  fun w =>
    match body w with
    | Done a w' =>
        match d w' with
        | Done _ w'' => Done a w''
        | Stopped s w'' => Stopped s w''
        end
    | Stopped (Panic msg) w' =>
        match d w' with
        | Done _ w'' => Stopped (Panic msg) w''
        | Stopped s w'' => Stopped s w''
        end
    | Stopped (Exit c) w' => Stopped (Exit c) w'
    end.

Definition nil_deref : string := "invalid memory address or nil pointer dereference".

(** [len(s)]. *)
Definition len {A} (s : list A) : Z := Z.of_nat (List.length s).

(** [s[n:]] on a slice: a run-time panic when [n] is past the length. *)
Definition slice_from {A} (n : nat) (s : list A) : M (list A) :=
  if (n <=? List.length s)%nat then ret (skipn n s)
  else panic "slice bounds out of range".

(** [s[i]]. *)
Definition index {A} (s : list A) (i : nat) : M A :=
  match nth_error s i with
  | Some a => ret a
  | None => panic "index out of range"
  end.

(** ** Package [time] *)

Definition time_Now : M Time := fun w => Done (clock w) w.

Definition time_Until (t : Time) : M Duration :=
  fun w => Done (sat_duration (t - clock w)) w.

(** [time.Sleep]: returns at once for a span that is not positive. *)
Definition time_Sleep (d : Duration) : M unit :=
  fun w => Done tt (advance (Z.max d 0) (emit_in (EvSleep d) w)).

(** ** Package [telnet] *)

(** A [*telnet.Conn]: nil, or the one live connection. *)
Inductive Conn := nilConn | liveConn.

Definition telnet_DialTimeout : M (Conn * option error) :=
  fun w =>
    let w := emit_in EvDial w in
    match dials w with
    | [] => Done (nilConn, Some (ErrNet "i/o timeout")) w
    | DialFails took e :: ds =>
        Done (nilConn, Some e)
             (mkWorld (clock w + took) ds (udps w) (prime w) (incoming w) (trace w))
    | DialOk took p inc :: ds =>
        Done (liveConn, None)
             (mkWorld (clock w + took) ds (udps w) p inc (trace w))
    end.

Definition conn_SkipUntil (c : Conn) : M (option error) :=
  match c with
  | nilConn => panic nil_deref
  | liveConn => fun w => Done (prime w) w
  end.

Definition conn_Write (c : Conn) (bytes : string) : M unit :=
  match c with
  | nilConn => panic nil_deref
  | liveConn => emit (EvWrite bytes)
  end.

(** The bytes of [s] up to and with the first [delim], and the rest. *)
Fixpoint read_until (delim : ascii) (s : string) : option (string * string) :=
  match s with
  | EmptyString => None
  | String c s' =>
      if Ascii.eqb c delim then Some (String c EmptyString, s')
      else
        match read_until delim s' with
        | Some (chunk, rest) => Some (String c chunk, rest)
        | None => None
        end
  end.

(** [conn.ReadString(delim)]: reads up to and with the first [delim]; when
    the stream ends before, what was read comes back with the error. *)
Definition conn_ReadString (c : Conn) (delim : ascii) : M (string * option error) :=
  match c with
  | nilConn => panic nil_deref
  | liveConn =>
      fun w =>
        match read_until delim (incoming w) with
        | Some (chunk, rest) => Done (chunk, None) (set_incoming rest w)
        | None => Done (incoming w, Some (ErrNet "EOF")) (set_incoming EmptyString w)
        end
  end.

(** [defer conn.Close()]: [Close] is reached through the connection held in
    the struct, so the statement itself panics on a nil pointer. *)
Definition defer_Close {A} (c : Conn) (body : M A) : M A :=
  match c with
  | nilConn => panic nil_deref
  | liveConn => with_defer (emit EvClose) body
  end.

(** ** Package [telegraf] *)

Definition telegraf_NewUDP (host : string) : M (option error) :=
  fun w =>
    let w := emit_in (EvUDPOpen host) w in
    match udps w with
    | [] => Done None w
    | r :: us =>
        Done r (mkWorld (clock w) (dials w) us (prime w) (incoming w) (trace w))
    end.

Definition NewMeasurement (name : string) : Measurement := mkMeasurement name [] [].

Definition AddFloat64 (name : string) (v : float64) (m : Measurement) : Measurement :=
  mkMeasurement (m_name m) (map_set name v (m_fields m)) (m_tags m).

Definition AddTag (name value : string) (m : Measurement) : Measurement :=
  mkMeasurement (m_name m) (m_fields m) (map_set name value (m_tags m)).

(* ================================================================== *)
(** * Configuration and external collaborators *)

(** The package-level variables set by [init], and the one environment
    variable read later. *)
Record Config := mkConfig {
  noMetrics : bool;
  dummy : bool;
  address : string;
  multiplier : float64;
  conditionsPath : string;
  hostTag : string;
  groupTag : string;
  userTag : string;
  interval : Duration;
  env_TELEGRAF_HOST : string
}.

(** What the program takes from outside its own source: the fuzzy date
    extraction with the ISO text it leads to, [time.Parse] on that text, and
    the platform's conversion of a float that no int holds. *)
Class Extern := mkExtern {
  fuzzy_extract : string -> option error * string;
  time_Parse : string -> Time + error;
  int_unrep : float64 -> Z
}.

(* ================================================================== *)
(** * The program *)

Section Program.

Context {X : Extern}.
Variable cfg : Config.

Definition logErr (e : error) : M unit := logLine (LogErr e).

(** [parseDateTime]: a failed extraction is logged and the (then empty)
    date still goes through the setters and [time.Parse]. *)
Definition parseDateTime (tString : string) : M (Time + error) :=
  let (err, iso) := fuzzy_extract tString in
  match err with
  | Some e => logLine (LogExtract e)
  | None => ret tt
  end ;;
  ret (time_Parse iso).

Definition execCommand (conn : Conn) (command : string)
  : M (string * option error) :=
  conn_Write conn (command ++ String (ascii_of_nat 10) EmptyString)%string ;;
  '(datad, err) <- conn_ReadString conn ">" ;;
  match err with
  | Some e => ret (EmptyString, Some e)
  | None =>
      if negb (matchOK_MatchString datad) then
        ret (EmptyString, Some (fmt.Errorf (strings.TrimSpace datad)))
      else ret (strings.TrimSpace datad, None)
  end.

(** The loop of [chompAllInts]: the first token that does not parse ends
    it, with the values read so far. *)
Fixpoint parse_ints (tokens : list string) (values : list Z)
  : list Z * option error :=
  match tokens with
  | [] => (values, None)
  | v :: rest =>
      match strconv.ParseInt v with
      | inr err => (values, Some err)
      | inl i => parse_ints rest (values ++ [i])
      end
  end.

Definition chompAllInts (conn : Conn) (command : string)
  : M (list Z * option error) :=
  '(data, err) <- execCommand conn command ;;
  match err with
  | Some e => ret ([], Some e)
  | None =>
      let tmpStrings := matchInts_FindAllString data in
      rest <- slice_from 1 tmpStrings ;;
      ret (parse_ints rest [])
  end.

Definition chompAllStrings (conn : Conn) (command : string)
  : M (list string * option error) :=
  '(data, err) <- execCommand conn command ;;
  match err with
  | Some e => ret ([], Some e)
  | None =>
      let tmpStrings := matchStrings_FindAllString data in
      values <- slice_from 1 tmpStrings ;;
      ret (values, None)
  end.

(** The integer [setMany] sends for one channel. *)
Definition encode (x : float64) : Z :=
  minMax (f64_to_int int_unrep (f64_mul x (multiplier cfg))).

Definition setMany_command (values : list float64) : string :=
  ("setWlsRelPower " ++ strings.Join (intToString (map encode values)) " ")%string.

Definition setMany (conn : Conn) (values : list float64) : M (option error) :=
  '(_, err) <- execCommand conn (setMany_command values) ;;
  ret err.

Definition getPower (conn : Conn) : M (list float64 * option error) :=
  '(intValues, err) <- chompAllInts conn "getAllRelPower" ;;
  ret (map (fun v => f64_div (f64_of_int v) (multiplier cfg)) intValues, err).

Definition getWl (conn : Conn) : M (list string * option error) :=
  chompAllStrings conn "getWl".

(** The field loop of [writeMetrics], from index [i] on. *)
Fixpoint add_fields (wavelengths : list string) (i : nat)
         (values : list float64) (m : Measurement) : M Measurement :=
  match values with
  | [] => ret m
  | v :: rest =>
      w <- index wavelengths i ;;
      match strconv.ParseInt w with
      | inr err => logErr err ;; add_fields wavelengths (S i) rest m
      | inl wl =>
          let unit_ := if wl =? 6500 then "k" else "nm" in
          add_fields wavelengths (S i) rest
                     (AddFloat64 (strconv.Itoa wl ++ unit_)%string v m)
      end
  end.

Definition add_tag_if (name value : string) (m : Measurement) : Measurement :=
  if String.eqb value EmptyString then m else AddTag name value m.

Definition writeMetrics (wavelengths : list string) (lightValues : list float64)
  : M (option error) :=
  if negb (noMetrics cfg) then
    let telegrafHost :=
      if String.eqb (env_TELEGRAF_HOST cfg) EmptyString then "telegraf:8092"
      else env_TELEGRAF_HOST cfg in
    err <- telegraf_NewUDP telegrafHost ;;
    match err with
    | Some e => ret (Some e)
    | None =>
        with_defer (emit EvUDPClose)
          (let m := NewMeasurement "helio-light" in
           if negb (List.length wavelengths =? List.length lightValues)%nat then
             ret (Some (fmt.Errorf "wavelengths and light values differ"))
           else
             m <- add_fields wavelengths 0 lightValues m ;;
             let m := add_tag_if "host" (hostTag cfg) m in
             let m := add_tag_if "group" (groupTag cfg) m in
             let m := add_tag_if "user" (userTag cfg) m in
             emit (EvMetric m) ;;
             ret None)
    end
  else ret None.

(** The first loop of [runStuff]: a field with no number in it, or one
    that does not parse, is logged and leaves a zero. *)
Fixpoint parse_values (stringVals : list string) : M (list float64) :=
  match stringVals with
  | [] => ret []
  | v :: rest =>
      let found := matchFloat_FindString v in
      match ParseFloat found with
      | inr err =>
          logErr err ;;
          vs <- parse_values rest ;;
          ret (S754_zero false :: vs)
      | inl fl =>
          vs <- parse_values rest ;;
          ret (fl :: vs)
      end
  end.

(** The telemetry loop of [runStuff]: up to [n] writes, 200ms after each
    failed one, stopping at the first that succeeds. *)
Fixpoint metrics_loop (n : nat) (wavelengths : list string)
         (lightValues : list float64) : M unit :=
  match n with
  | O => ret tt
  | S n' =>
      err <- writeMetrics wavelengths lightValues ;;
      match err with
      | Some e =>
          logErr e ;;
          time_Sleep (200 * Millisecond) ;;
          metrics_loop n' wavelengths lightValues
      | None => ret tt
      end
  end.

(** [runStuff]: [true] when the caller should go on, [false] when it
    should retry. *)
Definition runStuff (theTime : Time) (lineSplit : list string) : M bool :=
  stringVals <- slice_from 4 lineSplit ;;
  lightValues <- parse_values stringVals ;;
  '(conn, err) <- telnet_DialTimeout ;;
  match err with
  | Some e => logErr e ;; ret false
  | None =>
      defer_Close conn
        (err <- conn_SkipUntil conn ;;
         match err with
         | Some e => logErr e ;; ret false
         | None =>
             '(wavelengths, err) <- getWl conn ;;
             match err with
             | Some e => logErr e ;; ret false
             | None =>
                 let minLength := min (len wavelengths) (len lightValues) in
                 (if negb (len lightValues =? minLength) then
                    logLine (LogText "Different number of light values than wavelengths")
                  else ret tt) ;;
                 err <- setMany conn (firstn (Z.to_nat minLength) lightValues) ;;
                 match err with
                 | Some e => logErr e ;; ret false
                 | None =>
                     logLine (LogRan theTime lightValues) ;;
                     metrics_loop 5 wavelengths lightValues ;;
                     ret true
                 end
             end
         end)
  end.

(** [for i := 0; i < 10; i++ { if runStuff(..) { break } }], with [n]
    rounds left. *)
Fixpoint retry (n : nat) (theTime : Time) (lineSplit : list string) : M unit :=
  match n with
  | O => ret tt
  | S n' =>
      ok <- runStuff theTime lineSplit ;;
      if ok then ret tt else retry n' theTime lineSplit
  end.

(** The scanner loop of [runConditions], over the lines still to read. *)
Fixpoint scan_lines (lines : list string) (idx : Z) (lastTime : Time)
         (lastLineSplit : list string) (firstRun : bool) : M unit :=
  match lines with
  | [] => ret tt
  | line :: rest =>
      if idx =? 0 then scan_lines rest (idx + 1) lastTime lastLineSplit firstRun
      else
        let lineSplit := strings.Split line "," in
        timeStr <- index lineSplit 0 ;;
        r <- parseDateTime timeStr ;;
        match r with
        | inr err =>
            logErr err ;;
            scan_lines rest idx lastTime lastLineSplit firstRun
        | inl theTime =>
            now <- time_Now ;;
            if theTime <? now then
              scan_lines rest idx theTime lineSplit firstRun
            else
              (if firstRun then
                 logLine (LogText "running firstrun line") ;;
                 retry 10 lastTime lastLineSplit
               else ret tt) ;;
              d <- time_Until theTime ;;
              logLine (LogSleeping d) ;;
              d <- time_Until theTime ;;
              time_Sleep d ;;
              retry 10 theTime lineSplit ;;
              scan_lines rest (idx + 1) lastTime lastLineSplit false
        end
  end.

(** [runConditions]; [file] is the lines of the conditions file as the
    scanner gives them, [None] when the file does not open. *)
Definition runConditions (file : option (list string)) : M unit :=
  logLine (LogRunning (conditionsPath cfg)) ;;
  match file with
  | None => fun w => Stopped (Exit 1) w
  | Some lines => scan_lines lines 0 zeroTime [] true
  end.

(** The closure [runMetrics] of [main]: one poll. *)
Definition runMetrics : M unit :=
  '(conn, err) <- telnet_DialTimeout ;;
  match err with
  | Some e => logErr e
  | None => ret tt
  end ;;
  defer_Close conn
    (err <- conn_SkipUntil conn ;;
     match err with
     | Some e => logErr e
     | None =>
         '(lightPower, err) <- getPower conn ;;
         match err with
         | Some e => logErr e
         | None =>
             '(lightWavelengths, err) <- getWl conn ;;
             match err with
             | Some e => logErr e
             | None =>
                 writeMetrics lightWavelengths lightPower ;;
                 emit (EvPrint "wavelengths:" (inl lightWavelengths)) ;;
                 emit (EvPrint "power:" (inr lightPower))
             end
         end
     end).

(** The poll mode of [main]: one poll at once, then one for each of the
    [ticks] fires of the ticker that the run lasts. *)
Fixpoint poll_ticks (ticks : nat) : M unit :=
  match ticks with
  | O => ret tt
  | S n => runMetrics ;; poll_ticks n
  end.

Definition poll_mode : bool :=
  negb (noMetrics cfg)
  && (String.eqb (conditionsPath cfg) EmptyString || dummy cfg).

Definition schedule_mode : bool :=
  negb (String.eqb (conditionsPath cfg) EmptyString) && negb (dummy cfg).

(** [main]: in poll mode the process never leaves the [select {}], so the
    schedule is reached only when poll mode is off. *)
Definition main (file : option (list string)) (ticks : nat) : M unit :=
  if poll_mode then runMetrics ;; poll_ticks ticks
  else if schedule_mode then runConditions file
  else ret tt.

End Program.


(* ================================================================== *)
(** * What the specification says, in its own words *)

(** The nearest integer to a finite float, halves away from zero
    ([math.Round]). *)
Definition f64_round (f : float64) : option Z :=
  match f with
  | S754_zero _ => Some 0
  | S754_finite s m e =>
      let mag :=
        if 0 <=? e then Z.pos m * 2 ^ e
        else (Z.pos m + 2 ^ (- e - 1)) / 2 ^ (- e) in
      Some (if s then - mag else mag)
  | _ => None
  end.

Definition clamp (z : Z) : Z := Z.max 0 (Z.min 1000 z).

(** ValueCodec [encode] of the specification: compute
    [round(intensity * scale)], then clamp into [0, 1000]. *)
Definition spec_encode (intensity scale : float64) : option Z :=
  option_map clamp (f64_round (f64_mul intensity scale)).

(** The protocol table of the specification for [getAllRelPower]: the first
    token is the echo, the rest are decimal integers; the values are all the
    integer tokens once the echoed command name is stripped. *)
Definition spec_power_values (command data : string) : list Z :=
  let rest :=
    if String.prefix command data then fmt.drop (String.length command) data
    else data in
  map (fun t => strconv.digits_val t 0) (matchInts_FindAllString rest).

(** [z] is the float [(-1)^s * m * 2^e] with its fraction discarded. *)
Definition discards_fraction (s : bool) (m : positive) (e : Z) (z : Z) : Prop :=
  (if s then z <= 0 else 0 <= z) /\
  (0 <= e -> Z.abs z = Z.pos m * 2 ^ e) /\
  (e < 0 -> Z.abs z * 2 ^ (- e) <= Z.pos m < (Z.abs z + 1) * 2 ^ (- e)).

(* ================================================================== *)
(** * Reading a run *)

Definition CRLF : string := String (ascii_of_nat 13) (String (ascii_of_nat 10) "").
Definition LF : string := String (ascii_of_nat 10) "".

(** The world [w] with the events [evs] added to its trace. *)
Definition add_trace (evs : list Event) (w : World) : World :=
  mkWorld (clock w) (dials w) (udps w) (prime w) (incoming w) (trace w ++ evs).

Definition result_world {A} (r : Res A) : World :=
  match r with Done _ w => w | Stopped _ w => w end.

Definition is_metric (e : Event) : bool :=
  match e with EvMetric _ => true | _ => false end.

Definition mismatch_warning : Event :=
  EvLog (LogText "Different number of light values than wavelengths").

Definition is_text (e : Event) : bool :=
  match e with EvLog (LogText _) => true | _ => false end.

(** The values of a schedule row as [runStuff] reads them, and the lines it
    logs while reading. *)
Fixpoint parsed_values (stringVals : list string) : list float64 :=
  match stringVals with
  | [] => []
  | v :: rest =>
      match ParseFloat (matchFloat_FindString v) with
      | inr _ => S754_zero false :: parsed_values rest
      | inl fl => fl :: parsed_values rest
      end
  end.

Fixpoint parse_logs (stringVals : list string) : list Event :=
  match stringVals with
  | [] => []
  | v :: rest =>
      match ParseFloat (matchFloat_FindString v) with
      | inr err => EvLog (LogErr err) :: parse_logs rest
      | inl _ => parse_logs rest
      end
  end.

(** The two statements around [time.Sleep] in [runConditions]. *)
Definition sleep_until (theTime : Time) : M unit :=
  d <- time_Until theTime ;;
  logLine (LogSleeping d) ;;
  d <- time_Until theTime ;;
  time_Sleep d.

(** The world after [sleep_until theTime]. *)
Definition slept (theTime : Time) (w : World) : World :=
  advance (Z.max (sat_duration (theTime - clock w)) 0)
    (emit_in (EvSleep (sat_duration (theTime - clock w)))
       (emit_in (EvLog (LogSleeping (sat_duration (theTime - clock w)))) w)).

(** The date field of a schedule line. *)
Definition date_field (line : string) : string :=
  nth 0 (strings.Split line ",") EmptyString.

(** The world once [command] is written and the answer up to the prompt is
    taken off the stream. *)
Definition exchanged (command rest : string) (w : World) : World :=
  set_incoming rest (emit_in (EvWrite (command ++ LF)) w).

(** [w'] is [w] after the events [evs], with the scripts of the telnet side
    untouched (the clock and the udp script may have moved). *)
Definition extends (w w' : World) (evs : list Event) : Prop :=
  trace w' = trace w ++ evs /\ dials w' = dials w /\
  prime w' = prime w /\ incoming w' = incoming w.

Definition is_write (e : Event) : bool :=
  match e with EvWrite _ => true | _ => false end.

(** Events that are neither a fixed log message nor bytes for the device. *)
Definition aside (e : Event) : Prop := is_text e = false /\ is_write e = false.

Definition returned {A} (r : Res A) : option A :=
  match r with Done a _ => Some a | Stopped _ _ => None end.

(** The world once the row is read (logging [evs]) and the dial has met
    [DialOk took None inc], with the scripts [ds] left. *)
Definition dialled (took : Duration) (ds : list DialOutcome) (inc : string)
           (evs : list Event) (w : World) : World :=
  mkWorld (clock w + took) ds (udps w) None inc ((trace w ++ evs) ++ [EvDial]).

Section Parts.

Context {X : Extern}.
Variable cfg : Config.

(** The part of [runStuff] after a successful [getWl]. *)
Definition send_targets (theTime : Time) (conn : Conn)
           (wavelengths : list string) (lightValues : list float64) : M bool :=
  let minLength := min (len wavelengths) (len lightValues) in
  (if negb (len lightValues =? minLength) then
     logLine (LogText "Different number of light values than wavelengths")
   else ret tt) ;;
  err <- setMany cfg conn (firstn (Z.to_nat minLength) lightValues) ;;
  match err with
  | Some e => logErr e ;; ret false
  | None =>
      logLine (LogRan theTime lightValues) ;;
      metrics_loop cfg 5 wavelengths lightValues ;;
      ret true
  end.

End Parts.

(* ================================================================== *)
(** * A setting for the examples *)

(** Collaborators for the examples: a date field is the decimal count of
    seconds since the epoch, and the platform is amd64. *)
Definition demo_extern : Extern :=
  mkExtern
    (fun s => (None, s))
    (fun s =>
       match s with
       | EmptyString => inr (ErrText "parsing time")
       | _ =>
           if all_chars is_digit s then inl (strconv.digits_val s 0 * Second)
           else inr (ErrText "parsing time")
       end)
    amd64_unrep.

(** The flags' defaults: multiplier 10, metrics on. *)
Definition demo_cfg : Config :=
  mkConfig false false "192.168.1.3" (f64_of_int 10) "conditions.csv"
           "GC03" "nonspc" "" (600 * Second) "".

(** The same with [-no-metrics]. *)
Definition quiet_cfg : Config :=
  mkConfig true false "192.168.1.3" (f64_of_int 10) "conditions.csv"
           "GC03" "nonspc" "" (600 * Second) "".

(** The same with no conditions file: poll mode. *)
Definition poll_cfg : Config :=
  mkConfig false false "192.168.1.3" (f64_of_int 10) ""
           "GC03" "nonspc" "" (600 * Second) "".

(** A world at [now] seconds with the given dial and udp scripts. *)
Definition world_at (now : Z) (ds : list DialOutcome) (us : list (option error))
  : World :=
  mkWorld (now * Second) ds us None EmptyString [].

(** A live connection that will deliver [bytes]. *)
Definition world_with (bytes : string) : World :=
  mkWorld 0 [] [] None bytes [].

(** What a device sends in a session in which it answers [getWl] with the
    success token and [labels], and the next command with the success token. *)
Definition session_ok (labels : string) : string :=
  "OK " ++ labels ++ CRLF ++ ">" ++ "OK" ++ CRLF ++ ">".

(** A conditions file: the header, and rows due at 100s, 200s and 300s with
    two channels each. *)
Definition demo_file : list string :=
  ["datetime,a,b,c,ch1,ch2";
   "100,x,y,z,50.0,75.0";
   "200,x,y,z,10,20";
   "300,x,y,z,1,2"].

(** Three good sessions with a two-channel device. *)
Definition demo_dials : list DialOutcome :=
  [DialOk 0 None (session_ok "450 660");
   DialOk 0 None (session_ok "450 660");
   DialOk 0 None (session_ok "450 660")].

(** A poll session that answers both queries. *)
Definition poll_session : string :=
  "OK 2 100 200" ++ CRLF ++ ">" ++ "OK 450 660" ++ CRLF ++ ">".

Definition is_sleep (e : Event) : bool :=
  match e with EvSleep _ => true | _ => false end.

(** The bytes written to the device and the sleeps of a trace. *)
Definition writes_and_sleeps (tr : list Event) : list Event :=
  filter (fun e => is_write e || is_sleep e) tr.

(* ================================================================== *)
(** * Further notions for reading runs *)

Definition is_dial (e : Event) : bool :=
  match e with EvDial => true | _ => false end.

Definition is_close (e : Event) : bool :=
  match e with EvClose => true | _ => false end.

Definition is_log (e : Event) : bool :=
  match e with EvLog _ => true | _ => false end.

(** The float [getPower] returns for the integer [v] the device reports. *)
Definition decode (cfg : Config) (v : Z) : float64 :=
  f64_div (f64_of_int v) (multiplier cfg).



(** The first [n] coming dials all fail (a script that has run out fails
    too). *)
Fixpoint all_fail (n : nat) (ds : list DialOutcome) : bool :=
  match n with
  | O => true
  | S n' =>
      match ds with
      | [] => all_fail n' []
      | DialFails _ _ :: ds' => all_fail n' ds'
      | DialOk _ _ _ :: _ => false
      end
  end.

Definition has_digit (s : string) : bool :=
  negb (all_chars (fun c => negb (is_digit c)) s).

(** The two queries of a poll, as written to the device. *)
Definition poll_queries : list Event :=
  [EvWrite ("getAllRelPower" ++ LF); EvWrite ("getWl" ++ LF)].

(** A schedule line that [runConditions] passes over at the instant [now]:
    its date does not parse, or it parses to an instant before [now]. *)
Definition passed_over {X : Extern} (now : Time) (line : string) : Prop :=
  match time_Parse (snd (fuzzy_extract (date_field line))) with
  | inl theTime => theTime < now
  | inr _ => True
  end.

(** Events that belong to no telnet session and are no fixed log message:
    not a dial, a close or a write, and not a [LogText]. *)
Definition session_free (e : Event) : Prop :=
  is_write e = false /\ is_dial e = false /\ is_close e = false /\
  is_text e = false.

(** The integers from 0 to 1000. *)
Definition levels : list Z := map Z.of_nat (seq 0 1001).

(** The error of a telemetry write whose labels and values differ in
    number. *)
Definition differ_error : error :=
  fmt.Errorf "wavelengths and light values differ".

(** The errors that [n] telemetry writes with labels and values unequal in
    number come back with, metrics being on, against the udp script [us]:
    the failure to open the client where the script has one, and
    [differ_error] where the client opens. *)
Fixpoint attempt_errors (n : nat) (us : list (option error)) : list error :=
  match n with
  | O => []
  | S n' =>
      match us with
      | [] => differ_error :: attempt_errors n' []
      | Some e :: us' => e :: attempt_errors n' us'
      | None :: us' => differ_error :: attempt_errors n' us'
      end
  end.

(** The line [errLog.Println(err)] leaves. *)
Definition log_err (e : error) : Event := EvLog (LogErr e).

(** A session in which the device answers the first two commands with the
    success token. *)
Definition acknowledges (inc : string) : bool :=
  match read_until ">" inc with
  | Some (c1, r1) =>
      matchOK_MatchString c1 &&
      match read_until ">" r1 with
      | Some (c2, _) => matchOK_MatchString c2
      | None => false
      end
  | None => false
  end.

(** The wavelength labels [getWl] gets in the session [inc]. *)
Definition session_labels (inc : string) : list string :=
  match read_until ">" inc with
  | Some (c1, _) => tl (matchStrings_FindAllString (strings.TrimSpace c1))
  | None => []
  end.

(** The bytes the execution of the row [ls] writes in the session [inc]:
    [getWl], then the row's values, as many as the device has labels. *)
Definition row_writes {X : Extern} (cfg : Config) (inc : string)
           (ls : list string) : list Event :=
  let vals := parsed_values (skipn 4 ls) in
  let wl := session_labels inc in
  [EvWrite ("getWl" ++ LF);
   EvWrite (setMany_command cfg
              (firstn (Nat.min (List.length wl) (List.length vals)) vals) ++ LF)].

(** The steps of a schedule in a trace: the bytes written to the device and
    the "sleeping for" lines, which [runConditions] alone logs. *)
Definition is_step (e : Event) : bool :=
  match e with
  | EvWrite _ => true
  | EvLog (LogSleeping _) => true
  | _ => false
  end.

Definition steps (tr : list Event) : list Event := filter is_step tr.

(** The "sleeping for" line logged at [w] before the sleep until
    [theTime]. *)
Definition sleep_line (theTime : Time) (w : World) : Event :=
  EvLog (LogSleeping (sat_duration (theTime - clock w))).

(** The world when the first pass reaches its catch-up execution. *)
Definition started (cfg : Config) (w : World) : World :=
  emit_in (EvLog (LogText "running firstrun line"))
          (emit_in (EvLog (LogRunning (conditionsPath cfg))) w).

(** A conditions file whose third row is due one second after the second. *)
Definition late_file : list string :=
  ["datetime,a,b,c,ch1,ch2";
   "100,x,y,z,50.0,75.0";
   "200,x,y,z,10,20";
   "201,x,y,z,1,2"].

(** Three good sessions with a two-channel device, each taking two seconds
    to open. *)
Definition slow_dials : list DialOutcome :=
  [DialOk (2 * Second) None (session_ok "450 660");
   DialOk (2 * Second) None (session_ok "450 660");
   DialOk (2 * Second) None (session_ok "450 660")].

(* ================================================================== *)
(** * Value encoding: [minMax] and [setMany] *)

Lemma minMax_bounds (value : Z) : 0 <= minMax value <= 1000.
Proof.
  unfold minMax, min, max.
  destruct (value >? 0) eqn:Hv.
  - destruct (value <? 1000) eqn:Hc; [apply Z.ltb_lt in Hc|]; lia.
  - simpl. lia.
Qed.

Lemma minMax_clamp (value : Z) : minMax value = clamp value.
Proof.
  unfold minMax, clamp, min, max.
  destruct (value >? 0) eqn:Hv.
  - destruct (value <? 1000) eqn:Hc; [apply Z.ltb_lt in Hc|apply Z.ltb_ge in Hc]; lia.
  - assert (value <= 0) by (rewrite Z.gtb_ltb in Hv; apply Z.ltb_ge in Hv; lia).
    simpl. lia.
Qed.

Lemma f64_trunc_discards (s : bool) (m : positive) (e : Z) :
  exists z, f64_trunc (S754_finite s m e) = Some z /\ discards_fraction s m e z.
Proof.
  unfold f64_trunc, discards_fraction.
  destruct (0 <=? e) eqn:He.
  - apply Z.leb_le in He.
    assert (Hp : 0 <= Z.pos m * 2 ^ e)
      by (apply Z.mul_nonneg_nonneg; [lia | apply Z.pow_nonneg; lia]).
    set (mag := Z.pos m * 2 ^ e) in *.
    eexists; split; [reflexivity|].
    destruct s; (split; [lia | split; [intros _; lia | intros; lia]]).
  - apply Z.leb_gt in He.
    assert (Hpow : 0 < 2 ^ (- e)) by (apply Z.pow_pos_nonneg; lia).
    set (p := 2 ^ (- e)) in *.
    set (q := Z.pos m / p).
    assert (Hq : 0 <= q) by (apply Z.div_pos; lia).
    assert (Hlo : q * p <= Z.pos m).
    { rewrite Z.mul_comm. apply Z.mul_div_le; lia. }
    assert (Hhi : Z.pos m < (q + 1) * p).
    { rewrite Z.mul_comm. replace (q + 1) with (Z.succ q) by lia.
      apply Z.mul_succ_div_gt; lia. }
    eexists; split; [reflexivity|].
    destruct s.
    + split; [lia|]. split; [intros; lia|]. intros _.
      replace (Z.abs (- q)) with q by lia. lia.
    + split; [lia|]. split; [intros; lia|]. intros _.
      replace (Z.abs q) with q by lia. lia.
Qed.

(** C2 (amended).  For every intensity [x] and every configured multiplier,
    the integer [setMany] sends for a channel lies in [0, 1000], and it is
    the product [x * multiplier] with its fraction discarded (not rounded),
    clamped into [0, 1000], whenever that integer fits an int: a zero product
    gives 0, a finite product [(-1)^s * m * 2^e] gives the clamp of its
    truncation.  The encoding is a total function, so it never errors. *)
Theorem encode_truncates_then_clamps (X : Extern) (cfg : Config) (x : float64) :
  0 <= encode cfg x <= 1000 /\
  match f64_mul x (multiplier cfg) with
  | S754_zero _ => encode cfg x = 0
  | S754_finite s m e =>
      exists z, discards_fraction s m e z /\
                (in_int64 z = true -> encode cfg x = clamp z)
  | _ => True
  end.
Proof.
  split; [apply minMax_bounds|].
  unfold encode, f64_to_int.
  destruct (f64_mul x (multiplier cfg)) as [sz|si| |s m e] eqn:Hp; try exact I.
  - reflexivity.
  - destruct (f64_trunc_discards s m e) as [z [Hz Hd]].
    exists z. split; [exact Hd|].
    intros Hin. rewrite Hz, Hin. apply minMax_clamp.
Qed.

(** C2, as stated, fails: with the default multiplier 10 the intensity 0.25
    gives the product 2.5; the code sends 2, where rounding would give 3. *)
Lemma encode_is_not_rounding :
  ParseFloat "0.25" = inl (f64_make 1 (-2)) /\
  encode (X := demo_extern) demo_cfg (f64_make 1 (-2)) = 2 /\
  spec_encode (f64_make 1 (-2)) (multiplier demo_cfg) = Some 3 /\
  Some (encode (X := demo_extern) demo_cfg (f64_make 1 (-2)))
    <> spec_encode (f64_make 1 (-2)) (multiplier demo_cfg).
Proof.
  repeat split; try (vm_compute; reflexivity).
  vm_compute. discriminate.
Qed.

(* ================================================================== *)
(** * Text: trimming, the success token, tokens *)

Ltac bool_hyps :=
  repeat match goal with
         | H : (_ || _) = true |- _ => apply orb_true_iff in H; destruct H as [H|H]
         | H : (_ && _) = true |- _ =>
             let H1 := fresh H in apply andb_true_iff in H; destruct H as [H1 H]
         | H : (_ =? _) = true |- _ => apply Z.eqb_eq in H
         | H : (_ <=? _) = true |- _ => apply Z.leb_le in H
         end.

Lemma space_is_not_O (c : ascii) : is_space c = true -> Ascii.eqb c "O" = false.
Proof.
  intros H. destruct (Ascii.eqb_spec c "O") as [->|]; [|reflexivity].
  vm_compute in H. discriminate.
Qed.

Lemma high_is_not_O (c : ascii) : 128 <= byte_code c -> Ascii.eqb c "O" = false.
Proof.
  intros H. destruct (Ascii.eqb_spec c "O") as [->|]; [|reflexivity].
  vm_compute in H. exfalso. apply H. reflexivity.
Qed.

Lemma space2_high (a b : ascii) :
  is_space2 a b = true -> 128 <= byte_code a /\ 128 <= byte_code b.
Proof. unfold is_space2. intros H. bool_hyps; lia. Qed.

Lemma space3_high (a b c : ascii) :
  is_space3 a b c = true ->
  128 <= byte_code a /\ 128 <= byte_code b /\ 128 <= byte_code c.
Proof. unfold is_space3. intros H. bool_hyps; lia. Qed.

Lemma matchOK_TrimLeft_bounded (n : nat) :
  forall s, (String.length s <= n)%nat ->
            matchOK_MatchString (strings.TrimLeft s) = matchOK_MatchString s.
Proof.
  induction n as [|n IH]; intros s Hn.
  - destruct s; [reflexivity | cbn in Hn; lia].
  - destruct s as [|a r1]; [reflexivity|].
    cbn [strings.TrimLeft]. destruct (is_space a) eqn:Ha.
    { rewrite IH by (cbn in Hn; lia).
      cbn [matchOK_MatchString]. rewrite (space_is_not_O a Ha). reflexivity. }
    destruct r1 as [|b r2]; [reflexivity|].
    destruct (is_space2 a b) eqn:H2.
    { rewrite IH by (cbn in Hn; lia).
      apply space2_high in H2 as [Hha Hhb].
      cbn [matchOK_MatchString].
      rewrite (high_is_not_O a Hha), (high_is_not_O b Hhb). reflexivity. }
    destruct r2 as [|c r3]; [reflexivity|].
    destruct (is_space3 a b c) eqn:H3; [|reflexivity].
    rewrite IH by (cbn in Hn; lia).
    apply space3_high in H3 as (Hha & Hhb & Hhc).
    cbn [matchOK_MatchString].
    rewrite (high_is_not_O a Hha), (high_is_not_O b Hhb), (high_is_not_O c Hhc).
    reflexivity.
Qed.

Lemma matchOK_TrimLeft (s : string) :
  matchOK_MatchString (strings.TrimLeft s) = matchOK_MatchString s.
Proof. apply (matchOK_TrimLeft_bounded (String.length s)). lia. Qed.

(** Cutting at the end keeps a leading [K]. *)
Lemma TrimRight_starts_K (s : string) :
  match strings.TrimRight s with
  | String d _ => Ascii.eqb d "K"
  | EmptyString => false
  end
  = match s with String d _ => Ascii.eqb d "K" | EmptyString => false end.
Proof.
  destruct s as [|d s']; [reflexivity|].
  cbn [strings.TrimRight].
  destruct (strings.TrimLeft (String d s')) eqn:E; [|reflexivity].
  destruct (Ascii.eqb_spec d "K") as [->|]; [|reflexivity].
  exfalso. revert E. cbn [strings.TrimLeft].
  replace (is_space "K") with false by reflexivity.
  destruct s' as [|b r2]; [discriminate|].
  replace (is_space2 "K" b) with false by reflexivity.
  destruct r2 as [|c r3]; [discriminate|].
  replace (is_space3 "K" b c) with false by reflexivity.
  discriminate.
Qed.

Lemma matchOK_TrimRight (s : string) :
  matchOK_MatchString (strings.TrimRight s) = matchOK_MatchString s.
Proof.
  induction s as [|c s IH]; [reflexivity|].
  cbn [strings.TrimRight].
  destruct (strings.TrimLeft (String c s)) eqn:E.
  - rewrite <- (matchOK_TrimLeft (String c s)), E. reflexivity.
  - cbn [matchOK_MatchString]. rewrite TrimRight_starts_K, IH. reflexivity.
Qed.

(** The success check sees the same on the raw and on the trimmed text. *)
Lemma matchOK_TrimSpace (s : string) :
  matchOK_MatchString (strings.TrimSpace s) = matchOK_MatchString s.
Proof.
  unfold strings.TrimSpace. rewrite matchOK_TrimRight. apply matchOK_TrimLeft.
Qed.

Lemma append_not_empty (s : string) (c : ascii) :
  (s ++ String c EmptyString)%string <> EmptyString.
Proof. destruct s; discriminate. Qed.

Lemma word_runs_nil (s cur : string) :
  word_runs s cur = [] ->
  cur = EmptyString /\ all_chars (fun c => negb (is_word c)) s = true.
Proof.
  revert cur. induction s as [|c s IH]; intros cur; simpl.
  - destruct cur; [auto | discriminate].
  - destruct (is_word c) eqn:Hc.
    + intros H. apply IH in H as [H _]. exfalso. eapply append_not_empty; eauto.
    + intros H. apply app_eq_nil in H as [H1 H2].
      apply IH in H2 as [_ H2]. split; [|exact H2].
      destruct cur; [reflexivity | discriminate].
Qed.

Lemma matchOK_has_word (s : string) :
  matchOK_MatchString s = true ->
  all_chars (fun c => negb (is_word c)) s = false.
Proof.
  induction s as [|c s IH]; simpl; [discriminate|].
  intros H. apply orb_true_iff in H as [H|H].
  - apply andb_true_iff in H as [H _]. apply Ascii.eqb_eq in H. subst c. reflexivity.
  - rewrite (IH H). apply andb_false_r.
Qed.

(** A text with the success token in it has at least one word token. *)
Lemma words_of_ok_text (s : string) :
  matchOK_MatchString s = true ->
  exists t0 rest, matchStrings_FindAllString (strings.TrimSpace s) = t0 :: rest.
Proof.
  intros H. unfold matchStrings_FindAllString.
  destruct (word_runs (strings.TrimSpace s) EmptyString) as [|t0 rest] eqn:Hw; [|eauto].
  apply word_runs_nil in Hw as [_ Hw].
  rewrite <- matchOK_TrimSpace in H. apply matchOK_has_word in H. congruence.
Qed.

Lemma word_runs_not_empty (s cur : string) :
  Forall (fun t => t <> EmptyString) (word_runs s cur).
Proof.
  revert cur. induction s as [|c s IH]; intros cur; simpl.
  - destruct cur; simpl; constructor; [discriminate | constructor].
  - destruct (is_word c); [apply IH|].
    apply Forall_app. split; [|apply IH].
    destruct cur; simpl; constructor; [discriminate | constructor].
Qed.

(** Every token of [matchInts] is a non-empty string of digits. *)
Lemma matchInts_tokens (data : string) :
  Forall (fun t => t <> EmptyString /\ all_chars is_digit t = true)
         (matchInts_FindAllString data).
Proof.
  unfold matchInts_FindAllString.
  apply Forall_forall. intros t Ht. apply filter_In in Ht as [Hin Hd].
  split; [|exact Hd].
  pose proof (word_runs_not_empty data EmptyString) as Hne.
  rewrite Forall_forall in Hne. apply Hne; assumption.
Qed.

Lemma ParseInt_digits (t : string) :
  t <> EmptyString -> all_chars is_digit t = true ->
  strconv.digits_val t 0 <= strconv.maxInt64 ->
  strconv.ParseInt t = inl (strconv.digits_val t 0).
Proof.
  intros Hne Hd Hmax. destruct t as [|c t]; [congruence|].
  unfold strconv.ParseInt.
  assert (Hc : is_digit c = true) by (simpl in Hd; apply andb_true_iff in Hd; tauto).
  assert (Hm : Ascii.eqb c "-" = false).
  { destruct (Ascii.eqb_spec c "-") as [->|]; [vm_compute in Hc; discriminate | reflexivity]. }
  assert (Hp : Ascii.eqb c "+" = false).
  { destruct (Ascii.eqb_spec c "+") as [->|]; [vm_compute in Hc; discriminate | reflexivity]. }
  rewrite Hm, Hp. cbn [orb]. rewrite Hd.
  apply Z.leb_le in Hmax. rewrite Hmax. reflexivity.
Qed.

Lemma parse_ints_all (toks : list string) (values : list Z) :
  Forall (fun t => t <> EmptyString /\ all_chars is_digit t = true) toks ->
  Forall (fun t => strconv.digits_val t 0 <= strconv.maxInt64) toks ->
  parse_ints toks values
  = (values ++ map (fun t => strconv.digits_val t 0) toks, None).
Proof.
  revert values. induction toks as [|t toks IH]; intros values Hd Hm; simpl.
  - rewrite app_nil_r. reflexivity.
  - inversion Hd as [|? ? [Hne Hdig] Hd']; subst.
    inversion Hm as [|? ? Hmax Hm']; subst.
    rewrite (ParseInt_digits t Hne Hdig Hmax), IH by assumption.
    rewrite <- app_assoc. reflexivity.
Qed.

(* ================================================================== *)
(** * Formatting with no operand *)

Lemma doPrintf_literal (n : nat) (s : string) :
  has_char "%" s = false -> (String.length s < n)%nat -> fmt.doPrintf n s = s.
Proof.
  revert n. induction s as [|c s IH]; intros n Hp Hn.
  - destruct n; reflexivity.
  - destruct n as [|n]; [simpl in Hn; lia|].
    cbn [has_char] in Hp. apply orb_false_iff in Hp as [Hc Hs].
    cbn [fmt.doPrintf]. rewrite Ascii.eqb_sym, Hc.
    rewrite IH; [reflexivity | assumption | simpl in Hn; lia].
Qed.

(** A format with no [%] in it is printed as it is. *)
Lemma Sprintf0_literal (s : string) :
  has_char "%" s = false -> fmt.Sprintf0 s = s.
Proof.
  intros H. unfold fmt.Sprintf0. apply doPrintf_literal; [assumption | lia].
Qed.

(* ================================================================== *)
(** * One exchange: [execCommand] *)

Lemma execCommand_ok (w : World) (command chunk rest : string) :
  read_until ">" (incoming w) = Some (chunk, rest) ->
  matchOK_MatchString chunk = true ->
  execCommand liveConn command w
  = Done (strings.TrimSpace chunk, None) (exchanged command rest w).
Proof.
  intros Hr Hok.
  unfold execCommand, bind, conn_Write, conn_ReadString, emit.
  cbn [incoming emit_in]. rewrite Hr, Hok. reflexivity.
Qed.

Lemma execCommand_not_ok (w : World) (command chunk rest : string) :
  read_until ">" (incoming w) = Some (chunk, rest) ->
  matchOK_MatchString chunk = false ->
  execCommand liveConn command w
  = Done (EmptyString, Some (fmt.Errorf (strings.TrimSpace chunk)))
         (exchanged command rest w).
Proof.
  intros Hr Hok.
  unfold execCommand, bind, conn_Write, conn_ReadString, emit.
  cbn [incoming emit_in]. rewrite Hr, Hok. reflexivity.
Qed.

Lemma execCommand_eof (w : World) (command : string) :
  read_until ">" (incoming w) = None ->
  execCommand liveConn command w
  = Done (EmptyString, Some (ErrNet "EOF")) (exchanged command EmptyString w).
Proof.
  intros Hr.
  unfold execCommand, bind, conn_Write, conn_ReadString, emit.
  cbn [incoming emit_in]. rewrite Hr. reflexivity.
Qed.

(** A response without the success token and without a [%] gives an error
    whose message is the trimmed response. *)
Lemma execCommand_error_plain (w : World) (command chunk rest : string) :
  read_until ">" (incoming w) = Some (chunk, rest) ->
  matchOK_MatchString chunk = false ->
  has_char "%" (strings.TrimSpace chunk) = false ->
  execCommand liveConn command w
  = Done (EmptyString, Some (ErrText (strings.TrimSpace chunk)))
         (exchanged command rest w).
Proof.
  intros Hr Hok Hp. rewrite (execCommand_not_ok w command chunk rest Hr Hok).
  unfold fmt.Errorf. rewrite (Sprintf0_literal _ Hp). reflexivity.
Qed.

(** C5.  The device answers [ERR 100%] before the prompt: no success token,
    so the exchange is an error, but its message is not the trimmed response
    [ERR 100%>]: the response went through [fmt.Errorf] as a format, and the
    [%] in it is printed as a complaint about a missing operand. *)
Theorem execCommand_error_message_reformatted :
  strings.TrimSpace "ERR 100%>" = "ERR 100%>" /\
  matchOK_MatchString "ERR 100%>" = false /\
  execCommand liveConn "getWl" (world_with "ERR 100%>")
  = Done (EmptyString, Some (ErrText "ERR 100%!>(MISSING)"))
         (exchanged "getWl" EmptyString (world_with "ERR 100%>")).
Proof. repeat split; vm_compute; reflexivity. Qed.

(* ================================================================== *)
(** * The two response parsers *)

(** C3 (amended).  For every successful exchange (the text read up to the
    prompt holds the success token) whose trimmed text has the integer tokens
    [t0 :: toks], each of [toks] within int64: the integer-response parser
    returns the values of [toks], in order and with no error.  The token it
    drops is [t0], the first integer token, whatever it stands for; the
    echoed command name is not an integer token and is never among them. *)
Theorem chompAllInts_drops_first_integer
        (w : World) (command chunk rest t0 : string) (toks : list string) :
  read_until ">" (incoming w) = Some (chunk, rest) ->
  matchOK_MatchString chunk = true ->
  matchInts_FindAllString (strings.TrimSpace chunk) = t0 :: toks ->
  Forall (fun t => strconv.digits_val t 0 <= strconv.maxInt64) toks ->
  chompAllInts liveConn command w
  = Done (map (fun t => strconv.digits_val t 0) toks, None)
         (exchanged command rest w).
Proof.
  intros Hr Hok Htok Hmax.
  unfold chompAllInts, bind.
  rewrite (execCommand_ok w command chunk rest Hr Hok).
  rewrite Htok. unfold slice_from. cbn [List.length Nat.leb skipn ret].
  pose proof (matchInts_tokens (strings.TrimSpace chunk)) as Hd.
  rewrite Htok in Hd. inversion Hd as [|? ? _ Hd']; subst.
  rewrite (parse_ints_all toks [] Hd' Hmax). reflexivity.
Qed.

Lemma chompAllInts_drops_first_integer_witness :
  chompAllInts liveConn "getAllRelPower"
               (world_with ("getAllRelPower" ++ CRLF ++ "OK 100 200 300" ++ CRLF ++ ">"))
  = Done ([200; 300], None)
         (exchanged "getAllRelPower" EmptyString
            (world_with ("getAllRelPower" ++ CRLF ++ "OK 100 200 300" ++ CRLF ++ ">"))).
Proof.
  apply (chompAllInts_drops_first_integer
           (world_with ("getAllRelPower" ++ CRLF ++ "OK 100 200 300" ++ CRLF ++ ">"))
           "getAllRelPower"
           ("getAllRelPower" ++ CRLF ++ "OK 100 200 300" ++ CRLF ++ ">")
           EmptyString "100" ["200"; "300"]).
  - reflexivity.
  - reflexivity.
  - reflexivity.
  - repeat constructor; vm_compute; discriminate.
Defined.

(** C3, as stated, fails: the device echoes the command and lists three
    power levels; stripping the echo leaves 100, 200, 300, but the parser
    returns 200 and 300 only: the value 100 is lost. *)
Lemma chompAllInts_loses_first_power :
  let response := ("getAllRelPower" ++ CRLF ++ "OK 100 200 300" ++ CRLF ++ ">")%string in
  spec_power_values "getAllRelPower" (strings.TrimSpace response) = [100; 200; 300] /\
  returned (chompAllInts liveConn "getAllRelPower" (world_with response))
  = Some ([200; 300], None) /\
  returned (chompAllInts liveConn "getAllRelPower" (world_with response))
  <> Some (spec_power_values "getAllRelPower" (strings.TrimSpace response), None).
Proof.
  cbv zeta. split; [vm_compute; reflexivity|].
  split; [vm_compute; reflexivity|]. vm_compute. discriminate.
Qed.

(** C4 (amended).  For every successful [getWl] exchange (the text read up
    to the first prompt holds the success token) the string-response parser
    returns all the word tokens of the trimmed text but the first, with no
    error and no panic.  The token dropped is the first word, whatever it is:
    the echo when the echo is in the text, the success token when it comes
    first. *)
Theorem getWl_drops_first_word (w : World) (chunk rest : string) :
  read_until ">" (incoming w) = Some (chunk, rest) ->
  matchOK_MatchString chunk = true ->
  exists t0 labels,
    matchStrings_FindAllString (strings.TrimSpace chunk) = t0 :: labels /\
    getWl liveConn w = Done (labels, None) (exchanged "getWl" rest w).
Proof.
  intros Hr Hok.
  destruct (words_of_ok_text chunk Hok) as [t0 [labels Hw]].
  exists t0, labels. split; [exact Hw|].
  unfold getWl, chompAllStrings, bind.
  rewrite (execCommand_ok w "getWl" chunk rest Hr Hok).
  rewrite Hw. reflexivity.
Qed.

Lemma getWl_drops_first_word_witness :
  exists t0 labels,
    matchStrings_FindAllString (strings.TrimSpace ("OK a b c" ++ CRLF ++ ">"))
    = t0 :: labels /\
    getWl liveConn (world_with ("OK a b c" ++ CRLF ++ ">"))
    = Done (labels, None)
           (exchanged "getWl" EmptyString (world_with ("OK a b c" ++ CRLF ++ ">"))).
Proof.
  apply (getWl_drops_first_word (world_with ("OK a b c" ++ CRLF ++ ">"))
                                ("OK a b c" ++ CRLF ++ ">") EmptyString);
    reflexivity.
Defined.

(** C4, as stated, fails.  On the stream [getWl> OK a b c >] the read stops
    at the first prompt, the text [getWl>] has no success token, and the
    exchange is an error with no label at all.  With the echo and the answer
    in one text, the echo goes and the success token stays: the labels are
    [OK, a, b, c]. *)
Lemma getWl_does_not_yield_a_b_c :
  returned (getWl liveConn (world_with "getWl> OK a b c >"))
  = Some ([], Some (ErrText "getWl>")) /\
  returned (getWl liveConn (world_with "getWl> OK a b c >"))
  <> Some (["a"; "b"; "c"], None) /\
  returned (getWl liveConn (world_with ("getWl" ++ CRLF ++ "OK a b c" ++ CRLF ++ ">")))
  = Some (["OK"; "a"; "b"; "c"], None) /\
  returned (getWl liveConn (world_with ("getWl" ++ CRLF ++ "OK a b c" ++ CRLF ++ ">")))
  <> Some (["a"; "b"; "c"], None).
Proof.
  repeat split; try (vm_compute; reflexivity); vm_compute; discriminate.
Qed.

(* ================================================================== *)
(** * Worlds and traces *)

Lemma add_trace_emit (e : Event) (evs : list Event) (w : World) :
  add_trace evs (emit_in e w) = add_trace (e :: evs) w.
Proof.
  unfold add_trace, emit_in. cbn [clock dials udps prime incoming trace].
  rewrite <- app_assoc. reflexivity.
Qed.

Lemma add_trace_nil (w : World) : add_trace [] w = w.
Proof. destruct w. unfold add_trace. cbn. rewrite app_nil_r. reflexivity. Qed.

Lemma extends_refl (w : World) : extends w w [].
Proof. unfold extends. rewrite app_nil_r. auto. Qed.

Lemma extends_trans (w1 w2 w3 : World) (e1 e2 : list Event) :
  extends w1 w2 e1 -> extends w2 w3 e2 -> extends w1 w3 (e1 ++ e2).
Proof.
  unfold extends. intros (Ht1 & Hd1 & Hp1 & Hi1) (Ht2 & Hd2 & Hp2 & Hi2).
  rewrite Ht2, Ht1, app_assoc. repeat split; congruence.
Qed.

Lemma extends_emit (e : Event) (w : World) : extends w (emit_in e w) [e].
Proof. unfold extends, emit_in. cbn. auto. Qed.

Lemma extends_add_trace (evs : list Event) (w : World) :
  extends w (add_trace evs w) evs.
Proof. unfold extends, add_trace. cbn. auto. Qed.

Create HintDb world.

#[local] Hint Resolve extends_refl extends_emit extends_add_trace : world.

Lemma aside_log_err (e : error) : aside (EvLog (LogErr e)).
Proof. split; reflexivity. Qed.

#[local] Hint Resolve aside_log_err : world.

(* ================================================================== *)
(** * Telemetry: [writeMetrics] and the loop around it *)

Lemma add_fields_done (wavelengths : list string) (values : list float64) :
  forall (i : nat) (m : Measurement) (w : World),
    (i + List.length values = List.length wavelengths)%nat ->
    exists m' evs,
      add_fields wavelengths i values m w = Done m' (add_trace evs w) /\
      Forall aside evs.
Proof.
  induction values as [|v rest IH]; intros i m w Hlen.
  - exists m, []. rewrite add_trace_nil. split; [reflexivity | constructor].
  - cbn [add_fields]. unfold bind, index.
    destruct (nth_error wavelengths i) as [ws|] eqn:Hn.
    2:{ apply nth_error_None in Hn. cbn [List.length] in Hlen. lia. }
    cbn [ret].
    assert (Hlen' : (S i + List.length rest = List.length wavelengths)%nat)
      by (cbn [List.length] in Hlen; lia).
    destruct (strconv.ParseInt ws) as [wl|err].
    + apply IH. exact Hlen'.
    + unfold logErr, logLine, emit.
      destruct (IH (S i) m (emit_in (EvLog (LogErr err)) w) Hlen') as (m' & evs & Hrun & Hev).
      exists m', (EvLog (LogErr err) :: evs).
      rewrite Hrun, add_trace_emit. split; [reflexivity|].
      constructor; auto with world.
Qed.

Lemma writeMetrics_done (cfg : Config) (wl : list string) (vals : list float64)
      (w : World) :
  exists r w' evs,
    writeMetrics cfg wl vals w = Done r w' /\
    extends w w' evs /\ Forall aside evs /\ clock w' = clock w.
Proof.
  unfold writeMetrics.
  destruct (noMetrics cfg); cbn [negb].
  { exists None, w, []. split; [reflexivity|]. split; [|split]; auto with world. }
  set (host := if String.eqb (env_TELEGRAF_HOST cfg) EmptyString
               then "telegraf:8092" else env_TELEGRAF_HOST cfg).
  unfold bind at 1. unfold telegraf_NewUDP.
  assert (Hbody : forall w1, extends w w1 [EvUDPOpen host] -> clock w1 = clock w ->
    exists r w' evs,
      with_defer (emit EvUDPClose)
        (if negb (List.length wl =? List.length vals)%nat
         then ret (Some (fmt.Errorf "wavelengths and light values differ"))
         else
           m <- add_fields wl 0 vals (NewMeasurement "helio-light") ;;
           emit (EvMetric
                   (add_tag_if "user" (userTag cfg)
                      (add_tag_if "group" (groupTag cfg)
                         (add_tag_if "host" (hostTag cfg) m)))) ;;
           ret None) w1 = Done r w' /\
      extends w w' evs /\ Forall aside evs /\ clock w' = clock w).
  { intros w1 Hext Hclk. unfold with_defer.
    destruct (List.length wl =? List.length vals)%nat eqn:Hl; cbn [negb].
    - apply Nat.eqb_eq in Hl.
      destruct (add_fields_done wl vals 0%nat (NewMeasurement "helio-light") w1)
        as (m' & evs & Hrun & Hev); [cbn; lia|].
      unfold bind. rewrite Hrun. cbn [emit ret].
      eexists _, _, _. split; [reflexivity|]. split; [|split].
      + eapply extends_trans; [exact Hext|].
        eapply extends_trans; [apply extends_add_trace|].
        eapply extends_trans; apply extends_emit.
      + constructor; [split; reflexivity|].
        apply Forall_app. split; [exact Hev|].
        repeat constructor.
      + cbn. exact Hclk.
    - cbn [ret emit].
      eexists _, _, _. split; [reflexivity|]. split; [|split].
      + eapply extends_trans; [exact Hext | apply extends_emit].
      + repeat constructor.
      + cbn. exact Hclk. }
  destruct (udps w) as [|r us] eqn:Hu; cbn [udps emit_in].
  - rewrite Hu. apply Hbody; [auto with world | reflexivity].
  - rewrite Hu. destruct r as [e|].
    + eexists _, _, [EvUDPOpen host]. split; [reflexivity|].
      split; [|split].
      * unfold extends. cbn. auto.
      * repeat constructor.
      * reflexivity.
    + apply Hbody; [unfold extends; cbn; auto | reflexivity].
Qed.

Lemma metrics_loop_done (cfg : Config) (n : nat) (wl : list string)
      (vals : list float64) :
  forall w, exists w' evs,
    metrics_loop cfg n wl vals w = Done tt w' /\
    extends w w' evs /\ Forall aside evs.
Proof.
  induction n as [|n IH]; intros w.
  - exists w, []. split; [reflexivity|]. split; auto with world.
  - cbn [metrics_loop]. unfold bind at 1.
    destruct (writeMetrics_done cfg wl vals w) as (r & w1 & e1 & Hrun & Hext & Hev & _).
    rewrite Hrun. destruct r as [e|].
    + unfold bind, logErr, logLine, emit, time_Sleep.
      destruct (IH (advance (Z.max (200 * Millisecond) 0)
                      (emit_in (EvSleep (200 * Millisecond))
                         (emit_in (EvLog (LogErr e)) w1))))
        as (w2 & e2 & Hrun2 & Hext2 & Hev2).
      exists w2, (e1 ++ [EvLog (LogErr e); EvSleep (200 * Millisecond)] ++ e2).
      split; [exact Hrun2|]. split.
      * eapply extends_trans; [exact Hext|].
        eapply extends_trans; [|exact Hext2].
        unfold extends, advance, emit_in. cbn.
        rewrite <- app_assoc. auto.
      * apply Forall_app. split; [exact Hev|].
        apply Forall_app. split; [|exact Hev2].
        repeat constructor.
    + exists w1, e1. auto.
Qed.

(** C10.  With metrics enabled, a telemetry call whose wavelength labels and
    values differ in number returns an error (the failure to open the udp
    client, or "wavelengths and light values differ") and none of the events
    it adds is a measurement written: nothing is truncated or padded. *)
Theorem writeMetrics_mismatch_writes_nothing
        (cfg : Config) (wl : list string) (vals : list float64) (w : World) :
  noMetrics cfg = false ->
  List.length wl <> List.length vals ->
  exists e w' evs,
    writeMetrics cfg wl vals w = Done (Some e) w' /\
    trace w' = trace w ++ evs /\
    filter is_metric evs = [].
Proof.
  intros Hm Hlen. unfold writeMetrics. rewrite Hm. cbn [negb].
  apply Nat.eqb_neq in Hlen.
  unfold bind, telegraf_NewUDP, with_defer.
  destruct (udps w) as [|r us] eqn:Hu; cbn [udps emit_in]; rewrite Hu.
  - rewrite Hlen. cbn [negb ret emit].
    eexists _, _, [_; _]. split; [reflexivity|]. cbn.
    rewrite <- app_assoc. split; reflexivity.
  - destruct r as [e|].
    + eexists _, _, [_]. split; [reflexivity|]. cbn. split; reflexivity.
    + rewrite Hlen. cbn [negb ret emit].
      eexists _, _, [_; _]. split; [reflexivity|]. cbn.
      rewrite <- app_assoc. split; reflexivity.
Qed.

Lemma writeMetrics_mismatch_writes_nothing_witness :
  exists e w' evs,
    writeMetrics demo_cfg ["450"; "660"; "735"]
                 [f64_of_int 50; f64_of_int 75] (world_at 0 [] [])
    = Done (Some e) w' /\
    trace w' = trace (world_at 0 [] []) ++ evs /\
    filter is_metric evs = [].
Proof.
  apply (writeMetrics_mismatch_writes_nothing
           demo_cfg ["450"; "660"; "735"] [f64_of_int 50; f64_of_int 75]
           (world_at 0 [] [])).
  - reflexivity.
  - cbn. lia.
Defined.

(* ================================================================== *)
(** * One entry execution: [runStuff] *)

Lemma parse_values_done (l : list string) :
  forall w, parse_values l w = Done (parsed_values l) (add_trace (parse_logs l) w).
Proof.
  induction l as [|v rest IH]; intros w.
  - cbn. rewrite add_trace_nil. reflexivity.
  - cbn [parse_values parsed_values parse_logs].
    destruct (ParseFloat (matchFloat_FindString v)) as [fl|err].
    + unfold bind. rewrite IH. reflexivity.
    + unfold bind, logErr, logLine, emit. rewrite IH, add_trace_emit. reflexivity.
Qed.

Lemma getWl_ok (w : World) (chunk rest t0 : string) (labels : list string) :
  read_until ">" (incoming w) = Some (chunk, rest) ->
  matchOK_MatchString chunk = true ->
  matchStrings_FindAllString (strings.TrimSpace chunk) = t0 :: labels ->
  getWl liveConn w = Done (labels, None) (exchanged "getWl" rest w).
Proof.
  intros Hr Hok Hw.
  unfold getWl, chompAllStrings, bind.
  rewrite (execCommand_ok w "getWl" chunk rest Hr Hok).
  rewrite Hw. reflexivity.
Qed.

Lemma runStuff_to_send (X : Extern) (cfg : Config) (t : Time) (ls : list string)
      (w : World) (took : Duration) (inc : string) (ds : list DialOutcome)
      (c1 r1 t0 : string) (labels : list string) :
  (4 <= List.length ls)%nat ->
  dials w = DialOk took None inc :: ds ->
  read_until ">" inc = Some (c1, r1) ->
  matchOK_MatchString c1 = true ->
  matchStrings_FindAllString (strings.TrimSpace c1) = t0 :: labels ->
  runStuff cfg t ls w
  = with_defer (emit EvClose)
      (send_targets cfg t liveConn labels (parsed_values (skipn 4 ls)))
      (exchanged "getWl" r1 (dialled took ds inc (parse_logs (skipn 4 ls)) w)).
Proof.
  intros Hlen Hd Hr Hok Hw.
  unfold runStuff. unfold bind at 1. unfold slice_from.
  apply Nat.leb_le in Hlen. rewrite Hlen. cbn [ret].
  unfold bind at 1. rewrite parse_values_done.
  unfold bind at 1. unfold telnet_DialTimeout.
  cbn [dials emit_in add_trace clock udps prime incoming trace]. rewrite Hd.
  fold (dialled took ds inc (parse_logs (skipn 4 ls)) w).
  unfold defer_Close, with_defer.
  unfold bind at 1. unfold conn_SkipUntil.
  cbn [prime dialled]. fold (dialled took ds inc (parse_logs (skipn 4 ls)) w).
  unfold bind at 1.
  rewrite (getWl_ok (dialled took ds inc (parse_logs (skipn 4 ls)) w) c1 r1 t0 labels Hr Hok Hw).
  reflexivity.
Qed.

Lemma min_len (a b : nat) : min (Z.of_nat a) (Z.of_nat b) = Z.of_nat (Nat.min a b).
Proof.
  unfold min. destruct (Z.ltb_spec (Z.of_nat a) (Z.of_nat b)); lia.
Qed.

Lemma warn_condition (a b : nat) :
  negb (Z.of_nat a =? Z.of_nat (Nat.min b a)) = (b <? a)%nat.
Proof.
  destruct (Nat.ltb_spec b a) as [H|H].
  - rewrite Nat.min_l by lia. apply negb_true_iff, Z.eqb_neq. lia.
  - rewrite Nat.min_r by lia. rewrite Z.eqb_refl. reflexivity.
Qed.

Lemma send_core (X : Extern) (cfg : Config) (t : Time) (wl : list string)
      (vals sent : list float64) (w : World) :
  exists b w' tail,
    (err <- setMany cfg liveConn sent ;;
     match err with
     | Some e => logErr e ;; ret false
     | None =>
         logLine (LogRan t vals) ;;
         metrics_loop cfg 5 wl vals ;;
         ret true
     end) w = Done b w' /\
    trace w' = trace w ++ [EvWrite (setMany_command cfg sent ++ LF)] ++ tail /\
    Forall aside tail /\
    (forall c2 r2, read_until ">" (incoming w) = Some (c2, r2) ->
                   matchOK_MatchString c2 = true -> b = true).
Proof.
  unfold bind at 1. unfold setMany. unfold bind at 1.
  destruct (read_until ">" (incoming w)) as [[c2 r2]|] eqn:Hr.
  - destruct (matchOK_MatchString c2) eqn:Hok.
    + rewrite (execCommand_ok w _ c2 r2 Hr Hok). cbn [ret].
      unfold bind at 1. unfold logLine, emit. unfold bind at 1.
      destruct (metrics_loop_done cfg 5 wl vals
                  (emit_in (EvLog (LogRan t vals))
                     (exchanged (setMany_command cfg sent) r2 w)))
        as (w' & evs & Hrun & Hext & Hev).
      rewrite Hrun. cbn [ret].
      exists true, w', (EvLog (LogRan t vals) :: evs).
      split; [reflexivity|]. split; [|split].
      * destruct Hext as (Ht & _). rewrite Ht. unfold exchanged, emit_in. cbn.
        rewrite <- !app_assoc. reflexivity.
      * constructor; [split; reflexivity | exact Hev].
      * reflexivity.
    + rewrite (execCommand_not_ok w _ c2 r2 Hr Hok). cbn [ret].
      unfold bind, logErr, logLine, emit, ret.
      eexists false, _, [_]. split; [reflexivity|]. split; [|split].
      * unfold exchanged, emit_in. cbn. rewrite <- !app_assoc. reflexivity.
      * repeat constructor.
      * intros c r Hc. injection Hc as <- <-. congruence.
  - rewrite (execCommand_eof w _ Hr). cbn [ret].
    unfold bind, logErr, logLine, emit, ret.
    eexists false, _, [_]. split; [reflexivity|]. split; [|split].
    * unfold exchanged, emit_in. cbn. rewrite <- !app_assoc. reflexivity.
    * repeat constructor.
    * intros c r Hc. discriminate.
Qed.

Lemma send_targets_trace (X : Extern) (cfg : Config) (t : Time)
      (wl : list string) (vals : list float64) (w : World) :
  exists b w' tail,
    send_targets cfg t liveConn wl vals w = Done b w' /\
    trace w' = trace w
               ++ (if (List.length wl <? List.length vals)%nat
                   then [mismatch_warning] else [])
               ++ [EvWrite (setMany_command cfg
                      (firstn (Nat.min (List.length wl) (List.length vals)) vals)
                    ++ LF)]
               ++ tail /\
    Forall aside tail /\
    (forall c2 r2, read_until ">" (incoming w) = Some (c2, r2) ->
                   matchOK_MatchString c2 = true -> b = true).
Proof.
  unfold send_targets, len. rewrite min_len, Nat2Z.id, warn_condition.
  unfold bind at 1.
  destruct (List.length wl <? List.length vals)%nat.
  - unfold logLine, emit.
    destruct (send_core X cfg t wl vals
                (firstn (Nat.min (List.length wl) (List.length vals)) vals)
                (emit_in mismatch_warning w))
      as (b & w' & tail & Hrun & Ht & Hev & Hb).
    exists b, w', tail. split; [exact Hrun|]. split; [|split; [exact Hev | exact Hb]].
    rewrite Ht. unfold emit_in. cbn. rewrite <- !app_assoc. reflexivity.
  - cbn [ret]. apply send_core.
Qed.

Lemma parse_logs_aside (l : list string) : Forall aside (parse_logs l).
Proof.
  induction l as [|v rest IH]; cbn [parse_logs]; [constructor|].
  destruct (ParseFloat (matchFloat_FindString v)); [exact IH|].
  constructor; [split; reflexivity | exact IH].
Qed.

Lemma filter_write_aside (evs : list Event) :
  Forall aside evs -> filter is_write evs = [].
Proof.
  induction 1 as [|e evs [_ He] _ IH]; [reflexivity|].
  cbn [filter]. rewrite He. exact IH.
Qed.

Lemma filter_text_aside (evs : list Event) :
  Forall aside evs -> filter is_text evs = [].
Proof.
  induction 1 as [|e evs [He _] _ IH]; [reflexivity|].
  cbn [filter]. rewrite He. exact IH.
Qed.

Lemma filter_log_parse_logs (l : list string) :
  filter is_log (parse_logs l) = parse_logs l.
Proof.
  induction l as [|v rest IH]; cbn [parse_logs]; [reflexivity|].
  destruct (ParseFloat (matchFloat_FindString v)); [exact IH|].
  cbn [filter is_log]. rewrite IH. reflexivity.
Qed.

Lemma metrics_loop_differ (cfg : Config) (wl : list string) (vals : list float64) :
  noMetrics cfg = false ->
  List.length wl <> List.length vals ->
  forall (n : nat) (w : World),
  exists w' evs,
    metrics_loop cfg n wl vals w = Done tt w' /\
    trace w' = trace w ++ evs /\
    filter is_log evs = map log_err (attempt_errors n (udps w)) /\
    filter is_write evs = [] /\ filter is_text evs = [].
Proof.
  intros Hm Hne.
  apply Nat.eqb_neq in Hne.
  induction n as [|n IH]; intros w.
  - exists w, []. rewrite app_nil_r. repeat split.
  - cbn [metrics_loop]. unfold bind at 1. unfold writeMetrics.
    rewrite Hm. cbn [negb].
    unfold bind at 1. unfold telegraf_NewUDP.
    cbn [udps emit_in clock dials prime incoming trace].
    set (host := if String.eqb (env_TELEGRAF_HOST cfg) EmptyString
                 then "telegraf:8092" else env_TELEGRAF_HOST cfg).
    destruct (udps w) as [|[e|] us] eqn:Hu.
    + unfold with_defer. rewrite Hne. cbn [negb ret emit].
      unfold bind, logErr, logLine, emit, time_Sleep.
      match goal with |- context [metrics_loop cfg n wl vals ?w0] =>
        destruct (IH w0) as (w' & evs & Hrun & Ht & Hl & Hw & Hx) end.
      rewrite Hrun. eexists w', (_ :: _ :: _ :: _ :: evs).
      split; [reflexivity|]. split; [|split; [|split]].
      * rewrite Ht. cbn. rewrite <- !app_assoc. reflexivity.
      * cbn [filter is_log map attempt_errors]. rewrite Hl. cbn. rewrite Hu.
        reflexivity.
      * cbn [filter is_write]. exact Hw.
      * cbn [filter is_text]. exact Hx.
    + cbn [ret]. unfold bind, logErr, logLine, emit, time_Sleep.
      match goal with |- context [metrics_loop cfg n wl vals ?w0] =>
        destruct (IH w0) as (w' & evs & Hrun & Ht & Hl & Hw & Hx) end.
      rewrite Hrun. eexists w', (_ :: _ :: _ :: evs).
      split; [reflexivity|]. split; [|split; [|split]].
      * rewrite Ht. cbn. rewrite <- !app_assoc. reflexivity.
      * cbn [filter is_log map attempt_errors]. rewrite Hl. cbn. reflexivity.
      * cbn [filter is_write]. exact Hw.
      * cbn [filter is_text]. exact Hx.
    + unfold with_defer. rewrite Hne. cbn [negb ret emit].
      unfold bind, logErr, logLine, emit, time_Sleep.
      match goal with |- context [metrics_loop cfg n wl vals ?w0] =>
        destruct (IH w0) as (w' & evs & Hrun & Ht & Hl & Hw & Hx) end.
      rewrite Hrun. eexists w', (_ :: _ :: _ :: _ :: evs).
      split; [reflexivity|]. split; [|split; [|split]].
      * rewrite Ht. cbn. rewrite <- !app_assoc. reflexivity.
      * cbn [filter is_log map attempt_errors]. rewrite Hl. cbn. reflexivity.
      * cbn [filter is_write]. exact Hw.
      * cbn [filter is_text]. exact Hx.
Qed.

Lemma metrics_loop_mismatch_logs (cfg : Config) (wl : list string)
      (vals : list float64) (w : World) :
  List.length wl <> List.length vals ->
  exists w' evs,
    metrics_loop cfg 5 wl vals w = Done tt w' /\
    trace w' = trace w ++ evs /\
    filter is_log evs
    = (if noMetrics cfg then []
       else map log_err (attempt_errors 5 (udps w))) /\
    filter is_write evs = [] /\ filter is_text evs = [].
Proof.
  intros Hne. destruct (noMetrics cfg) eqn:Hm.
  - exists w, []. rewrite app_nil_r. repeat split.
    cbn [metrics_loop]. unfold bind, writeMetrics. rewrite Hm. reflexivity.
  - apply metrics_loop_differ; assumption.
Qed.

Lemma send_targets_logs (X : Extern) (cfg : Config) (t : Time)
      (wl : list string) (vals : list float64) (w : World) :
  exists b w' tail,
    send_targets cfg t liveConn wl vals w = Done b w' /\
    trace w' = trace w
               ++ (if (List.length wl <? List.length vals)%nat
                   then [mismatch_warning] else [])
               ++ [EvWrite (setMany_command cfg
                      (firstn (Nat.min (List.length wl) (List.length vals)) vals)
                    ++ LF)]
               ++ tail /\
    filter is_write tail = [] /\ filter is_text tail = [] /\
    (b = true -> List.length wl <> List.length vals ->
     filter is_log tail
     = EvLog (LogRan t vals)
       :: (if noMetrics cfg then []
           else map log_err (attempt_errors 5 (udps w)))).
Proof.
  unfold send_targets, len. rewrite min_len, Nat2Z.id, warn_condition.
  set (sent := firstn (Nat.min (List.length wl) (List.length vals)) vals).
  assert (Hcore : forall w0, udps w0 = udps w ->
    exists b w' tail,
      (err <- setMany cfg liveConn sent ;;
       match err with
       | Some e => logErr e ;; ret false
       | None =>
           logLine (LogRan t vals) ;;
           metrics_loop cfg 5 wl vals ;;
           ret true
       end) w0 = Done b w' /\
      trace w' = trace w0 ++ [EvWrite (setMany_command cfg sent ++ LF)] ++ tail /\
      filter is_write tail = [] /\ filter is_text tail = [] /\
      (b = true -> List.length wl <> List.length vals ->
       filter is_log tail
       = EvLog (LogRan t vals)
         :: (if noMetrics cfg then []
             else map log_err (attempt_errors 5 (udps w))))).
  { intros w0 Hu.
    unfold bind at 1. unfold setMany. unfold bind at 1.
    destruct (read_until ">" (incoming w0)) as [[c2 r2]|] eqn:Hr.
    - destruct (matchOK_MatchString c2) eqn:Hok.
      + rewrite (execCommand_ok w0 _ c2 r2 Hr Hok). cbn [ret].
        unfold bind at 1. unfold logLine, emit. unfold bind at 1.
        destruct (Nat.eq_dec (List.length wl) (List.length vals)) as [He|Hne].
        * destruct (metrics_loop_done cfg 5 wl vals
                      (emit_in (EvLog (LogRan t vals))
                         (exchanged (setMany_command cfg sent) r2 w0)))
            as (w' & evs & Hrun & Hext & Hev).
          rewrite Hrun. cbn [ret].
          exists true, w', (EvLog (LogRan t vals) :: evs).
          split; [reflexivity|]. split; [|split; [|split]].
          -- destruct Hext as (Ht & _). rewrite Ht. unfold exchanged, emit_in. cbn.
             rewrite <- !app_assoc. reflexivity.
          -- cbn [filter is_write]. apply filter_write_aside, Hev.
          -- cbn [filter is_text]. apply filter_text_aside, Hev.
          -- intros _ Hne. contradiction.
        * destruct (metrics_loop_mismatch_logs cfg wl vals
                      (emit_in (EvLog (LogRan t vals))
                         (exchanged (setMany_command cfg sent) r2 w0)) Hne)
            as (w' & evs & Hrun & Ht & Hl & Hw & Hx).
          rewrite Hrun. cbn [ret].
          exists true, w', (EvLog (LogRan t vals) :: evs).
          split; [reflexivity|]. split; [|split; [|split]].
          -- rewrite Ht. unfold exchanged, emit_in. cbn.
             rewrite <- !app_assoc. reflexivity.
          -- cbn [filter is_write]. exact Hw.
          -- cbn [filter is_text]. exact Hx.
          -- intros _ _. cbn [filter is_log]. rewrite Hl.
             cbn [udps emit_in exchanged set_incoming]. rewrite Hu. reflexivity.
      + rewrite (execCommand_not_ok w0 _ c2 r2 Hr Hok). cbn [ret].
        unfold bind, logErr, logLine, emit, ret.
        eexists false, _, [_]. split; [reflexivity|]. split; [|split; [|split]].
        * unfold exchanged, emit_in. cbn. rewrite <- !app_assoc. reflexivity.
        * reflexivity.
        * reflexivity.
        * discriminate.
    - rewrite (execCommand_eof w0 _ Hr). cbn [ret].
      unfold bind, logErr, logLine, emit, ret.
      eexists false, _, [_]. split; [reflexivity|]. split; [|split; [|split]].
      * unfold exchanged, emit_in. cbn. rewrite <- !app_assoc. reflexivity.
      * reflexivity.
      * reflexivity.
      * discriminate. }
  unfold bind at 1.
  destruct (List.length wl <? List.length vals)%nat.
  - unfold logLine, emit.
    destruct (Hcore (emit_in mismatch_warning w) eq_refl)
      as (b & w' & tail & Hrun & Ht & Hrest).
    exists b, w', tail. split; [exact Hrun|]. split; [|exact Hrest].
    rewrite Ht. unfold emit_in. cbn. rewrite <- !app_assoc. reflexivity.
  - cbn [ret]. apply (Hcore w eq_refl).
Qed.

(** C8 (amended).  In every entry execution that gets the wavelength labels
    (the row has its four leading columns, the dial and the priming succeed,
    [getWl] is answered with the success token): the bytes written to the
    device are [getWl] and then [setWlsRelPower] with the first
    [min(labels, values)] target values, so the vector sent has the shorter
    of the two lengths; and the only fixed log line of the execution is the
    warning "Different number of light values than wavelengths", logged once
    when the values outnumber the labels and not at all when the labels
    outnumber the values.  When the numbers differ and the device
    acknowledges the command, the log lines of the execution are, in all and
    in this order: the parse errors of the row, that warning if it is due,
    the "ran" line, and, unless metrics are off, the errors of the five
    telemetry writes, each the failure to open the udp client or
    "wavelengths and light values differ".  So with metrics on the mismatch
    is reported in either direction by the failed telemetry writes, and with
    metrics off more labels than values are not reported at all. *)
Theorem runStuff_truncates_and_warns_one_way
        (X : Extern) (cfg : Config) (t : Time) (ls : list string) (w : World)
        (took : Duration) (inc : string) (ds : list DialOutcome) (c1 r1 : string) :
  (4 <= List.length ls)%nat ->
  dials w = DialOk took None inc :: ds ->
  read_until ">" inc = Some (c1, r1) ->
  matchOK_MatchString c1 = true ->
  let vals := parsed_values (skipn 4 ls) in
  let wl := tl (matchStrings_FindAllString (strings.TrimSpace c1)) in
  let sent := firstn (Nat.min (List.length wl) (List.length vals)) vals in
  let warning :=
    if (List.length wl <? List.length vals)%nat then [mismatch_warning] else [] in
  exists b w' evs,
    runStuff cfg t ls w = Done b w' /\
    trace w' = trace w ++ evs /\
    filter is_write evs
    = [EvWrite ("getWl" ++ LF); EvWrite (setMany_command cfg sent ++ LF)] /\
    List.length sent = Nat.min (List.length wl) (List.length vals) /\
    filter is_text evs = warning /\
    (b = true -> List.length wl <> List.length vals ->
     filter is_log evs
     = parse_logs (skipn 4 ls) ++ warning
       ++ EvLog (LogRan t vals)
       :: (if noMetrics cfg then []
           else map log_err (attempt_errors 5 (udps w)))).
Proof.
  intros Hlen Hd Hr Hok vals wl sent warning.
  destruct (words_of_ok_text c1 Hok) as (t0 & labels & Hw).
  assert (Hwl : wl = labels) by (unfold wl; rewrite Hw; reflexivity).
  rewrite (runStuff_to_send X cfg t ls w took inc ds c1 r1 t0 labels Hlen Hd Hr Hok Hw).
  fold vals. rewrite <- Hwl.
  destruct (send_targets_logs X cfg t wl vals
              (exchanged "getWl" r1 (dialled took ds inc (parse_logs (skipn 4 ls)) w)))
    as (b & w' & tail & Hrun & Ht & Htw & Htx & Htl).
  unfold with_defer. rewrite Hrun. cbn [emit].
  exists b, (emit_in EvClose w').
  exists (parse_logs (skipn 4 ls) ++ [EvDial; EvWrite ("getWl" ++ LF)]
          ++ warning
          ++ [EvWrite (setMany_command cfg sent ++ LF)] ++ tail ++ [EvClose]).
  split; [reflexivity|]. split; [|split; [|split; [|split]]].
  - cbn [trace emit_in]. rewrite Ht. unfold exchanged, dialled, emit_in, set_incoming.
    cbn [trace]. fold sent. fold warning. rewrite <- !app_assoc. reflexivity.
  - rewrite !filter_app, (filter_write_aside _ (parse_logs_aside _)), Htw.
    unfold warning. destruct (List.length wl <? List.length vals)%nat; reflexivity.
  - unfold sent. rewrite length_firstn. lia.
  - rewrite !filter_app, (filter_text_aside _ (parse_logs_aside _)), Htx.
    unfold warning. destruct (List.length wl <? List.length vals)%nat; reflexivity.
  - intros Hb Hne. rewrite !filter_app, filter_log_parse_logs, (Htl Hb Hne).
    unfold warning.
    destruct (List.length wl <? List.length vals)%nat;
      cbn [filter is_log is_write mismatch_warning app udps exchanged dialled
           set_incoming emit_in];
      rewrite app_nil_r; reflexivity.
Qed.

(** C9.  Whenever the device commands of an entry execution succeed (the
    row has its four leading columns, the dial and the priming succeed,
    [getWl] and [setWlsRelPower] are both answered with the success token),
    [runStuff] returns [true] and the retry loop around it stops after this
    one call.  Nothing is assumed of the telemetry side: the udp script of
    the world, hence the outcome of each of the up to five [writeMetrics]
    calls, is arbitrary, all five failing included. *)
Theorem runStuff_true_whatever_telemetry
        (X : Extern) (cfg : Config) (t : Time) (ls : list string) (w : World)
        (took : Duration) (inc : string) (ds : list DialOutcome)
        (c1 r1 c2 r2 : string) :
  (4 <= List.length ls)%nat ->
  dials w = DialOk took None inc :: ds ->
  read_until ">" inc = Some (c1, r1) ->
  matchOK_MatchString c1 = true ->
  read_until ">" r1 = Some (c2, r2) ->
  matchOK_MatchString c2 = true ->
  exists w', runStuff cfg t ls w = Done true w' /\
             retry cfg 10 t ls w = Done tt w'.
Proof.
  intros Hlen Hd Hr1 Hok1 Hr2 Hok2.
  destruct (words_of_ok_text c1 Hok1) as (t0 & labels & Hw).
  assert (Hrun : exists w', runStuff cfg t ls w = Done true w').
  { rewrite (runStuff_to_send X cfg t ls w took inc ds c1 r1 t0 labels Hlen Hd Hr1 Hok1 Hw).
    destruct (send_targets_trace X cfg t labels (parsed_values (skipn 4 ls))
                (exchanged "getWl" r1 (dialled took ds inc (parse_logs (skipn 4 ls)) w)))
      as (b & w' & tail & Hrun & _ & _ & Hb).
    rewrite (Hb c2 r2 Hr2 Hok2) in Hrun.
    unfold with_defer. rewrite Hrun. cbn [emit]. eauto. }
  destruct Hrun as (w' & Hrun). exists w'. split; [exact Hrun|].
  cbn [retry]. unfold bind. rewrite Hrun. reflexivity.
Qed.

(* ================================================================== *)
(** * The schedule runner: [runConditions] *)

Lemma Split_from_cons (sep : ascii) (s cur : string) :
  exists hd tl, strings.Split_from sep s cur = hd :: tl.
Proof.
  revert cur. induction s as [|c s IH]; intros cur; cbn [strings.Split_from].
  - eauto.
  - destruct (Ascii.eqb c sep); [eauto | apply IH].
Qed.

Lemma index_date_field (line : string) (w : World) :
  index (strings.Split line ",") 0 w = Done (date_field line) w.
Proof.
  unfold date_field, strings.Split.
  destruct (Split_from_cons "," line EmptyString) as (hd & tl & ->).
  reflexivity.
Qed.

Lemma sleep_until_done (theTime : Time) (w : World) :
  sleep_until theTime w = Done tt (slept theTime w).
Proof. reflexivity. Qed.

Section Rows.

Context {X : Extern}.
Variable cfg : Config.

Lemma scan_header (line : string) (rest : list string) (lastTime : Time)
      (lastLineSplit : list string) (firstRun : bool) (w : World) :
  scan_lines cfg (line :: rest) 0 lastTime lastLineSplit firstRun w
  = scan_lines cfg rest 1 lastTime lastLineSplit firstRun w.
Proof. reflexivity. Qed.

Lemma scan_past_row (line iso : string) (rest : list string) (idx : Z)
      (theTime lastTime : Time) (lastLineSplit : list string)
      (firstRun : bool) (w : World) :
  idx <> 0 ->
  fuzzy_extract (date_field line) = (None, iso) ->
  time_Parse iso = inl theTime ->
  theTime < clock w ->
  scan_lines cfg (line :: rest) idx lastTime lastLineSplit firstRun w
  = scan_lines cfg rest idx theTime (strings.Split line ",") firstRun w.
Proof.
  intros Hidx Hx Hp Hlt.
  cbn [scan_lines]. apply Z.eqb_neq in Hidx. rewrite Hidx.
  unfold bind at 1. rewrite index_date_field.
  unfold bind at 1. unfold parseDateTime. rewrite Hx, Hp.
  cbn [bind ret]. unfold bind at 1. unfold time_Now.
  apply Z.ltb_lt in Hlt. rewrite Hlt. reflexivity.
Qed.

Lemma scan_future_row (line iso : string) (rest : list string) (idx : Z)
      (theTime lastTime : Time) (lastLineSplit : list string)
      (firstRun : bool) (w : World) :
  idx <> 0 ->
  fuzzy_extract (date_field line) = (None, iso) ->
  time_Parse iso = inl theTime ->
  clock w <= theTime ->
  scan_lines cfg (line :: rest) idx lastTime lastLineSplit firstRun w
  = ((if firstRun then
        logLine (LogText "running firstrun line") ;;
        retry cfg 10 lastTime lastLineSplit
      else ret tt) ;;
     d <- time_Until theTime ;;
     logLine (LogSleeping d) ;;
     d <- time_Until theTime ;;
     time_Sleep d ;;
     retry cfg 10 theTime (strings.Split line ",") ;;
     scan_lines cfg rest (idx + 1) lastTime lastLineSplit false) w.
Proof.
  intros Hidx Hx Hp Hle.
  cbn [scan_lines]. apply Z.eqb_neq in Hidx. rewrite Hidx.
  unfold bind at 1. rewrite index_date_field.
  unfold bind at 1. unfold parseDateTime. rewrite Hx, Hp.
  cbn [bind ret]. unfold bind at 1. unfold time_Now.
  apply Z.ltb_ge in Hle. rewrite Hle. reflexivity.
Qed.

End Rows.

(** The run of [demo_file] from 150s with a device that answers: the first
    row once, the sleep of 50s, the second row, the sleep of 100s, the third
    row. *)
Lemma runConditions_demo_trace :
  writes_and_sleeps
    (trace (result_world
              (runConditions (X := demo_extern) demo_cfg (Some demo_file)
                             (world_at 150 demo_dials []))))
  = [EvWrite ("getWl" ++ LF); EvWrite ("setWlsRelPower 500 750" ++ LF);
     EvSleep (50 * Second);
     EvWrite ("getWl" ++ LF); EvWrite ("setWlsRelPower 100 200" ++ LF);
     EvSleep (100 * Second);
     EvWrite ("getWl" ++ LF); EvWrite ("setWlsRelPower 10 20" ++ LF)].
Proof. vm_compute. reflexivity. Qed.

Lemma retry_without_row (X : Extern) (cfg : Config) (n : nat) (t : Time) (w : World) :
  retry cfg (S n) t [] w = Stopped (Panic "slice bounds out of range") w.
Proof. reflexivity. Qed.

(** When the first row read is not past, the first pass runs the catch-up
    on the row it remembered, and it remembered none: the run panics on the
    slice of the empty row, before any sleep. *)
Lemma runConditions_no_past_row (X : Extern) (cfg : Config) (header r1 iso1 : string)
      (rest : list string) (T1 : Time) (w : World) :
  fuzzy_extract (date_field r1) = (None, iso1) ->
  time_Parse iso1 = inl T1 ->
  clock w <= T1 ->
  runConditions cfg (Some (header :: r1 :: rest)) w
  = Stopped (Panic "slice bounds out of range")
            (emit_in (EvLog (LogText "running firstrun line"))
                     (emit_in (EvLog (LogRunning (conditionsPath cfg))) w)).
Proof.
  intros Hx Hp Hle.
  unfold runConditions. unfold bind at 1. unfold logLine at 1, emit at 1.
  rewrite scan_header.
  rewrite (scan_future_row cfg r1 iso1 _ 1 T1) by (try assumption; cbn; lia).
  reflexivity.
Qed.

(** C6.  The run of [demo_file] from 50s, before every row: the first pass
    meets a row that is not past, runs the catch-up on the row it remembered
    (none), and the process panics on the slice of that empty row; it has not
    slept and has not reached the device. *)
Theorem runConditions_before_first_entry_panics :
  runConditions (X := demo_extern) demo_cfg (Some demo_file)
                (world_at 50 demo_dials [])
  = Stopped (Panic "slice bounds out of range")
            (mkWorld (50 * Second) demo_dials [] None EmptyString
                     [EvLog (LogRunning "conditions.csv");
                      EvLog (LogText "running firstrun line")]).
Proof.
  unfold demo_file.
  rewrite (runConditions_no_past_row demo_extern demo_cfg
             "datetime,a,b,c,ch1,ch2" "100,x,y,z,50.0,75.0" "100"
             ["200,x,y,z,10,20"; "300,x,y,z,1,2"]
             (100 * Second) (world_at 50 demo_dials []));
    [reflexivity | reflexivity | reflexivity | vm_compute; discriminate].
Qed.

(* ================================================================== *)
(** * Poll mode: [runMetrics] *)

(** A poll whose dial fails logs the error and goes on with the nil
    connection: the deferred [Close] dereferences it and the process panics. *)
Lemma runMetrics_connect_failure (cfg : Config) (w : World) (took : Duration)
      (e : error) (ds : list DialOutcome) :
  dials w = DialFails took e :: ds ->
  runMetrics cfg w
  = Stopped (Panic nil_deref)
            (emit_in (EvLog (LogErr e))
               (mkWorld (clock w + took) ds (udps w) (prime w) (incoming w)
                        (trace w ++ [EvDial]))).
Proof.
  intros Hd. unfold runMetrics, bind, telnet_DialTimeout.
  cbn [dials emit_in clock udps prime incoming trace]. rewrite Hd. reflexivity.
Qed.

(** C7.  Poll mode, the first dial times out and the device would answer
    from then on: the first poll does not end as an abandoned tick, it
    panics on the nil connection; [main] stops there, and the later ticks,
    for which a good session was waiting, never run. *)
Theorem poll_connect_failure_stops_the_process :
  runMetrics poll_cfg
             (world_at 0 [DialFails (30 * Second) (ErrNet "i/o timeout");
                          DialOk 0 None poll_session] [])
  = Stopped (Panic nil_deref)
            (mkWorld (30 * Second) [DialOk 0 None poll_session] [] None EmptyString
                     [EvDial; EvLog (LogErr (ErrNet "i/o timeout"))]) /\
  main (X := demo_extern) poll_cfg None 3
       (world_at 0 [DialFails (30 * Second) (ErrNet "i/o timeout");
                    DialOk 0 None poll_session] [])
  = Stopped (Panic nil_deref)
            (mkWorld (30 * Second) [DialOk 0 None poll_session] [] None EmptyString
                     [EvDial; EvLog (LogErr (ErrNet "i/o timeout"))]).
Proof. split; vm_compute; reflexivity. Qed.

(** The other protocol errors of a poll do end the tick quietly: here the
    first answer has no success token, and the next tick polls again. *)
Lemma poll_protocol_error_abandons_tick :
  returned (runMetrics poll_cfg (world_at 0 [DialOk 0 None ("ERR" ++ CRLF ++ ">")] []))
  = Some tt /\
  filter is_write
    (trace (result_world
              (main (X := demo_extern) poll_cfg None 1
                    (world_at 0 [DialOk 0 None ("ERR" ++ CRLF ++ ">");
                                 DialOk 0 None poll_session] []))))
  = [EvWrite ("getAllRelPower" ++ LF);
     EvWrite ("getAllRelPower" ++ LF); EvWrite ("getWl" ++ LF)].
Proof. split; vm_compute; reflexivity. Qed.

(* ================================================================== *)
(** * Entry executions on a concrete device *)

Lemma runStuff_truncates_and_warns_one_way_witness :
  let ls := strings.Split "100,x,y,z,50.0,75.0,0.25" "," in
  let w := world_at 150 [DialOk 0 None (session_ok "450 660")] [] in
  let vals := parsed_values (skipn 4 ls) in
  let wl := tl (matchStrings_FindAllString
                  (strings.TrimSpace ("OK 450 660" ++ CRLF ++ ">"))) in
  let sent := firstn (Nat.min (List.length wl) (List.length vals)) vals in
  let warning :=
    if (List.length wl <? List.length vals)%nat then [mismatch_warning] else [] in
  exists b w' evs,
    runStuff (X := demo_extern) demo_cfg (100 * Second) ls w = Done b w' /\
    trace w' = trace w ++ evs /\
    filter is_write evs
    = [EvWrite ("getWl" ++ LF);
       EvWrite (setMany_command (X := demo_extern) demo_cfg sent ++ LF)] /\
    List.length sent = Nat.min (List.length wl) (List.length vals) /\
    filter is_text evs = warning /\
    (b = true -> List.length wl <> List.length vals ->
     filter is_log evs
     = parse_logs (skipn 4 ls) ++ warning
       ++ EvLog (LogRan (100 * Second) vals)
       :: (if noMetrics demo_cfg then []
           else map log_err (attempt_errors 5 (udps w)))).
Proof.
  apply (runStuff_truncates_and_warns_one_way
           demo_extern demo_cfg (100 * Second)
           (strings.Split "100,x,y,z,50.0,75.0,0.25" ",")
           (world_at 150 [DialOk 0 None (session_ok "450 660")] [])
           0 (session_ok "450 660") []
           ("OK 450 660" ++ CRLF ++ ">") ("OK" ++ CRLF ++ ">")).
  - vm_compute. lia.
  - reflexivity.
  - reflexivity.
  - reflexivity.
Defined.

(** C8, as stated, fails in one direction: a three-channel device and a row
    of two values, with [-no-metrics].  The two values are sent as they are,
    and the execution logs its "ran" line and nothing else: the mismatch is
    not reported. *)
Lemma runStuff_fewer_values_no_warning :
  let ls := strings.Split "100,x,y,z,50.0,75.0" "," in
  let w := world_at 150 [DialOk 0 None (session_ok "450 660 735")] [] in
  let r := runStuff (X := demo_extern) quiet_cfg (100 * Second) ls w in
  List.length (parsed_values (skipn 4 ls)) = 2%nat /\
  returned r = Some true /\
  trace (result_world r)
  = [EvDial; EvWrite ("getWl" ++ LF); EvWrite ("setWlsRelPower 500 750" ++ LF);
     EvLog (LogRan (100 * Second) [f64_of_int 50; f64_of_int 75]); EvClose] /\
  filter is_text (trace (result_world r)) = [].
Proof. cbv zeta. repeat split; vm_compute; reflexivity. Qed.

(** The same device and row with metrics on: the execution still logs no
    warning of its own, and each of the five telemetry writes fails on the
    unequal numbers, which is logged; no measurement is written. *)
Lemma runStuff_fewer_values_telemetry_errors :
  let ls := strings.Split "100,x,y,z,50.0,75.0" "," in
  let w := world_at 150 [DialOk 0 None (session_ok "450 660 735")] [] in
  let r := runStuff (X := demo_extern) demo_cfg (100 * Second) ls w in
  returned r = Some true /\
  filter is_log (trace (result_world r))
  = EvLog (LogRan (100 * Second) [f64_of_int 50; f64_of_int 75])
    :: repeat (log_err differ_error) 5 /\
  filter is_text (trace (result_world r)) = [] /\
  filter is_metric (trace (result_world r)) = [].
Proof. cbv zeta. repeat split; vm_compute; reflexivity. Qed.

Lemma runStuff_true_whatever_telemetry_witness :
  let down := Some (ErrNet "no such host") in
  let w := world_at 150 [DialOk 0 None (session_ok "450 660")]
                    [down; down; down; down; down] in
  exists w',
    runStuff (X := demo_extern) demo_cfg (100 * Second)
             (strings.Split "100,x,y,z,50.0,75.0" ",") w = Done true w' /\
    retry (X := demo_extern) demo_cfg 10 (100 * Second)
          (strings.Split "100,x,y,z,50.0,75.0" ",") w = Done tt w'.
Proof.
  apply (runStuff_true_whatever_telemetry
           demo_extern demo_cfg (100 * Second)
           (strings.Split "100,x,y,z,50.0,75.0" ",")
           (world_at 150 [DialOk 0 None (session_ok "450 660")]
                     [Some (ErrNet "no such host"); Some (ErrNet "no such host");
                      Some (ErrNet "no such host"); Some (ErrNet "no such host");
                      Some (ErrNet "no such host")])
           0 (session_ok "450 660") []
           ("OK 450 660" ++ CRLF ++ ">") ("OK" ++ CRLF ++ ">")
           ("OK" ++ CRLF ++ ">") EmptyString).
  - vm_compute. lia.
  - reflexivity.
  - reflexivity.
  - reflexivity.
  - reflexivity.
  - reflexivity.
Defined.

(** The same execution, event by event: five telemetry attempts, each
    failing to open the udp client and followed by 200ms of sleep, no
    measurement written, and [true] returned after one dial. *)
Lemma runStuff_five_failed_writes :
  let down := Some (ErrNet "no such host") in
  let w := world_at 150 [DialOk 0 None (session_ok "450 660")]
                    [down; down; down; down; down] in
  let r := runStuff (X := demo_extern) demo_cfg (100 * Second)
                    (strings.Split "100,x,y,z,50.0,75.0" ",") w in
  returned r = Some true /\
  List.length (filter (fun e => match e with EvUDPOpen _ => true | _ => false end)
                      (trace (result_world r))) = 5%nat /\
  filter is_sleep (trace (result_world r))
  = repeat (EvSleep (200 * Millisecond)) 5 /\
  filter is_metric (trace (result_world r)) = [] /\
  filter (fun e => match e with EvDial => true | _ => false end)
         (trace (result_world r)) = [EvDial].
Proof. cbv zeta. repeat split; vm_compute; reflexivity. Qed.

(** A response with the success token and no integer token: the slice
    [tmpStrings[1:]] of the empty match list panics. *)
Lemma chompAllInts_without_integer_panics :
  chompAllInts liveConn "getAllRelPower" (world_with ("OK" ++ CRLF ++ ">"))
  = Stopped (Panic "slice bounds out of range")
            (exchanged "getAllRelPower" EmptyString (world_with ("OK" ++ CRLF ++ ">"))).
Proof. vm_compute. reflexivity. Qed.

(** Intensities 50.0 and 75.0 with the multiplier 10 are sent as
    [setWlsRelPower 500 750]. *)
Lemma setMany_command_demo :
  setMany_command (X := demo_extern) demo_cfg
                  (parsed_values ["50.0"; "75.0"])
  = "setWlsRelPower 500 750".
Proof. vm_compute. reflexivity. Qed.

(** Labels 450 and 6500 with two values give the fields [450nm] and
    [6500k], with the host and group tags. *)
Lemma writeMetrics_fields_demo :
  trace (result_world
           (writeMetrics demo_cfg ["450"; "6500"]
                         (parsed_values ["1.2"; "3.4"]) (world_at 0 [] [])))
  = [EvUDPOpen "telegraf:8092";
     EvMetric (mkMeasurement "helio-light"
                 [("450nm", f64_make 5404319552844595 (-52));
                  ("6500k", f64_make 7656119366529843 (-51))]
                 [("host", "GC03"); ("group", "nonspc")]);
     EvUDPClose].
Proof. vm_compute. reflexivity. Qed.


(* ================================================================== *)
(** * More on one entry execution *)

Lemma runStuff_short_row (X : Extern) (cfg : Config) (t : Time)
      (ls : list string) (w : World) :
  (List.length ls < 4)%nat ->
  runStuff cfg t ls w = Stopped (Panic "slice bounds out of range") w.
Proof.
  intros H. unfold runStuff, bind, slice_from.
  apply Nat.leb_gt in H. rewrite H. reflexivity.
Qed.

Lemma runStuff_no_connection (X : Extern) (cfg : Config) (t : Time)
      (ls : list string) (w : World) :
  (4 <= List.length ls)%nat ->
  match dials w with DialOk _ _ _ :: _ => False | _ => True end ->
  exists e w',
    runStuff cfg t ls w = Done false w' /\
    trace w' = trace w ++ parse_logs (skipn 4 ls) ++ [EvDial; EvLog (LogErr e)] /\
    dials w' = tl (dials w).
Proof.
  intros Hlen Hd. unfold runStuff. unfold bind at 1. unfold slice_from.
  apply Nat.leb_le in Hlen. rewrite Hlen. cbn [ret].
  unfold bind at 1. rewrite parse_values_done.
  unfold bind at 1. unfold telnet_DialTimeout.
  cbn [dials emit_in add_trace clock udps prime incoming trace].
  destruct (dials w) as [|[took e|took p inc] ds] eqn:E; [| |contradiction].
  - cbn. eexists _, _. split; [reflexivity|]. cbn.
    rewrite <- !app_assoc, E. split; reflexivity.
  - cbn. eexists _, _. split; [reflexivity|]. cbn.
    rewrite <- !app_assoc. split; reflexivity.
Qed.

Lemma runStuff_prime_fails (X : Extern) (cfg : Config) (t : Time)
      (ls : list string) (w : World) (took : Duration) (e : error)
      (inc : string) (ds : list DialOutcome) :
  (4 <= List.length ls)%nat ->
  dials w = DialOk took (Some e) inc :: ds ->
  exists w',
    runStuff cfg t ls w = Done false w' /\
    trace w' = trace w ++ parse_logs (skipn 4 ls)
                       ++ [EvDial; EvLog (LogErr e); EvClose] /\
    dials w' = ds.
Proof.
  intros Hlen Hd. unfold runStuff. unfold bind at 1. unfold slice_from.
  apply Nat.leb_le in Hlen. rewrite Hlen. cbn [ret].
  unfold bind at 1. rewrite parse_values_done.
  unfold bind at 1. unfold telnet_DialTimeout.
  cbn [dials emit_in add_trace clock udps prime incoming trace]. rewrite Hd.
  cbn. eexists. split; [reflexivity|]. cbn.
  rewrite <- !app_assoc. split; reflexivity.
Qed.

Lemma runStuff_getWl_fails (X : Extern) (cfg : Config) (t : Time)
      (ls : list string) (w : World) (took : Duration)
      (inc : string) (ds : list DialOutcome) :
  (4 <= List.length ls)%nat ->
  dials w = DialOk took None inc :: ds ->
  match read_until ">" inc with
  | Some (c1, _) => matchOK_MatchString c1 = false
  | None => True
  end ->
  exists e w',
    runStuff cfg t ls w = Done false w' /\
    trace w' = trace w ++ parse_logs (skipn 4 ls)
                       ++ [EvDial; EvWrite ("getWl" ++ LF); EvLog (LogErr e); EvClose] /\
    dials w' = ds.
Proof.
  intros Hlen Hd Hr. unfold runStuff. unfold bind at 1. unfold slice_from.
  apply Nat.leb_le in Hlen. rewrite Hlen. cbn [ret].
  unfold bind at 1. rewrite parse_values_done.
  unfold bind at 1. unfold telnet_DialTimeout.
  cbn [dials emit_in add_trace clock udps prime incoming trace]. rewrite Hd.
  fold (dialled took ds inc (parse_logs (skipn 4 ls)) w).
  unfold defer_Close, with_defer.
  unfold bind at 1. unfold conn_SkipUntil.
  cbn [prime dialled]. fold (dialled took ds inc (parse_logs (skipn 4 ls)) w).
  unfold bind at 1. unfold getWl, chompAllStrings. unfold bind at 1.
  destruct (read_until ">" inc) as [[c1 r1]|] eqn:Hread.
  - rewrite (execCommand_not_ok (dialled took ds inc (parse_logs (skipn 4 ls)) w)
               "getWl" c1 r1 Hread Hr).
    cbn. eexists _, _. split; [reflexivity|]. cbn.
    rewrite <- !app_assoc. split; reflexivity.
  - rewrite (execCommand_eof (dialled took ds inc (parse_logs (skipn 4 ls)) w)
               "getWl" Hread).
    cbn. eexists _, _. split; [reflexivity|]. cbn.
    rewrite <- !app_assoc. split; reflexivity.
Qed.

(* ================================================================== *)
(** * The events of the telemetry side *)

Section TelemetryEvents.

Variable P : Event -> Prop.
Hypothesis P_err : forall e, P (EvLog (LogErr e)).
Hypothesis P_ran : forall t vs, P (EvLog (LogRan t vs)).
Hypothesis P_open : forall h, P (EvUDPOpen h).
Hypothesis P_udp_close : P EvUDPClose.
Hypothesis P_metric : forall m, P (EvMetric m).
Hypothesis P_sleep : forall d, P (EvSleep d).

Lemma add_fields_events (wavelengths : list string) (values : list float64) :
  forall (i : nat) (m : Measurement) (w : World),
    (i + List.length values = List.length wavelengths)%nat ->
    exists m' evs,
      add_fields wavelengths i values m w = Done m' (add_trace evs w) /\
      Forall P evs.
Proof.
  induction values as [|v rest IH]; intros i m w Hlen.
  - exists m, []. rewrite add_trace_nil. split; [reflexivity | constructor].
  - cbn [add_fields]. unfold bind, index.
    destruct (nth_error wavelengths i) as [ws|] eqn:Hn.
    2:{ apply nth_error_None in Hn. cbn [List.length] in Hlen. lia. }
    cbn [ret].
    assert (Hlen' : (S i + List.length rest = List.length wavelengths)%nat)
      by (cbn [List.length] in Hlen; lia).
    destruct (strconv.ParseInt ws) as [wl|err].
    + apply IH. exact Hlen'.
    + unfold logErr, logLine, emit.
      destruct (IH (S i) m (emit_in (EvLog (LogErr err)) w) Hlen')
        as (m' & evs & Hrun & Hev).
      exists m', (EvLog (LogErr err) :: evs).
      rewrite Hrun, add_trace_emit. split; [reflexivity|].
      constructor; auto.
Qed.

Lemma writeMetrics_events (cfg : Config) (wl : list string)
      (vals : list float64) (w : World) :
  exists r w' evs,
    writeMetrics cfg wl vals w = Done r w' /\
    extends w w' evs /\ Forall P evs.
Proof.
  unfold writeMetrics.
  destruct (noMetrics cfg); cbn [negb].
  { exists None, w, []. split; [reflexivity|]. split; [apply extends_refl | constructor]. }
  set (host := if String.eqb (env_TELEGRAF_HOST cfg) EmptyString
               then "telegraf:8092" else env_TELEGRAF_HOST cfg).
  unfold bind at 1. unfold telegraf_NewUDP.
  assert (Hbody : forall w1, extends w w1 [EvUDPOpen host] ->
    exists r w' evs,
      with_defer (emit EvUDPClose)
        (if negb (List.length wl =? List.length vals)%nat
         then ret (Some (fmt.Errorf "wavelengths and light values differ"))
         else
           m <- add_fields wl 0 vals (NewMeasurement "helio-light") ;;
           emit (EvMetric
                   (add_tag_if "user" (userTag cfg)
                      (add_tag_if "group" (groupTag cfg)
                         (add_tag_if "host" (hostTag cfg) m)))) ;;
           ret None) w1 = Done r w' /\
      extends w w' evs /\ Forall P evs).
  { intros w1 Hext. unfold with_defer.
    destruct (List.length wl =? List.length vals)%nat eqn:Hl; cbn [negb].
    - apply Nat.eqb_eq in Hl.
      destruct (add_fields_events wl vals 0%nat (NewMeasurement "helio-light") w1)
        as (m' & evs & Hrun & Hev); [cbn; lia|].
      unfold bind. rewrite Hrun. cbn [emit ret].
      eexists _, _, _. split; [reflexivity|]. split.
      + eapply extends_trans; [exact Hext|].
        eapply extends_trans; [apply extends_add_trace|].
        eapply extends_trans; apply extends_emit.
      + constructor; [apply P_open|].
        apply Forall_app. split; [exact Hev|].
        constructor; [apply P_metric|]. constructor; [apply P_udp_close | constructor].
    - cbn [ret emit].
      eexists _, _, _. split; [reflexivity|]. split.
      + eapply extends_trans; [exact Hext | apply extends_emit].
      + constructor; [apply P_open|]. constructor; [apply P_udp_close | constructor]. }
  destruct (udps w) as [|r us] eqn:Hu; cbn [udps emit_in].
  - rewrite Hu. apply Hbody. apply extends_emit.
  - rewrite Hu. destruct r as [e|].
    + eexists _, _, [EvUDPOpen host]. split; [reflexivity|]. split.
      * unfold extends. cbn. auto.
      * constructor; [apply P_open | constructor].
    + apply Hbody. unfold extends; cbn; auto.
Qed.

Lemma metrics_loop_events (cfg : Config) (n : nat) (wl : list string)
      (vals : list float64) :
  forall w, exists w' evs,
    metrics_loop cfg n wl vals w = Done tt w' /\
    extends w w' evs /\ Forall P evs.
Proof.
  induction n as [|n IH]; intros w.
  - exists w, []. split; [reflexivity|]. split; [apply extends_refl | constructor].
  - cbn [metrics_loop]. unfold bind at 1.
    destruct (writeMetrics_events cfg wl vals w) as (r & w1 & e1 & Hrun & Hext & Hev).
    rewrite Hrun. destruct r as [e|].
    + unfold bind, logErr, logLine, emit, time_Sleep.
      destruct (IH (advance (Z.max (200 * Millisecond) 0)
                      (emit_in (EvSleep (200 * Millisecond))
                         (emit_in (EvLog (LogErr e)) w1))))
        as (w2 & e2 & Hrun2 & Hext2 & Hev2).
      exists w2, (e1 ++ [EvLog (LogErr e); EvSleep (200 * Millisecond)] ++ e2).
      split; [exact Hrun2|]. split.
      * eapply extends_trans; [exact Hext|].
        eapply extends_trans; [|exact Hext2].
        unfold extends, advance, emit_in. cbn.
        rewrite <- app_assoc. auto.
      * apply Forall_app. split; [exact Hev|].
        apply Forall_app. split; [|exact Hev2].
        constructor; [apply P_err|]. constructor; [apply P_sleep | constructor].
    + exists w1, e1. auto.
Qed.

(** [send_targets] on any world: the warning if it is due, the command, then
    events of the class [P]; the dial script is not touched, and the result
    is [true] exactly when the command is answered with the success token. *)
Lemma send_targets_events (X : Extern) (cfg : Config) (t : Time)
      (wl : list string) (vals : list float64) (w : World) :
  exists b w' tail,
    send_targets cfg t liveConn wl vals w = Done b w' /\
    trace w' = trace w
               ++ (if (List.length wl <? List.length vals)%nat
                   then [mismatch_warning] else [])
               ++ [EvWrite (setMany_command cfg
                      (firstn (Nat.min (List.length wl) (List.length vals)) vals)
                    ++ LF)]
               ++ tail /\
    Forall P tail /\
    dials w' = dials w /\
    (b = true <->
     exists c2 r2, read_until ">" (incoming w) = Some (c2, r2) /\
                   matchOK_MatchString c2 = true).
Proof.
  unfold send_targets, len. rewrite min_len, Nat2Z.id, warn_condition.
  set (sent := firstn (Nat.min (List.length wl) (List.length vals)) vals).
  assert (Hcore : forall w0, incoming w0 = incoming w -> dials w0 = dials w ->
    exists b w' tail,
      (err <- setMany cfg liveConn sent ;;
       match err with
       | Some e => logErr e ;; ret false
       | None =>
           logLine (LogRan t vals) ;;
           metrics_loop cfg 5 wl vals ;;
           ret true
       end) w0 = Done b w' /\
      trace w' = trace w0 ++ [EvWrite (setMany_command cfg sent ++ LF)] ++ tail /\
      Forall P tail /\ dials w' = dials w /\
      (b = true <->
       exists c2 r2, read_until ">" (incoming w) = Some (c2, r2) /\
                     matchOK_MatchString c2 = true)).
  { intros w0 Hinc Hdl.
    unfold bind at 1. unfold setMany. unfold bind at 1.
    destruct (read_until ">" (incoming w)) as [[c2 r2]|] eqn:Hr.
    - rewrite <- Hinc in Hr. destruct (matchOK_MatchString c2) eqn:Hok.
      + rewrite (execCommand_ok w0 _ c2 r2 Hr Hok). cbn [ret].
        unfold bind at 1. unfold logLine, emit. unfold bind at 1.
        destruct (metrics_loop_events cfg 5 wl vals
                    (emit_in (EvLog (LogRan t vals))
                       (exchanged (setMany_command cfg sent) r2 w0)))
          as (w' & evs & Hrun & Hext & Hev).
        rewrite Hrun. cbn [ret].
        exists true, w', (EvLog (LogRan t vals) :: evs).
        split; [reflexivity|]. destruct Hext as (Ht & Hd' & _ & _).
        split; [|split; [|split]].
        * rewrite Ht. unfold exchanged, emit_in. cbn.
          rewrite <- !app_assoc. reflexivity.
        * constructor; [apply P_ran | exact Hev].
        * rewrite Hd'. cbn. exact Hdl.
        * split; [intros _; eauto | reflexivity].
      + rewrite (execCommand_not_ok w0 _ c2 r2 Hr Hok). cbn [ret].
        unfold bind, logErr, logLine, emit, ret.
        eexists false, _, [_]. split; [reflexivity|]. split; [|split; [|split]].
        * unfold exchanged, emit_in. cbn. rewrite <- !app_assoc. reflexivity.
        * constructor; [apply P_err | constructor].
        * cbn. exact Hdl.
        * split; [discriminate|]. intros (c & r & Hc & Hk).
          injection Hc as <- <-. congruence.
    - rewrite <- Hinc in Hr. rewrite (execCommand_eof w0 _ Hr). cbn [ret].
      unfold bind, logErr, logLine, emit, ret.
      eexists false, _, [_]. split; [reflexivity|]. split; [|split; [|split]].
      * unfold exchanged, emit_in. cbn. rewrite <- !app_assoc. reflexivity.
      * constructor; [apply P_err | constructor].
      * cbn. exact Hdl.
      * split; [discriminate|]. intros (c & r & Hc & _). discriminate. }
  unfold bind at 1.
  destruct (List.length wl <? List.length vals)%nat.
  - unfold logLine, emit.
    destruct (Hcore (emit_in mismatch_warning w) eq_refl eq_refl)
      as (b & w' & tail & Hrun & Ht & Hev & Hd & Hb).
    exists b, w', tail. split; [exact Hrun|]. split; [|auto].
    rewrite Ht. unfold emit_in. cbn. rewrite <- !app_assoc. reflexivity.
  - cbn [ret]. apply (Hcore w eq_refl eq_refl).
Qed.

End TelemetryEvents.

Lemma session_free_log_err (e : error) : session_free (EvLog (LogErr e)).
Proof. repeat split. Qed.

Lemma parse_logs_session_free (l : list string) :
  Forall session_free (parse_logs l).
Proof.
  induction l as [|v rest IH]; cbn [parse_logs]; [constructor|].
  destruct (ParseFloat (matchFloat_FindString v)); [exact IH|].
  constructor; [apply session_free_log_err | exact IH].
Qed.

Lemma filter_none {A} (f : A -> bool) (l : list A) :
  Forall (fun a => f a = false) l -> filter f l = [].
Proof.
  induction 1 as [|a l Ha _ IH]; [reflexivity|].
  cbn [filter]. rewrite Ha. exact IH.
Qed.

Lemma session_free_writes (evs : list Event) :
  Forall session_free evs -> filter is_write evs = [].
Proof.
  intros H. apply filter_none. eapply Forall_impl; [|exact H].
  intros e He. apply He.
Qed.

Lemma session_free_dials (evs : list Event) :
  Forall session_free evs -> filter is_dial evs = [].
Proof.
  intros H. apply filter_none. eapply Forall_impl; [|exact H].
  intros e He. apply He.
Qed.

Lemma session_free_closes (evs : list Event) :
  Forall session_free evs -> filter is_close evs = [].
Proof.
  intros H. apply filter_none. eapply Forall_impl; [|exact H].
  intros e He. apply He.
Qed.

Lemma runStuff_session (X : Extern) (cfg : Config) (t : Time) (ls : list string)
      (w : World) (took : Duration) (inc : string) (ds : list DialOutcome)
      (c1 r1 : string) :
  (4 <= List.length ls)%nat ->
  dials w = DialOk took None inc :: ds ->
  read_until ">" inc = Some (c1, r1) ->
  matchOK_MatchString c1 = true ->
  let vals := parsed_values (skipn 4 ls) in
  let wl := tl (matchStrings_FindAllString (strings.TrimSpace c1)) in
  let sent := firstn (Nat.min (List.length wl) (List.length vals)) vals in
  exists b w' tail,
    runStuff cfg t ls w = Done b w' /\
    trace w' = trace w
               ++ parse_logs (skipn 4 ls)
               ++ [EvDial; EvWrite ("getWl" ++ LF)]
               ++ (if (List.length wl <? List.length vals)%nat
                   then [mismatch_warning] else [])
               ++ [EvWrite (setMany_command cfg sent ++ LF)]
               ++ tail ++ [EvClose] /\
    Forall session_free tail /\
    dials w' = ds /\
    (b = true <->
     exists c2 r2, read_until ">" r1 = Some (c2, r2) /\
                   matchOK_MatchString c2 = true).
Proof.
  intros Hlen Hd Hr Hok vals wl sent.
  destruct (words_of_ok_text c1 Hok) as (t0 & labels & Hw).
  assert (Hwl : wl = labels) by (unfold wl; rewrite Hw; reflexivity).
  rewrite (runStuff_to_send X cfg t ls w took inc ds c1 r1 t0 labels Hlen Hd Hr Hok Hw).
  fold vals. rewrite <- Hwl.
  destruct (send_targets_events session_free
              session_free_log_err
              ltac:(repeat split) ltac:(repeat split) ltac:(repeat split)
              ltac:(repeat split) ltac:(repeat split)
              X cfg t wl vals
              (exchanged "getWl" r1 (dialled took ds inc (parse_logs (skipn 4 ls)) w)))
    as (b & w' & tail & Hrun & Ht & Hev & Hdl & Hb).
  unfold with_defer. rewrite Hrun. cbn [emit].
  exists b, (emit_in EvClose w'), tail.
  split; [reflexivity|]. split; [|split; [exact Hev | split; [|exact Hb]]].
  - cbn [trace emit_in]. rewrite Ht. unfold exchanged, dialled, emit_in, set_incoming.
    cbn [trace]. fold sent. rewrite <- !app_assoc. reflexivity.
  - cbn [dials emit_in]. rewrite Hdl. reflexivity.
Qed.

(** The outcomes of [runStuff] on a row with its four leading columns, over
    the worlds of this development, in which a dial, the priming and a read
    each come back at once, with data or with an error. *)
Lemma runStuff_outcome
        (X : Extern) (cfg : Config) (t : Time) (ls : list string) (w : World) :
  (4 <= List.length ls)%nat ->
  exists b w' evs,
    runStuff cfg t ls w = Done b w' /\
    trace w' = trace w ++ evs /\
    dials w' = tl (dials w) /\
    filter is_dial evs = [EvDial] /\
    filter is_close evs
    = match dials w with DialOk _ _ _ :: _ => [EvClose] | _ => [] end /\
    exists k sent,
      filter is_write evs
      = firstn k [EvWrite ("getWl" ++ LF);
                  EvWrite (setMany_command cfg sent ++ LF)].
Proof.
  intros Hlen.
  pose proof (parse_logs_session_free (skipn 4 ls)) as Hpl.
  destruct (dials w) as [|[took e|took [e|] inc] ds] eqn:Hd.
  - destruct (runStuff_no_connection X cfg t ls w Hlen) as (e & w' & Hrun & Ht & Hdl);
      [rewrite Hd; exact I|].
    exists false, w', (parse_logs (skipn 4 ls) ++ [EvDial; EvLog (LogErr e)]).
    rewrite Hd in Hdl. repeat split; try assumption.
    + rewrite filter_app, (session_free_dials _ Hpl). reflexivity.
    + rewrite filter_app, (session_free_closes _ Hpl). reflexivity.
    + exists 0%nat, []. rewrite filter_app, (session_free_writes _ Hpl). reflexivity.
  - destruct (runStuff_no_connection X cfg t ls w Hlen) as (e' & w' & Hrun & Ht & Hdl);
      [rewrite Hd; exact I|].
    exists false, w', (parse_logs (skipn 4 ls) ++ [EvDial; EvLog (LogErr e')]).
    rewrite Hd in Hdl. repeat split; try assumption.
    + rewrite filter_app, (session_free_dials _ Hpl). reflexivity.
    + rewrite filter_app, (session_free_closes _ Hpl). reflexivity.
    + exists 0%nat, []. rewrite filter_app, (session_free_writes _ Hpl). reflexivity.
  - destruct (runStuff_prime_fails X cfg t ls w took e inc ds Hlen Hd)
      as (w' & Hrun & Ht & Hdl).
    exists false, w', (parse_logs (skipn 4 ls) ++ [EvDial; EvLog (LogErr e); EvClose]).
    repeat split; try assumption.
    + rewrite filter_app, (session_free_dials _ Hpl). reflexivity.
    + rewrite filter_app, (session_free_closes _ Hpl). reflexivity.
    + exists 0%nat, []. rewrite filter_app, (session_free_writes _ Hpl). reflexivity.
  - destruct (read_until ">" inc) as [[c1 r1]|] eqn:Hr.
    + destruct (matchOK_MatchString c1) eqn:Hok.
      * destruct (runStuff_session X cfg t ls w took inc ds c1 r1 Hlen Hd Hr Hok)
          as (b & w' & tail & Hrun & Ht & Hev & Hdl & _).
        eexists b, w', _. split; [exact Hrun|]. split; [exact Ht|].
        split; [exact Hdl|]. split; [|split].
        -- rewrite !filter_app, (session_free_dials _ Hpl), (session_free_dials _ Hev).
           destruct (_ <? _)%nat; reflexivity.
        -- rewrite !filter_app, (session_free_closes _ Hpl), (session_free_closes _ Hev).
           destruct (_ <? _)%nat; reflexivity.
        -- eexists 2%nat, _.
           rewrite !filter_app, (session_free_writes _ Hpl), (session_free_writes _ Hev).
           destruct (_ <? _)%nat; reflexivity.
      * destruct (runStuff_getWl_fails X cfg t ls w took inc ds Hlen Hd)
          as (e & w' & Hrun & Ht & Hdl); [rewrite Hr; exact Hok|].
        eexists false, w', _. split; [exact Hrun|]. split; [exact Ht|].
        split; [exact Hdl|]. split; [|split].
        -- rewrite filter_app, (session_free_dials _ Hpl). reflexivity.
        -- rewrite filter_app, (session_free_closes _ Hpl). reflexivity.
        -- exists 1%nat, []. rewrite filter_app, (session_free_writes _ Hpl). reflexivity.
    + destruct (runStuff_getWl_fails X cfg t ls w took inc ds Hlen Hd)
        as (e & w' & Hrun & Ht & Hdl); [rewrite Hr; exact I|].
      eexists false, w', _. split; [exact Hrun|]. split; [exact Ht|].
      split; [exact Hdl|]. split; [|split].
      * rewrite filter_app, (session_free_dials _ Hpl). reflexivity.
      * rewrite filter_app, (session_free_closes _ Hpl). reflexivity.
      * exists 1%nat, []. rewrite filter_app, (session_free_writes _ Hpl). reflexivity.
Qed.

(** On a row with its four leading columns [runStuff] does not panic,
    whatever the dial, the priming and the reads come back with: a run that
    ends has returned.  It has then dialled once and used up one dial
    outcome, closed the connection exactly when the dial gave one, and
    written to the device nothing but [getWl] and then at most one
    [setWlsRelPower].  (Neither [SkipUntil] nor [ReadString] has a deadline:
    against a peer that stays silent the call does not end, and such a peer
    is not among the worlds here.) *)
Theorem runStuff_ends_without_panic
        (X : Extern) (cfg : Config) (t : Time) (ls : list string) (w : World) :
  (4 <= List.length ls)%nat ->
  match runStuff cfg t ls w with
  | Stopped _ _ => False
  | Done _ w' =>
      exists evs,
        trace w' = trace w ++ evs /\
        dials w' = tl (dials w) /\
        filter is_dial evs = [EvDial] /\
        filter is_close evs
        = match dials w with DialOk _ _ _ :: _ => [EvClose] | _ => [] end /\
        exists k sent,
          filter is_write evs
          = firstn k [EvWrite ("getWl" ++ LF);
                      EvWrite (setMany_command cfg sent ++ LF)]
  end.
Proof.
  intros Hlen.
  destruct (runStuff_outcome X cfg t ls w Hlen) as (b & w' & evs & Hrun & Hrest).
  rewrite Hrun. exists evs. exact Hrest.
Qed.

(** [runStuff] reports success only for an execution in which the device
    answered both [getWl] and the [setWlsRelPower] that followed with the
    success token. *)
Theorem runStuff_true_only_if_acknowledged
        (X : Extern) (cfg : Config) (t : Time) (ls : list string) (w w' : World) :
  runStuff cfg t ls w = Done true w' ->
  exists took inc ds c1 r1 c2 r2,
    dials w = DialOk took None inc :: ds /\
    read_until ">" inc = Some (c1, r1) /\ matchOK_MatchString c1 = true /\
    read_until ">" r1 = Some (c2, r2) /\ matchOK_MatchString c2 = true.
Proof.
  intros Hrun.
  destruct (Nat.le_gt_cases 4 (List.length ls)) as [Hlen|Hlen].
  2:{ rewrite (runStuff_short_row X cfg t ls w Hlen) in Hrun. discriminate. }
  destruct (dials w) as [|[took e|took [e|] inc] ds] eqn:Hd.
  - destruct (runStuff_no_connection X cfg t ls w Hlen) as (e & w1 & H1 & _);
      [rewrite Hd; exact I | congruence].
  - destruct (runStuff_no_connection X cfg t ls w Hlen) as (e' & w1 & H1 & _);
      [rewrite Hd; exact I | congruence].
  - destruct (runStuff_prime_fails X cfg t ls w took e inc ds Hlen Hd)
      as (w1 & H1 & _). congruence.
  - destruct (read_until ">" inc) as [[c1 r1]|] eqn:Hr.
    + destruct (matchOK_MatchString c1) eqn:Hok.
      * destruct (runStuff_session X cfg t ls w took inc ds c1 r1 Hlen Hd Hr Hok)
          as (b & w1 & tail & H1 & _ & _ & _ & Hb).
        assert (b = true) by congruence.
        apply Hb in H as (c2 & r2 & Hr2 & Hok2).
        exists took, inc, ds, c1, r1, c2, r2. auto.
      * destruct (runStuff_getWl_fails X cfg t ls w took inc ds Hlen Hd)
          as (e & w1 & H1 & _); [rewrite Hr; exact Hok | congruence].
    + destruct (runStuff_getWl_fails X cfg t ls w took inc ds Hlen Hd)
        as (e & w1 & H1 & _); [rewrite Hr; exact I | congruence].
Qed.

(* ================================================================== *)
(** * More on the retry loop and the runner *)

Lemma all_fail_step (n : nat) (ds : list DialOutcome) :
  all_fail (S n) ds = true ->
  match ds with DialOk _ _ _ :: _ => False | _ => True end /\
  all_fail n (tl ds) = true.
Proof.
  cbn [all_fail]. destruct ds as [|[took e|took p inc] ds]; cbn [tl]; auto.
  discriminate.
Qed.

Lemma skipn_tl {A} (n : nat) (l : list A) : skipn n (tl l) = skipn (S n) l.
Proof. destruct l; [destruct n; reflexivity | reflexivity]. Qed.

(** When each of the first [n] dials fails, the retry loop makes exactly [n]
    attempts, one dial each, writes nothing to the device, and returns: the
    entry is given up and the caller goes on. *)
Theorem retry_gives_up (X : Extern) (cfg : Config) (t : Time) (ls : list string)
        (n : nat) :
  (4 <= List.length ls)%nat ->
  forall w,
    all_fail n (dials w) = true ->
    exists w' evs,
      retry cfg n t ls w = Done tt w' /\
      trace w' = trace w ++ evs /\
      dials w' = skipn n (dials w) /\
      filter is_write evs = [] /\
      List.length (filter is_dial evs) = n.
Proof.
  intros Hlen. induction n as [|n IH]; intros w Hf.
  - exists w, []. rewrite app_nil_r. repeat split.
  - apply all_fail_step in Hf as [Hd Hf].
    destruct (runStuff_no_connection X cfg t ls w Hlen Hd) as (e & w1 & Hrun & Ht & Hdl).
    rewrite <- Hdl in Hf.
    destruct (IH w1 Hf) as (w' & evs & Hrun' & Ht' & Hdl' & Hw' & Hn').
    exists w', ((parse_logs (skipn 4 ls) ++ [EvDial; EvLog (LogErr e)]) ++ evs).
    pose proof (parse_logs_session_free (skipn 4 ls)) as Hpl.
    split; [|split; [|split; [|split]]].
    + cbn [retry]. unfold bind. rewrite Hrun. exact Hrun'.
    + rewrite Ht', Ht, <- !app_assoc. reflexivity.
    + rewrite Hdl', Hdl. apply skipn_tl.
    + rewrite !filter_app, (session_free_writes _ Hpl), Hw'. reflexivity.
    + rewrite !filter_app, (session_free_dials _ Hpl), !length_app, Hn'. reflexivity.
Qed.

Lemma retry_gives_up_witness :
  exists w' evs,
    retry (X := demo_extern) demo_cfg 10 (100 * Second)
          (strings.Split "100,x,y,z,50.0,75.0" ",") (world_at 150 [] [])
    = Done tt w' /\
    trace w' = trace (world_at 150 [] []) ++ evs /\
    dials w' = skipn 10 (dials (world_at 150 [] [])) /\
    filter is_write evs = [] /\
    List.length (filter is_dial evs) = 10%nat.
Proof.
  apply (retry_gives_up demo_extern demo_cfg (100 * Second)
           (strings.Split "100,x,y,z,50.0,75.0" ",") 10).
  - vm_compute. lia.
  - reflexivity.
Defined.

(** When the first [k] dials fail and the next one opens a session in which
    the device answers both commands with the success token, the retry loop
    (with more than [k] rounds) stops at that attempt: [k + 1] dials in all,
    the two commands written once each, and the later dial outcomes left
    for later. *)
Theorem retry_stops_at_first_success
        (X : Extern) (cfg : Config) (t : Time) (ls : list string)
        (took : Duration) (inc : string) (ds : list DialOutcome)
        (c1 r1 c2 r2 : string) (k : nat) :
  (4 <= List.length ls)%nat ->
  read_until ">" inc = Some (c1, r1) -> matchOK_MatchString c1 = true ->
  read_until ">" r1 = Some (c2, r2) -> matchOK_MatchString c2 = true ->
  forall (n : nat) (w : World),
    (k < n)%nat ->
    all_fail k (dials w) = true ->
    skipn k (dials w) = DialOk took None inc :: ds ->
    exists w' evs,
      retry cfg n t ls w = Done tt w' /\
      trace w' = trace w ++ evs /\
      dials w' = ds /\
      List.length (filter is_dial evs) = S k /\
      List.length (filter is_write evs) = 2%nat.
Proof.
  intros Hlen Hr1 Hok1 Hr2 Hok2.
  pose proof (parse_logs_session_free (skipn 4 ls)) as Hpl.
  induction k as [|k IH]; intros n w Hkn Hf Hsk.
  - destruct n as [|n]; [lia|]. cbn [skipn] in Hsk.
    destruct (runStuff_session X cfg t ls w took inc ds c1 r1 Hlen Hsk Hr1 Hok1)
      as (b & w' & tail & Hrun & Ht & Hev & Hdl & Hb).
    assert (b = true) by (apply Hb; eauto). subst b.
    eexists w', _. split; [|split; [exact Ht | split; [exact Hdl|]]].
    + cbn [retry]. unfold bind. rewrite Hrun. reflexivity.
    + rewrite !filter_app, (session_free_dials _ Hpl), (session_free_dials _ Hev),
        (session_free_writes _ Hpl), (session_free_writes _ Hev).
      destruct (_ <? _)%nat; split; reflexivity.
  - destruct n as [|n]; [lia|].
    apply all_fail_step in Hf as [Hd Hf].
    destruct (runStuff_no_connection X cfg t ls w Hlen Hd) as (e & w1 & Hrun & Ht & Hdl).
    rewrite <- Hdl in Hf. rewrite <- skipn_tl, <- Hdl in Hsk.
    destruct (IH n w1 ltac:(lia) Hf Hsk) as (w' & evs & Hrun' & Ht' & Hdl' & Hnd & Hnw).
    exists w', ((parse_logs (skipn 4 ls) ++ [EvDial; EvLog (LogErr e)]) ++ evs).
    split; [|split; [|split; [exact Hdl'|split]]].
    + cbn [retry]. unfold bind. rewrite Hrun. exact Hrun'.
    + rewrite Ht', Ht, <- !app_assoc. reflexivity.
    + rewrite !filter_app, (session_free_dials _ Hpl), !length_app, Hnd. reflexivity.
    + rewrite !filter_app, (session_free_writes _ Hpl), !length_app, Hnw. reflexivity.
Qed.

Lemma retry_stops_at_first_success_witness :
  exists w' evs,
    retry (X := demo_extern) demo_cfg 10 (100 * Second)
          (strings.Split "100,x,y,z,50.0,75.0" ",")
          (world_at 150 [DialFails Second (ErrNet "i/o timeout");
                         DialFails Second (ErrNet "i/o timeout");
                         DialOk 0 None (session_ok "450 660");
                         DialOk 0 None (session_ok "450 660")] [])
    = Done tt w' /\
    trace w' = trace (world_at 150 [DialFails Second (ErrNet "i/o timeout");
                                    DialFails Second (ErrNet "i/o timeout");
                                    DialOk 0 None (session_ok "450 660");
                                    DialOk 0 None (session_ok "450 660")] []) ++ evs /\
    dials w' = [DialOk 0 None (session_ok "450 660")] /\
    List.length (filter is_dial evs) = 3%nat /\
    List.length (filter is_write evs) = 2%nat.
Proof.
  apply (retry_stops_at_first_success demo_extern demo_cfg (100 * Second)
           (strings.Split "100,x,y,z,50.0,75.0" ",")
           0 (session_ok "450 660") [DialOk 0 None (session_ok "450 660")]
           ("OK 450 660" ++ CRLF ++ ">") ("OK" ++ CRLF ++ ">")
           ("OK" ++ CRLF ++ ">") EmptyString 2).
  - vm_compute. lia.
  - reflexivity.
  - reflexivity.
  - reflexivity.
  - reflexivity.
  - lia.
  - reflexivity.
  - reflexivity.
Defined.

Section MoreRows.

Context {X : Extern}.
Variable cfg : Config.

(** A row still to come with fewer than four columns, once the first pass
    is over: the runner sleeps until the row is due and then panics on the
    slice of its columns; the retry loop does not catch it. *)
Theorem scan_short_row_panics
        (line iso : string) (rest : list string) (idx : Z)
        (theTime lastTime : Time) (lastLineSplit : list string) (w : World) :
  idx <> 0 ->
  fuzzy_extract (date_field line) = (None, iso) ->
  time_Parse iso = inl theTime ->
  clock w <= theTime ->
  (List.length (strings.Split line ",") < 4)%nat ->
  scan_lines cfg (line :: rest) idx lastTime lastLineSplit false w
  = Stopped (Panic "slice bounds out of range") (slept theTime w).
Proof.
  intros Hidx Hx Hp Hle Hshort.
  rewrite (scan_future_row cfg line iso rest idx theTime) by assumption.
  unfold bind, ret, time_Until, logLine, emit, time_Sleep.
  cbn [retry]. unfold bind.
  rewrite (runStuff_short_row X cfg theTime _ _ Hshort). reflexivity.
Qed.

Lemma scan_passed_over (rows : list string) (now : Time) :
  Forall (passed_over now) rows ->
  forall (idx : Z) (lastTime : Time) (lastLineSplit : list string)
         (firstRun : bool) (w : World),
    idx <> 0 -> clock w = now ->
    exists w' evs,
      scan_lines cfg rows idx lastTime lastLineSplit firstRun w = Done tt w' /\
      trace w' = trace w ++ evs /\
      Forall (fun e => is_log e = true) evs /\
      clock w' = clock w /\ dials w' = dials w.
Proof.
  induction 1 as [|line rows Hline _ IH]; intros idx lastTime lastLineSplit firstRun w Hidx Hclk.
  - exists w, []. rewrite app_nil_r. repeat split. constructor.
  - cbn [scan_lines]. pose proof Hidx as Hidx'. apply Z.eqb_neq in Hidx'. rewrite Hidx'.
    unfold bind at 1. rewrite index_date_field.
    unfold bind at 1. unfold parseDateTime.
    unfold passed_over in Hline.
    destruct (fuzzy_extract (date_field line)) as [oe iso]. cbn [snd] in Hline.
    assert (Hstep : forall w1 pre,
               clock w1 = now -> trace w1 = trace w ++ pre ->
               dials w1 = dials w ->
               Forall (fun e => is_log e = true) pre ->
               exists w' evs,
                 match time_Parse iso with
                 | inr err =>
                     logErr err ;;
                     scan_lines cfg rows idx lastTime lastLineSplit firstRun
                 | inl theTime =>
                     now0 <- time_Now ;;
                     if theTime <? now0
                     then scan_lines cfg rows idx theTime (strings.Split line ",") firstRun
                     else
                       (if firstRun
                        then logLine (LogText "running firstrun line") ;;
                             retry cfg 10 lastTime lastLineSplit
                        else ret tt) ;;
                       d <- time_Until theTime ;;
                       logLine (LogSleeping d) ;;
                       d0 <- time_Until theTime ;;
                       time_Sleep d0 ;;
                       retry cfg 10 theTime (strings.Split line ",") ;;
                       scan_lines cfg rows (idx + 1) lastTime lastLineSplit false
                 end w1 = Done tt w' /\
                 trace w' = trace w ++ evs /\
                 Forall (fun e => is_log e = true) evs /\
                 clock w' = clock w /\ dials w' = dials w).
    { intros w1 pre Hc1 Ht1 Hd1 Hpre.
      destruct (time_Parse iso) as [theTime|err].
      - unfold bind at 1. unfold time_Now. rewrite Hc1.
        apply Z.ltb_lt in Hline. rewrite Hline.
        destruct (IH idx theTime (strings.Split line ",") firstRun w1 Hidx Hc1)
          as (w' & evs & Hrun & Ht & Hev & Hc & Hd).
        exists w', (pre ++ evs). split; [exact Hrun|].
        split; [rewrite Ht, Ht1, app_assoc; reflexivity|].
        split; [apply Forall_app; auto|].
        split; congruence.
      - unfold bind at 1. unfold logErr, logLine, emit.
        destruct (IH idx lastTime lastLineSplit firstRun
                     (emit_in (EvLog (LogErr err)) w1) Hidx Hc1)
          as (w' & evs & Hrun & Ht & Hev & Hc & Hd).
        exists w', (pre ++ EvLog (LogErr err) :: evs). split; [exact Hrun|].
        split; [rewrite Ht; cbn [trace emit_in]; rewrite Ht1, <- !app_assoc; reflexivity|].
        split; [apply Forall_app; split; [exact Hpre | constructor; [reflexivity | exact Hev]]|].
        cbn [clock dials emit_in] in Hc, Hd. split; congruence. }
    destruct oe as [e|].
    + unfold bind at 1. unfold logLine, emit. cbn [ret]. unfold bind at 1. cbn [ret].
      apply (Hstep (emit_in (EvLog (LogExtract e)) w) [EvLog (LogExtract e)]);
        [exact Hclk | reflexivity | reflexivity | repeat constructor].
    + cbn [ret bind]. unfold bind at 1. cbn [ret].
      apply (Hstep w []);
        [exact Hclk | rewrite app_nil_r; reflexivity | reflexivity | constructor].
Qed.

(** When every row of the schedule is passed over at the start (its date
    does not parse, or is already past), [runConditions] executes nothing,
    not even the last past row: it only logs, never dials and never sleeps,
    and returns. *)
Theorem runConditions_nothing_to_come
        (header : string) (rows : list string) (w : World) :
  Forall (passed_over (clock w)) rows ->
  exists w' evs,
    runConditions cfg (Some (header :: rows)) w = Done tt w' /\
    trace w' = trace w ++ evs /\
    Forall (fun e => is_log e = true) evs /\
    clock w' = clock w /\ dials w' = dials w.
Proof.
  intros Hrows.
  unfold runConditions. unfold bind at 1. unfold logLine at 1, emit at 1.
  rewrite scan_header.
  destruct (scan_passed_over rows (clock w) Hrows 1 zeroTime [] true
              (emit_in (EvLog (LogRunning (conditionsPath cfg))) w))
    as (w' & evs & Hrun & Ht & Hev & Hc & Hd); [lia | reflexivity |].
  exists w', (EvLog (LogRunning (conditionsPath cfg)) :: evs).
  split; [exact Hrun|].
  split; [rewrite Ht; cbn [trace emit_in]; rewrite <- app_assoc; reflexivity|].
  split; [constructor; [reflexivity | exact Hev]|].
  cbn [clock dials emit_in] in Hc, Hd. auto.
Qed.

(** With a conditions file and [dummy] off, [main] runs the schedule and
    nothing else: the poll branch is not taken, whatever [noMetrics] is. *)
Theorem main_runs_schedule (file : option (list string)) (ticks : nat) (w : World) :
  conditionsPath cfg <> EmptyString ->
  dummy cfg = false ->
  main cfg file ticks w = runConditions cfg file w.
Proof.
  intros Hp Hd. unfold main, poll_mode, schedule_mode.
  apply String.eqb_neq in Hp. rewrite Hp, Hd.
  cbn. rewrite andb_false_r. reflexivity.
Qed.

End MoreRows.


(* ================================================================== *)
(** * The schedule on a device that answers *)

Lemma parse_logs_no_step (l : list string) :
  Forall (fun e => is_step e = false) (parse_logs l).
Proof.
  induction l as [|v rest IH]; cbn [parse_logs]; [constructor|].
  destruct (ParseFloat (matchFloat_FindString v)); [exact IH|].
  constructor; [reflexivity | exact IH].
Qed.

(** An execution in a session that acknowledges both commands: one call of
    [runStuff], which returns [true], so that the retry loop makes no
    second; it uses up the dial and leaves the row's two writes as its only
    steps. *)
Lemma runStuff_acknowledged (X : Extern) (cfg : Config) (t : Time)
      (ls : list string) (w : World) (took : Duration) (inc : string)
      (ds : list DialOutcome) :
  (4 <= List.length ls)%nat ->
  dials w = DialOk took None inc :: ds ->
  acknowledges inc = true ->
  exists w',
    runStuff cfg t ls w = Done true w' /\
    retry cfg 10 t ls w = Done tt w' /\
    dials w' = ds /\
    steps (trace w') = steps (trace w) ++ row_writes cfg inc ls.
Proof.
  intros Hlen Hd Hack.
  unfold acknowledges in Hack. unfold row_writes, session_labels.
  destruct (read_until ">" inc) as [[c1 r1]|] eqn:Hr1; [|discriminate].
  apply andb_true_iff in Hack as [Hok1 Hack].
  destruct (read_until ">" r1) as [[c2 r2]|] eqn:Hr2; [|discriminate].
  destruct (words_of_ok_text c1 Hok1) as (t0 & labels & Hw).
  rewrite Hw. cbn [tl].
  assert (Hrun : exists w', runStuff cfg t ls w = Done true w' /\ dials w' = ds /\
            steps (trace w')
            = steps (trace w)
              ++ [EvWrite ("getWl" ++ LF);
                  EvWrite (setMany_command cfg
                             (firstn (Nat.min (List.length labels)
                                        (List.length (parsed_values (skipn 4 ls))))
                                     (parsed_values (skipn 4 ls))) ++ LF)]).
  { rewrite (runStuff_to_send X cfg t ls w took inc ds c1 r1 t0 labels
               Hlen Hd Hr1 Hok1 Hw).
    destruct (send_targets_events (fun e => is_step e = false)
                ltac:(reflexivity) ltac:(reflexivity) ltac:(reflexivity)
                ltac:(reflexivity) ltac:(reflexivity) ltac:(reflexivity)
                X cfg t labels (parsed_values (skipn 4 ls))
                (exchanged "getWl" r1
                   (dialled took ds inc (parse_logs (skipn 4 ls)) w)))
      as (b & w' & tail & Hrun & Ht & Hev & Hdl & Hb).
    assert (b = true) by (apply Hb; cbn; eauto). subst b.
    unfold with_defer. rewrite Hrun. cbn [emit].
    eexists. split; [reflexivity|]. split.
    - cbn [dials emit_in]. rewrite Hdl. reflexivity.
    - unfold steps. cbn [trace emit_in]. rewrite Ht.
      unfold exchanged, dialled, emit_in, set_incoming. cbn [trace].
      rewrite !filter_app, (filter_none _ _ (parse_logs_no_step _)),
        (filter_none _ _ Hev).
      destruct (_ <? _)%nat;
        cbn [filter is_step mismatch_warning app];
        rewrite ?app_nil_r, <- ?app_assoc; reflexivity. }
  destruct Hrun as (w' & Hrun & Hdl & Hst).
  exists w'. split; [exact Hrun|]. split; [|split; [exact Hdl | exact Hst]].
  cbn [retry]. unfold bind. rewrite Hrun. reflexivity.
Qed.

Lemma steps_slept (theTime : Time) (w : World) :
  steps (trace (slept theTime w)) = steps (trace w) ++ [sleep_line theTime w].
Proof.
  unfold steps, slept, advance, emit_in, sleep_line. cbn [trace].
  rewrite !filter_app. cbn [filter is_step]. rewrite app_nil_r. reflexivity.
Qed.

Lemma steps_started (cfg : Config) (w : World) :
  steps (trace (started cfg w)) = steps (trace w).
Proof.
  unfold steps, started, emit_in. cbn [trace].
  rewrite !filter_app. cbn [filter is_step]. rewrite !app_nil_r. reflexivity.
Qed.

(** A row still to come: the catch-up if the first pass is on, the sleep,
    the row's execution, then the rows after it. *)
Lemma scan_future_row_run (X : Extern) (cfg : Config) (line iso : string)
      (rest : list string) (idx : Z) (theTime lastTime : Time)
      (lastLineSplit : list string) (firstRun : bool) (w wa wb : World) :
  idx <> 0 ->
  fuzzy_extract (date_field line) = (None, iso) ->
  time_Parse iso = inl theTime ->
  clock w <= theTime ->
  (if firstRun then
     logLine (LogText "running firstrun line") ;;
     retry cfg 10 lastTime lastLineSplit
   else ret tt) w = Done tt wa ->
  retry cfg 10 theTime (strings.Split line ",") (slept theTime wa) = Done tt wb ->
  scan_lines cfg (line :: rest) idx lastTime lastLineSplit firstRun w
  = scan_lines cfg rest (idx + 1) lastTime lastLineSplit false wb.
Proof.
  intros Hidx Hx Hp Hle Ha Hb.
  rewrite (scan_future_row cfg line iso rest idx theTime) by assumption.
  unfold bind at 1. rewrite Ha.
  change (scan_lines cfg rest (idx + 1) lastTime lastLineSplit false wb)
    with (match Done tt wb with
          | Done _ w' => scan_lines cfg rest (idx + 1) lastTime lastLineSplit false w'
          | Stopped s w' => Stopped s w'
          end).
  rewrite <- Hb. reflexivity.
Qed.

(** C1 (amended).  A schedule of a header and three rows due at
    [T1 < T2 < T3], read from an instant strictly between [T1] and [T2], on
    a device that takes each session and acknowledges both commands of it.
    The first execution is the catch-up of the first row: one call of
    [runStuff], which returns [true]; then come the sleep until [T2] and one
    call for the second row.  What follows depends on the clock the second
    execution leaves.  If it is not past [T3], the runner sleeps until [T3]
    and executes the third row, and the steps of the whole run are the
    writes of the three rows, once each and in this order, with the two
    sleeps between them.  If it is past [T3], the third row is passed over:
    the run returns with the third session not dialled, and its steps are
    the writes of the first two rows with the one sleep between them. *)
Theorem runConditions_catch_up_then_follow
        (X : Extern) (cfg : Config)
        (header r1 r2 r3 iso1 iso2 iso3 : string) (T1 T2 T3 : Time) (w : World)
        (k1 k2 k3 : Duration) (s1 s2 s3 : string) (ds : list DialOutcome) :
  fuzzy_extract (date_field r1) = (None, iso1) -> time_Parse iso1 = inl T1 ->
  fuzzy_extract (date_field r2) = (None, iso2) -> time_Parse iso2 = inl T2 ->
  fuzzy_extract (date_field r3) = (None, iso3) -> time_Parse iso3 = inl T3 ->
  T1 < T2 -> T2 < T3 ->
  T1 < clock w -> clock w < T2 ->
  (4 <= List.length (strings.Split r1 ","))%nat ->
  (4 <= List.length (strings.Split r2 ","))%nat ->
  (4 <= List.length (strings.Split r3 ","))%nat ->
  dials w = DialOk k1 None s1 :: DialOk k2 None s2 :: DialOk k3 None s3 :: ds ->
  acknowledges s1 = true -> acknowledges s2 = true -> acknowledges s3 = true ->
  let l1 := strings.Split r1 "," in
  let l2 := strings.Split r2 "," in
  let l3 := strings.Split r3 "," in
  let run := runConditions cfg (Some [header; r1; r2; r3]) w in
  exists w1 w2 : World,
    runStuff cfg T1 l1 (started cfg w) = Done true w1 /\
    runStuff cfg T2 l2 (slept T2 w1) = Done true w2 /\
    (clock w2 <= T3 ->
     exists w3,
       runStuff cfg T3 l3 (slept T3 w2) = Done true w3 /\
       run = Done tt w3 /\
       steps (trace w3)
       = steps (trace w)
         ++ row_writes cfg s1 l1
         ++ sleep_line T2 w1 :: row_writes cfg s2 l2
         ++ sleep_line T3 w2 :: row_writes cfg s3 l3) /\
    (T3 < clock w2 ->
     run = Done tt w2 /\
     dials w2 = DialOk k3 None s3 :: ds /\
     steps (trace w2)
     = steps (trace w)
       ++ row_writes cfg s1 l1
       ++ sleep_line T2 w1 :: row_writes cfg s2 l2).
Proof.
  intros Hx1 Hp1 Hx2 Hp2 Hx3 Hp3 H12 H23 Hnow1 Hnow2 Hl1 Hl2 Hl3 Hd Ha1 Ha2 Ha3
         l1 l2 l3 run.
  destruct (runStuff_acknowledged X cfg T1 l1 (started cfg w) k1 s1 _ Hl1 Hd Ha1)
    as (w1 & Hrun1 & Hre1 & Hd1 & Hs1).
  destruct (runStuff_acknowledged X cfg T2 l2 (slept T2 w1) k2 s2 _ Hl2 Hd1 Ha2)
    as (w2 & Hrun2 & Hre2 & Hd2 & Hs2).
  rewrite steps_slept, Hs1, steps_started in Hs2.
  assert (Hscan : run = scan_lines cfg [r3] (1 + 1) T1 l1 false w2).
  { unfold run, runConditions. unfold bind at 1. unfold logLine at 1, emit at 1.
    rewrite scan_header.
    rewrite (scan_past_row cfg r1 iso1 _ 1 T1) by (try assumption; cbn; lia).
    apply (scan_future_row_run X cfg r2 iso2 [r3] 1 T2 T1 l1 true _ w1 w2);
      try assumption; try lia; cbn; lia. }
  exists w1, w2. split; [exact Hrun1|]. split; [exact Hrun2|]. split.
  - intros Hle.
    destruct (runStuff_acknowledged X cfg T3 l3 (slept T3 w2) k3 s3 _ Hl3 Hd2 Ha3)
      as (w3 & Hrun3 & Hre3 & Hd3 & Hs3).
    exists w3. split; [exact Hrun3|]. split.
    + rewrite Hscan.
      rewrite (scan_future_row_run X cfg r3 iso3 [] (1 + 1) T3 T1 l1 false w2 w2 w3);
        try assumption; try lia; reflexivity.
    + rewrite Hs3, steps_slept, Hs2. rewrite <- !app_assoc. reflexivity.
  - intros Hlt. split; [|split; [exact Hd2|]].
    + rewrite Hscan.
      rewrite (scan_past_row cfg r3 iso3 [] (1 + 1) T3) by (try assumption; lia).
      reflexivity.
    + rewrite Hs2. rewrite <- !app_assoc. reflexivity.
Qed.

Lemma runConditions_catch_up_then_follow_witness :
  let w := world_at 150 demo_dials [] in
  let l1 := strings.Split "100,x,y,z,50.0,75.0" "," in
  let l2 := strings.Split "200,x,y,z,10,20" "," in
  let l3 := strings.Split "300,x,y,z,1,2" "," in
  let s := session_ok "450 660" in
  let run := runConditions (X := demo_extern) demo_cfg (Some demo_file) w in
  exists w1 w2 : World,
    runStuff (X := demo_extern) demo_cfg (100 * Second) l1 (started demo_cfg w)
    = Done true w1 /\
    runStuff (X := demo_extern) demo_cfg (200 * Second) l2 (slept (200 * Second) w1)
    = Done true w2 /\
    (clock w2 <= 300 * Second ->
     exists w3,
       runStuff (X := demo_extern) demo_cfg (300 * Second) l3
                (slept (300 * Second) w2) = Done true w3 /\
       run = Done tt w3 /\
       steps (trace w3)
       = steps (trace w)
         ++ row_writes (X := demo_extern) demo_cfg s l1
         ++ sleep_line (200 * Second) w1
         :: row_writes (X := demo_extern) demo_cfg s l2
         ++ sleep_line (300 * Second) w2
         :: row_writes (X := demo_extern) demo_cfg s l3) /\
    (300 * Second < clock w2 ->
     run = Done tt w2 /\
     dials w2 = [DialOk 0 None s] /\
     steps (trace w2)
     = steps (trace w)
       ++ row_writes (X := demo_extern) demo_cfg s l1
       ++ sleep_line (200 * Second) w1
       :: row_writes (X := demo_extern) demo_cfg s l2).
Proof.
  apply (runConditions_catch_up_then_follow
           demo_extern demo_cfg
           "datetime,a,b,c,ch1,ch2"
           "100,x,y,z,50.0,75.0" "200,x,y,z,10,20" "300,x,y,z,1,2"
           "100" "200" "300"
           (100 * Second) (200 * Second) (300 * Second)
           (world_at 150 demo_dials [])
           0 0 0 (session_ok "450 660") (session_ok "450 660")
           (session_ok "450 660") []).
  - reflexivity.
  - reflexivity.
  - reflexivity.
  - reflexivity.
  - reflexivity.
  - reflexivity.
  - vm_compute. reflexivity.
  - vm_compute. reflexivity.
  - vm_compute. reflexivity.
  - vm_compute. reflexivity.
  - vm_compute. lia.
  - vm_compute. lia.
  - vm_compute. lia.
  - reflexivity.
  - reflexivity.
  - reflexivity.
  - reflexivity.
Defined.

(** C1, as stated, fails when the second execution ends after the third
    row is due: rows due at 100s, 200s and 201s read from 150s, on a device
    whose sessions take two seconds to open.  The second execution ends at
    202s, the third row is passed over, and the run returns without having
    dialled the third session or written the third row's values. *)
Lemma runConditions_late_row_never_executed :
  let r := runConditions (X := demo_extern) demo_cfg (Some late_file)
                         (world_at 150 slow_dials []) in
  returned r = Some tt /\
  writes_and_sleeps (trace (result_world r))
  = [EvWrite ("getWl" ++ LF); EvWrite ("setWlsRelPower 500 750" ++ LF);
     EvSleep (48 * Second);
     EvWrite ("getWl" ++ LF); EvWrite ("setWlsRelPower 100 200" ++ LF)] /\
  clock (result_world r) = 202 * Second /\
  dials (result_world r) = [DialOk (2 * Second) None (session_ok "450 660")].
Proof. cbv zeta. repeat split; vm_compute; reflexivity. Qed.

(* ================================================================== *)
(** * More on telemetry *)







(** With [-no-metrics] the telemetry loop does nothing at all. *)
Lemma metrics_loop_quiet (cfg : Config) (n : nat) (wl : list string)
      (vals : list float64) (w : World) :
  noMetrics cfg = true -> metrics_loop cfg n wl vals w = Done tt w.
Proof.
  intros H. destruct n as [|n]; [reflexivity|].
  cbn [metrics_loop]. unfold bind, writeMetrics. rewrite H. reflexivity.
Qed.

Lemma send_targets_quiet (X : Extern) (cfg : Config) (t : Time)
      (wl : list string) (vals : list float64) (w : World) (c2 r2 : string) :
  noMetrics cfg = true ->
  read_until ">" (incoming w) = Some (c2, r2) ->
  matchOK_MatchString c2 = true ->
  send_targets cfg t liveConn wl vals w
  = Done true
      (emit_in (EvLog (LogRan t vals))
         (exchanged
            (setMany_command cfg
               (firstn (Nat.min (List.length wl) (List.length vals)) vals))
            r2
            (if (List.length wl <? List.length vals)%nat
             then emit_in mismatch_warning w else w))).
Proof.
  intros Hq Hr Hok.
  unfold send_targets, len. rewrite min_len, Nat2Z.id, warn_condition.
  unfold bind at 1.
  destruct (List.length wl <? List.length vals)%nat.
  - unfold logLine at 1, emit at 1.
    unfold bind at 1. unfold setMany. unfold bind at 1.
    rewrite (execCommand_ok (emit_in mismatch_warning w) _ c2 r2 Hr Hok). cbn [ret].
    unfold bind at 1. unfold logLine, emit. unfold bind at 1.
    rewrite (metrics_loop_quiet cfg 5 wl vals _ Hq). reflexivity.
  - cbn [ret]. unfold bind at 1. unfold setMany. unfold bind at 1.
    rewrite (execCommand_ok w _ c2 r2 Hr Hok). cbn [ret].
    unfold bind at 1. unfold logLine, emit. unfold bind at 1.
    rewrite (metrics_loop_quiet cfg 5 wl vals _ Hq). reflexivity.
Qed.

(** With [-no-metrics], an execution whose device commands succeed touches
    the device and the log only: after the row's parse errors come the dial,
    [getWl], the warning if it is due, [setWlsRelPower], the "ran" line and
    the close, and nothing of telegraf; the clock moves by the time the dial
    took and the udp script is not consumed. *)
Theorem runStuff_quiet_trace
        (X : Extern) (cfg : Config) (t : Time) (ls : list string) (w : World)
        (took : Duration) (inc : string) (ds : list DialOutcome)
        (c1 r1 c2 r2 : string) :
  noMetrics cfg = true ->
  (4 <= List.length ls)%nat ->
  dials w = DialOk took None inc :: ds ->
  read_until ">" inc = Some (c1, r1) ->
  matchOK_MatchString c1 = true ->
  read_until ">" r1 = Some (c2, r2) ->
  matchOK_MatchString c2 = true ->
  let vals := parsed_values (skipn 4 ls) in
  let wl := tl (matchStrings_FindAllString (strings.TrimSpace c1)) in
  let sent := firstn (Nat.min (List.length wl) (List.length vals)) vals in
  exists w',
    runStuff cfg t ls w = Done true w' /\
    trace w' = trace w
               ++ parse_logs (skipn 4 ls)
               ++ [EvDial; EvWrite ("getWl" ++ LF)]
               ++ (if (List.length wl <? List.length vals)%nat
                   then [mismatch_warning] else [])
               ++ [EvWrite (setMany_command cfg sent ++ LF);
                   EvLog (LogRan t vals); EvClose] /\
    clock w' = clock w + took /\
    udps w' = udps w /\
    incoming w' = r2.
Proof.
  intros Hq Hlen Hd Hr1 Hok1 Hr2 Hok2 vals wl sent.
  destruct (words_of_ok_text c1 Hok1) as (t0 & labels & Hw).
  assert (Hwl : wl = labels) by (unfold wl; rewrite Hw; reflexivity).
  rewrite (runStuff_to_send X cfg t ls w took inc ds c1 r1 t0 labels Hlen Hd Hr1 Hok1 Hw).
  fold vals. rewrite <- Hwl.
  unfold with_defer.
  rewrite (send_targets_quiet X cfg t wl vals
             (exchanged "getWl" r1 (dialled took ds inc (parse_logs (skipn 4 ls)) w))
             c2 r2 Hq Hr2 Hok2).
  fold sent. cbn [emit].
  eexists. split; [reflexivity|].
  destruct (List.length wl <? List.length vals)%nat;
    unfold exchanged, dialled, emit_in, set_incoming;
    cbn [trace clock udps incoming]; rewrite <- !app_assoc; repeat split.
Qed.

(* ================================================================== *)
(** * More on the value encoding *)

(** [minMax] leaves the integers of [0, 1000] as they are, is idempotent,
    and keeps the order of its inputs. *)
Theorem minMax_fixes_range_and_order (v v' : Z) :
  (0 <= v <= 1000 -> minMax v = v) /\
  minMax (minMax v) = minMax v /\
  (v <= v' -> minMax v <= minMax v').
Proof.
  rewrite !minMax_clamp. unfold clamp. repeat split; lia.
Qed.

Lemma in_levels (n : Z) : 0 <= n <= 1000 -> In n levels.
Proof.
  intros H. unfold levels.
  replace n with (Z.of_nat (Z.to_nat n)) by lia.
  apply in_map, in_seq. lia.
Qed.

Lemma level_round_trip (unrep : float64 -> Z) :
  forallb
    (fun n =>
       minMax (f64_to_int unrep
                 (f64_mul (f64_div (f64_of_int n) (f64_of_int 10)) (f64_of_int 10)))
       =? n)
    levels = true.
Proof. vm_compute. reflexivity. Qed.

(** With the default multiplier 10, what [getPower] returns for the device
    levels 0 to 1000 is encoded by [setMany] to the same levels: reading the
    powers and writing them back changes nothing. *)
Theorem encode_decode_default (X : Extern) (cfg : Config) (ns : list Z) :
  multiplier cfg = f64_of_int 10 ->
  Forall (fun n => 0 <= n <= 1000) ns ->
  map (encode cfg) (map (decode cfg) ns) = ns.
Proof.
  intros Hm Hns. induction Hns as [|n ns Hn _ IH]; [reflexivity|].
  cbn [map]. rewrite IH. f_equal.
  unfold encode, decode. rewrite Hm.
  pose proof (level_round_trip int_unrep) as Hall.
  rewrite forallb_forall in Hall.
  apply Z.eqb_eq. apply (Hall n). apply in_levels. exact Hn.
Qed.

Lemma encode_decode_default_witness :
  map (encode (X := demo_extern) demo_cfg) (map (decode demo_cfg) [0; 3; 29; 999; 1000])
  = [0; 3; 29; 999; 1000].
Proof.
  apply (encode_decode_default demo_extern demo_cfg [0; 3; 29; 999; 1000]).
  - reflexivity.
  - repeat constructor; lia.
Defined.

(** The round trip is not exact for every multiplier: with 100, the level 29
    is read as 0.29 and written back as 28. *)
Lemma encode_decode_drifts :
  minMax (f64_to_int amd64_unrep
            (f64_mul (f64_div (f64_of_int 29) (f64_of_int 100)) (f64_of_int 100)))
  = 28.
Proof. vm_compute. reflexivity. Qed.

(* ================================================================== *)
(** * More on the exchange and the power query *)

(** Every exchange on a live connection writes the command and a line feed,
    and returns either an error with an empty text, or no error with a text
    that holds the success token, having taken the answer up to the first
    prompt off the stream. *)
Theorem execCommand_outcome (w : World) (command : string) :
  exists text err w',
    execCommand liveConn command w = Done (text, err) w' /\
    trace w' = trace w ++ [EvWrite (command ++ LF)] /\
    match err with
    | Some _ => text = EmptyString
    | None =>
        matchOK_MatchString text = true /\
        exists chunk, read_until ">" (incoming w) = Some (chunk, incoming w') /\
                      text = strings.TrimSpace chunk
    end.
Proof.
  destruct (read_until ">" (incoming w)) as [[chunk rest]|] eqn:Hr.
  - destruct (matchOK_MatchString chunk) eqn:Hok.
    + rewrite (execCommand_ok w command chunk rest Hr Hok).
      eexists _, _, _. split; [reflexivity|]. split; [reflexivity|].
      split; [rewrite matchOK_TrimSpace; exact Hok|].
      exists chunk. split; reflexivity.
    + rewrite (execCommand_not_ok w command chunk rest Hr Hok).
      eexists _, _, _. split; [reflexivity|]. split; reflexivity.
  - rewrite (execCommand_eof w command Hr).
    eexists _, _, _. split; [reflexivity|]. split; reflexivity.
Qed.

Lemma ParseInt_digits_range (t : string) :
  t <> EmptyString -> all_chars is_digit t = true ->
  strconv.maxInt64 < strconv.digits_val t 0 ->
  strconv.ParseInt t = inr (ErrNum "ParseInt" t ErrRange).
Proof.
  intros Hne Hd Hmax. destruct t as [|c t]; [congruence|].
  unfold strconv.ParseInt.
  assert (Hc : is_digit c = true) by (simpl in Hd; apply andb_true_iff in Hd; tauto).
  assert (Hm : Ascii.eqb c "-" = false).
  { destruct (Ascii.eqb_spec c "-") as [->|]; [vm_compute in Hc; discriminate | reflexivity]. }
  assert (Hp : Ascii.eqb c "+" = false).
  { destruct (Ascii.eqb_spec c "+") as [->|]; [vm_compute in Hc; discriminate | reflexivity]. }
  rewrite Hm, Hp. cbn [orb]. rewrite Hd.
  apply Z.leb_gt in Hmax. rewrite Hmax. reflexivity.
Qed.

Lemma parse_ints_stops (pre post : list string) (big : string) (values : list Z) :
  Forall (fun t => t <> EmptyString /\ all_chars is_digit t = true) (pre ++ big :: post) ->
  Forall (fun t => strconv.digits_val t 0 <= strconv.maxInt64) pre ->
  strconv.maxInt64 < strconv.digits_val big 0 ->
  parse_ints (pre ++ big :: post) values
  = (values ++ map (fun t => strconv.digits_val t 0) pre,
     Some (ErrNum "ParseInt" big ErrRange)).
Proof.
  revert values. induction pre as [|t pre IH]; intros values Hd Hm Hbig; cbn [app parse_ints map].
  - inversion Hd as [|? ? [Hne Hdig] _]; subst.
    rewrite (ParseInt_digits_range big Hne Hdig Hbig), app_nil_r. reflexivity.
  - inversion Hd as [|? ? [Hne Hdig] Hd']; subst.
    inversion Hm as [|? ? Hmax Hm']; subst.
    rewrite (ParseInt_digits t Hne Hdig Hmax), IH by assumption.
    rewrite <- app_assoc. reflexivity.
Qed.

(** A power answer with a number too large for an int: [getPower] returns
    the error of that number together with the powers read before it (those
    after the first integer token, which is dropped); what follows the large
    number is not read. *)
Theorem getPower_stops_at_overflow
        (cfg : Config) (w : World) (chunk rest t0 big : string)
        (pre post : list string) :
  read_until ">" (incoming w) = Some (chunk, rest) ->
  matchOK_MatchString chunk = true ->
  matchInts_FindAllString (strings.TrimSpace chunk) = t0 :: pre ++ big :: post ->
  Forall (fun t => strconv.digits_val t 0 <= strconv.maxInt64) pre ->
  strconv.maxInt64 < strconv.digits_val big 0 ->
  getPower cfg liveConn w
  = Done (map (decode cfg) (map (fun t => strconv.digits_val t 0) pre),
          Some (ErrNum "ParseInt" big ErrRange))
         (exchanged "getAllRelPower" rest w).
Proof.
  intros Hr Hok Htok Hpre Hbig.
  unfold getPower, chompAllInts, bind.
  rewrite (execCommand_ok w "getAllRelPower" chunk rest Hr Hok).
  rewrite Htok. unfold slice_from. cbn [List.length Nat.leb skipn ret].
  pose proof (matchInts_tokens (strings.TrimSpace chunk)) as Hd.
  rewrite Htok in Hd. inversion Hd as [|? ? _ Hd']; subst.
  rewrite (parse_ints_stops pre post big [] Hd' Hpre Hbig). reflexivity.
Qed.

Lemma getPower_stops_at_overflow_witness :
  getPower demo_cfg liveConn
           (world_with ("OK 7 100 99999999999999999999 300" ++ CRLF ++ ">"))
  = Done (map (decode demo_cfg) (map (fun t => strconv.digits_val t 0) ["100"]),
          Some (ErrNum "ParseInt" "99999999999999999999" ErrRange))
         (exchanged "getAllRelPower" EmptyString
            (world_with ("OK 7 100 99999999999999999999 300" ++ CRLF ++ ">"))).
Proof.
  apply (getPower_stops_at_overflow demo_cfg
           (world_with ("OK 7 100 99999999999999999999 300" ++ CRLF ++ ">"))
           ("OK 7 100 99999999999999999999 300" ++ CRLF ++ ">") EmptyString
           "7" "99999999999999999999" ["100"] ["300"]).
  - reflexivity.
  - reflexivity.
  - reflexivity.
  - repeat constructor. vm_compute. discriminate.
  - vm_compute. reflexivity.
Defined.

(* ================================================================== *)
(** * Reading the target fields of a row *)

Lemma span_digits_no_digit (s : string) :
  has_digit s = false -> span_digits s = (EmptyString, s).
Proof.
  unfold has_digit. intros H. apply negb_false_iff in H.
  destruct s as [|c s]; [reflexivity|].
  cbn [all_chars] in H. apply andb_true_iff in H as [Hc _].
  apply negb_true_iff in Hc. cbn [span_digits]. rewrite Hc. reflexivity.
Qed.

Lemma has_digit_tail (c : ascii) (s : string) :
  has_digit (String c s) = false -> is_digit c = false /\ has_digit s = false.
Proof.
  unfold has_digit. intros H. apply negb_false_iff in H.
  cbn [all_chars] in H. apply andb_true_iff in H as [Hc Hs].
  apply negb_true_iff in Hc. split; [exact Hc|].
  apply negb_false_iff. exact Hs.
Qed.

Lemma float_alt1_unsigned_no_digit (s : string) :
  has_digit s = false -> float_alt1_unsigned s = None.
Proof.
  intros H. unfold float_alt1_unsigned. rewrite (span_digits_no_digit s H).
  destruct s as [|c r]; [reflexivity|].
  destruct (Ascii.eqb c "."); [|reflexivity].
  apply has_digit_tail in H as [_ Hr].
  rewrite (span_digits_no_digit r Hr). reflexivity.
Qed.

(** A text with no digit in it holds no number for [matchFloat]. *)
Lemma matchFloat_no_digit (s : string) :
  has_digit s = false -> matchFloat_FindString s = EmptyString.
Proof.
  induction s as [|c s IH]; intros H; [reflexivity|].
  pose proof (has_digit_tail c s H) as [Hc Hs].
  cbn [matchFloat_FindString].
  assert (H1 : float_alt1 (String c s) = None).
  { unfold float_alt1.
    rewrite (float_alt1_unsigned_no_digit s Hs),
            (float_alt1_unsigned_no_digit (String c s) H).
    destruct (Ascii.eqb c "-" || Ascii.eqb c "+"); reflexivity. }
  assert (H2 : float_alt2 (String c s) = None).
  { unfold float_alt2. rewrite (span_digits_no_digit (String c s) H). reflexivity. }
  rewrite H1, H2. apply IH. exact Hs.
Qed.

Lemma parsed_values_length (vs : list string) :
  List.length (parsed_values vs) = List.length vs.
Proof.
  induction vs as [|v vs IH]; [reflexivity|].
  cbn [parsed_values]. destruct (ParseFloat (matchFloat_FindString v));
    cbn [List.length]; rewrite IH; reflexivity.
Qed.

Lemma parsed_values_no_digit (vs : list string) :
  forall (i : nat) (v : string),
    nth_error vs i = Some v -> has_digit v = false ->
    nth_error (parsed_values vs) i = Some (S754_zero false).
Proof.
  induction vs as [|v0 vs IH]; intros i v Hn Hv; [destruct i; discriminate|].
  destruct i as [|i].
  - cbn in Hn. injection Hn as ->.
    cbn [parsed_values]. rewrite (matchFloat_no_digit v Hv). reflexivity.
  - cbn [nth_error] in Hn. cbn [parsed_values].
    destruct (ParseFloat (matchFloat_FindString v0)); cbn [nth_error]; eauto.
Qed.

(** The first loop of [runStuff] gives one value per field, never stops, and
    a field with no digit in it is not left out: its channel gets the value
    zero. *)
Theorem parse_values_keeps_every_channel (stringVals : list string) (w : World) :
  exists lightValues w',
    parse_values stringVals w = Done lightValues w' /\
    List.length lightValues = List.length stringVals /\
    forall (i : nat) (v : string),
      nth_error stringVals i = Some v -> has_digit v = false ->
      nth_error lightValues i = Some (S754_zero false).
Proof.
  exists (parsed_values stringVals), (add_trace (parse_logs stringVals) w).
  split; [apply parse_values_done|].
  split; [apply parsed_values_length | apply parsed_values_no_digit].
Qed.

(* ================================================================== *)
(** * The command [setMany] builds *)

Lemma append_char_assoc (cur e : string) (c : ascii) :
  ((cur ++ String c EmptyString) ++ e)%string = (cur ++ String c e)%string.
Proof. induction cur as [|d cur IH]; cbn; [reflexivity | rewrite IH; reflexivity]. Qed.

Lemma append_empty_r (s : string) : (s ++ EmptyString)%string = s.
Proof. induction s as [|c s IH]; cbn; [reflexivity | rewrite IH; reflexivity]. Qed.

Lemma Split_from_word (sep : ascii) (e s cur : string) :
  has_char sep e = false ->
  strings.Split_from sep (e ++ s) cur = strings.Split_from sep s (cur ++ e).
Proof.
  revert cur. induction e as [|c e IH]; intros cur H.
  - cbn. rewrite append_empty_r. reflexivity.
  - cbn [has_char] in H. apply orb_false_iff in H as [Hc He].
    cbn [append strings.Split_from]. rewrite Ascii.eqb_sym, Hc.
    rewrite IH by exact He. rewrite append_char_assoc. reflexivity.
Qed.

Lemma Split_from_Join (l : list string) :
  Forall (fun e => has_char " " e = false) l ->
  l <> [] ->
  forall cur,
    strings.Split_from " " (strings.Join l " ") cur
    = (cur ++ hd EmptyString l)%string :: tl l.
Proof.
  induction 1 as [|e l He Hl IH]; intros Hne cur; [congruence|].
  destruct l as [|e2 l].
  - cbn [strings.Join hd tl].
    rewrite <- (append_empty_r e) at 1.
    rewrite (Split_from_word " " e EmptyString cur He). reflexivity.
  - change (strings.Join (e :: e2 :: l) " ")
      with (e ++ " " ++ strings.Join (e2 :: l) " ")%string.
    rewrite (Split_from_word " " e _ cur He).
    cbn [append strings.Split_from Ascii.eqb Bool.eqb].
    rewrite IH by discriminate. reflexivity.
Qed.

Lemma level_texts :
  forallb
    (fun n =>
       negb (has_char " " (strconv.Itoa n))
       && match strconv.ParseInt (strconv.Itoa n) with
          | inl m => m =? n
          | inr _ => false
          end)
    levels = true.
Proof. vm_compute. reflexivity. Qed.

Lemma level_text (n : Z) :
  0 <= n <= 1000 ->
  has_char " " (strconv.Itoa n) = false /\
  strconv.ParseInt (strconv.Itoa n) = inl n.
Proof.
  intros H. pose proof level_texts as Hall. rewrite forallb_forall in Hall.
  specialize (Hall n (in_levels n H)).
  apply andb_true_iff in Hall as [H1 H2]. apply negb_true_iff in H1.
  split; [exact H1|].
  destruct (strconv.ParseInt (strconv.Itoa n)) as [m|]; [|discriminate].
  apply Z.eqb_eq in H2. congruence.
Qed.

(** The command [setMany] builds for a non-empty vector splits at its spaces
    into the name [setWlsRelPower] and one argument per value, and each
    argument is the decimal text of an integer of [0, 1000]: read back with
    [strconv.ParseInt] the arguments are the encoded values. *)
Theorem setMany_command_arguments (X : Extern) (cfg : Config) (values : list float64) :
  values <> [] ->
  exists args,
    strings.Split (setMany_command cfg values) " " = "setWlsRelPower" :: args /\
    map strconv.ParseInt args = map (fun x => inl (encode cfg x)) values /\
    Forall (fun x => 0 <= encode cfg x <= 1000) values.
Proof.
  intros Hne.
  assert (Hlev : forall x, 0 <= encode cfg x <= 1000) by (intros x; apply minMax_bounds).
  exists (intToString (map (encode cfg) values)).
  split; [|split].
  - unfold setMany_command, strings.Split.
    change ("setWlsRelPower " ++ strings.Join (intToString (map (encode cfg) values)) " ")%string
      with ("setWlsRelPower" ++ " " ++ strings.Join (intToString (map (encode cfg) values)) " ")%string.
    rewrite (Split_from_word " " "setWlsRelPower" _ EmptyString) by reflexivity.
    cbn [append strings.Split_from Ascii.eqb Bool.eqb].
    rewrite Split_from_Join.
    + destruct values as [|x values]; [congruence|]. reflexivity.
    + unfold intToString. rewrite Forall_map, Forall_map.
      apply Forall_forall. intros x _. apply level_text, Hlev.
    + destruct values; [congruence | discriminate].
  - unfold intToString. rewrite !map_map. apply map_ext.
    intros x. apply level_text, Hlev.
  - apply Forall_forall. intros x _. apply Hlev.
Qed.

Lemma setMany_command_arguments_witness :
  exists args,
    strings.Split (setMany_command (X := demo_extern) demo_cfg
                     [f64_of_int 50; f64_of_int 75]) " "
    = "setWlsRelPower" :: args /\
    map strconv.ParseInt args
    = map (fun x => inl (encode (X := demo_extern) demo_cfg x))
          [f64_of_int 50; f64_of_int 75] /\
    Forall (fun x => 0 <= encode (X := demo_extern) demo_cfg x <= 1000)
           [f64_of_int 50; f64_of_int 75].
Proof.
  apply (setMany_command_arguments demo_extern demo_cfg [f64_of_int 50; f64_of_int 75]).
  discriminate.
Defined.

(** With no value at all the command has a trailing space and an empty
    argument. *)
Lemma setMany_command_empty (X : Extern) (cfg : Config) :
  strings.Split (setMany_command cfg []) " " = ["setWlsRelPower"; EmptyString].
Proof. reflexivity. Qed.

(* ================================================================== *)
(** * More on a poll *)

(** Whatever the answer, a power query ends in the world in which the
    command is written and the answer up to the prompt is taken, returning
    or panicking. *)
Lemma getPower_world (cfg : Config) (w : World) :
  exists rest,
    match getPower cfg liveConn w with
    | Done _ w' => w' = exchanged "getAllRelPower" rest w
    | Stopped (Panic _) w' => w' = exchanged "getAllRelPower" rest w
    | Stopped (Exit _) _ => False
    end.
Proof.
  unfold getPower, chompAllInts. unfold bind at 1. unfold bind at 1.
  destruct (read_until ">" (incoming w)) as [[chunk rest]|] eqn:Hr.
  - destruct (matchOK_MatchString chunk) eqn:Hok.
    + rewrite (execCommand_ok w _ chunk rest Hr Hok). exists rest.
      unfold bind, slice_from.
      destruct (matchInts_FindAllString (strings.TrimSpace chunk)) as [|t0 toks];
        cbn [List.length Nat.leb]; [reflexivity|].
      cbn [ret]. destruct (parse_ints _ _). reflexivity.
    + rewrite (execCommand_not_ok w _ chunk rest Hr Hok). exists rest. reflexivity.
  - rewrite (execCommand_eof w _ Hr). exists EmptyString. reflexivity.
Qed.

Lemma getWl_world (w : World) :
  exists labels err rest,
    getWl liveConn w = Done (labels, err) (exchanged "getWl" rest w).
Proof.
  unfold getWl, chompAllStrings. unfold bind at 1.
  destruct (read_until ">" (incoming w)) as [[chunk rest]|] eqn:Hr.
  - destruct (matchOK_MatchString chunk) eqn:Hok.
    + rewrite (execCommand_ok w _ chunk rest Hr Hok).
      destruct (words_of_ok_text chunk Hok) as (t0 & labels & Hw).
      rewrite Hw. eexists _, _, _. reflexivity.
    + rewrite (execCommand_not_ok w _ chunk rest Hr Hok).
      eexists _, _, _. reflexivity.
  - rewrite (execCommand_eof w _ Hr). eexists _, _, _. reflexivity.
Qed.

(** A poll never sets the light: whatever the network answers, and whether
    the poll returns or panics, the bytes it writes to the device are the
    query [getAllRelPower], then the query [getWl], or a beginning of these
    two. *)
Theorem runMetrics_only_queries (cfg : Config) (w : World) :
  exists evs k,
    trace (result_world (runMetrics cfg w)) = trace w ++ evs /\
    filter is_write evs = firstn k poll_queries.
Proof.
  unfold runMetrics. unfold bind at 1. unfold telnet_DialTimeout.
  cbn [dials emit_in clock udps prime incoming trace].
  destruct (dials w) as [|[took e|took [e|] inc] ds] eqn:Hd.
  - exists [EvDial; EvLog (LogErr (ErrNet "i/o timeout"))], 0%nat.
    cbn. rewrite <- app_assoc. split; reflexivity.
  - exists [EvDial; EvLog (LogErr e)], 0%nat.
    cbn. rewrite <- app_assoc. split; reflexivity.
  - exists [EvDial; EvLog (LogErr e); EvClose], 0%nat.
    cbn. rewrite <- !app_assoc. split; reflexivity.
  - cbn [bind ret]. unfold bind at 1. cbn [ret].
    unfold defer_Close, with_defer.
    unfold bind at 1. unfold conn_SkipUntil. cbn [prime].
    set (w2 := mkWorld (clock w + took) ds (udps w) None inc (trace w ++ [EvDial])).
    unfold bind at 1.
    destruct (getPower_world cfg w2) as (rest & Hgp).
    destruct (getPower cfg liveConn w2) as [[lightPower err] w3|[msg|code] w3];
      [| |contradiction].
    + subst w3. destruct err as [e|].
      * exists [EvDial; EvWrite ("getAllRelPower" ++ LF); EvLog (LogErr e); EvClose], 1%nat.
        cbn. rewrite <- !app_assoc. split; reflexivity.
      * unfold bind at 1.
        destruct (getWl_world (exchanged "getAllRelPower" rest w2))
          as (labels & err & rest' & Hwl).
        rewrite Hwl. destruct err as [e|].
        -- exists [EvDial; EvWrite ("getAllRelPower" ++ LF);
                   EvWrite ("getWl" ++ LF); EvLog (LogErr e); EvClose], 2%nat.
           cbn. rewrite <- !app_assoc. split; reflexivity.
        -- unfold bind at 1.
           destruct (writeMetrics_events (fun e => is_write e = false)
                       ltac:(reflexivity) ltac:(reflexivity) ltac:(reflexivity)
                       ltac:(reflexivity)
                       cfg labels lightPower
                       (exchanged "getWl" rest' (exchanged "getAllRelPower" rest w2)))
             as (r & w5 & evs & Hrun & Hext & Hev).
           rewrite Hrun. cbn.
           destruct Hext as (Ht & _).
           exists ([EvDial; EvWrite ("getAllRelPower" ++ LF); EvWrite ("getWl" ++ LF)]
                   ++ evs
                   ++ [EvPrint "wavelengths:" (inl labels);
                       EvPrint "power:" (inr lightPower); EvClose]), 2%nat.
           split.
           ++ rewrite Ht. cbn. rewrite <- !app_assoc. reflexivity.
           ++ rewrite !filter_app, (filter_none _ _ Hev). reflexivity.
    + subst w3.
      exists [EvDial; EvWrite ("getAllRelPower" ++ LF); EvClose], 1%nat.
      cbn. rewrite <- !app_assoc. split; reflexivity.
Qed.

(** A poll whose power answer holds the success token and no number at all
    does not end as an abandoned tick: [tmpStrings[1:]] panics on the empty
    list of matches; the connection is closed on the way out and [getWl] is
    not asked. *)
Theorem runMetrics_numberless_answer_panics
        (cfg : Config) (w : World) (took : Duration) (inc chunk rest : string)
        (ds : list DialOutcome) :
  dials w = DialOk took None inc :: ds ->
  read_until ">" inc = Some (chunk, rest) ->
  matchOK_MatchString chunk = true ->
  matchInts_FindAllString (strings.TrimSpace chunk) = [] ->
  exists w',
    runMetrics cfg w = Stopped (Panic "slice bounds out of range") w' /\
    trace w' = trace w ++ [EvDial; EvWrite ("getAllRelPower" ++ LF); EvClose].
Proof.
  intros Hd Hr Hok Htok.
  unfold runMetrics. unfold bind at 1. unfold telnet_DialTimeout.
  cbn [dials emit_in clock udps prime incoming trace]. rewrite Hd.
  cbn [bind ret]. unfold bind at 1. cbn [ret].
  unfold defer_Close, with_defer.
  unfold bind at 1. unfold conn_SkipUntil. cbn [prime].
  unfold bind at 1. unfold getPower, chompAllInts. unfold bind at 1. unfold bind at 1.
  rewrite (execCommand_ok
             (mkWorld (clock w + took) ds (udps w) None inc (trace w ++ [EvDial]))
             "getAllRelPower" chunk rest Hr Hok).
  rewrite Htok. cbn.
  eexists. split; [reflexivity|]. cbn. rewrite <- !app_assoc. reflexivity.
Qed.

Lemma runMetrics_numberless_answer_panics_witness :
  exists w',
    runMetrics poll_cfg (world_at 0 [DialOk 0 None ("OK" ++ CRLF ++ ">")] [])
    = Stopped (Panic "slice bounds out of range") w' /\
    trace w' = trace (world_at 0 [DialOk 0 None ("OK" ++ CRLF ++ ">")] [])
               ++ [EvDial; EvWrite ("getAllRelPower" ++ LF); EvClose].
Proof.
  apply (runMetrics_numberless_answer_panics
           poll_cfg (world_at 0 [DialOk 0 None ("OK" ++ CRLF ++ ">")] [])
           0 ("OK" ++ CRLF ++ ">") ("OK" ++ CRLF ++ ">") EmptyString []);
    reflexivity.
Defined.

(* ================================================================== *)
(** * The further properties on concrete runs *)

Lemma runStuff_ends_without_panic_witness :
  let w := world_at 150 [DialOk 0 (Some (ErrNet "EOF")) EmptyString] [] in
  match runStuff (X := demo_extern) demo_cfg (100 * Second)
                 (strings.Split "100,x,y,z,50.0,75.0" ",") w with
  | Stopped _ _ => False
  | Done _ w' =>
      exists evs,
        trace w' = trace w ++ evs /\
        dials w' = tl (dials w) /\
        filter is_dial evs = [EvDial] /\
        filter is_close evs
        = match dials w with DialOk _ _ _ :: _ => [EvClose] | _ => [] end /\
        exists k sent,
          filter is_write evs
          = firstn k [EvWrite ("getWl" ++ LF);
                      EvWrite (setMany_command (X := demo_extern) demo_cfg sent
                               ++ LF)]
  end.
Proof.
  apply (runStuff_ends_without_panic demo_extern demo_cfg (100 * Second)
           (strings.Split "100,x,y,z,50.0,75.0" ",")
           (world_at 150 [DialOk 0 (Some (ErrNet "EOF")) EmptyString] [])).
  vm_compute. lia.
Defined.

Lemma runStuff_true_only_if_acknowledged_witness :
  exists took inc ds c1 r1 c2 r2,
    dials (world_at 150 [DialOk 0 None (session_ok "450 660")] [])
    = DialOk took None inc :: ds /\
    read_until ">" inc = Some (c1, r1) /\ matchOK_MatchString c1 = true /\
    read_until ">" r1 = Some (c2, r2) /\ matchOK_MatchString c2 = true.
Proof.
  apply (runStuff_true_only_if_acknowledged demo_extern quiet_cfg (100 * Second)
           (strings.Split "100,x,y,z,50.0,75.0" ",")
           (world_at 150 [DialOk 0 None (session_ok "450 660")] [])
           (result_world
              (runStuff (X := demo_extern) quiet_cfg (100 * Second)
                 (strings.Split "100,x,y,z,50.0,75.0" ",")
                 (world_at 150 [DialOk 0 None (session_ok "450 660")] [])))).
  vm_compute. reflexivity.
Defined.

Lemma runStuff_quiet_trace_witness :
  let ls := strings.Split "100,x,y,z,50.0,75.0,0.25" "," in
  let w := world_at 150 [DialOk Second None (session_ok "450 660")] [] in
  let vals := parsed_values (skipn 4 ls) in
  let wl := tl (matchStrings_FindAllString
                  (strings.TrimSpace ("OK 450 660" ++ CRLF ++ ">"))) in
  let sent := firstn (Nat.min (List.length wl) (List.length vals)) vals in
  exists w',
    runStuff (X := demo_extern) quiet_cfg (100 * Second) ls w = Done true w' /\
    trace w' = trace w
               ++ parse_logs (skipn 4 ls)
               ++ [EvDial; EvWrite ("getWl" ++ LF)]
               ++ (if (List.length wl <? List.length vals)%nat
                   then [mismatch_warning] else [])
               ++ [EvWrite (setMany_command (X := demo_extern) quiet_cfg sent ++ LF);
                   EvLog (LogRan (100 * Second) vals); EvClose] /\
    clock w' = clock w + Second /\
    udps w' = udps w /\
    incoming w' = EmptyString.
Proof.
  apply (runStuff_quiet_trace demo_extern quiet_cfg (100 * Second)
           (strings.Split "100,x,y,z,50.0,75.0,0.25" ",")
           (world_at 150 [DialOk Second None (session_ok "450 660")] [])
           Second (session_ok "450 660") []
           ("OK 450 660" ++ CRLF ++ ">") ("OK" ++ CRLF ++ ">")
           ("OK" ++ CRLF ++ ">") EmptyString).
  - reflexivity.
  - vm_compute. lia.
  - reflexivity.
  - reflexivity.
  - reflexivity.
  - reflexivity.
  - reflexivity.
Defined.

Lemma scan_short_row_panics_witness :
  scan_lines (X := demo_extern) demo_cfg ["200,x"] 1 (100 * Second)
             (strings.Split "100,x,y,z,50.0,75.0" ",") false (world_at 150 [] [])
  = Stopped (Panic "slice bounds out of range")
            (slept (200 * Second) (world_at 150 [] [])).
Proof.
  apply (scan_short_row_panics (X := demo_extern) demo_cfg "200,x" "200" [] 1
           (200 * Second) (100 * Second)
           (strings.Split "100,x,y,z,50.0,75.0" ",") (world_at 150 [] [])).
  - lia.
  - reflexivity.
  - reflexivity.
  - vm_compute. discriminate.
  - vm_compute. lia.
Defined.

Lemma runConditions_nothing_to_come_witness :
  exists w' evs,
    runConditions (X := demo_extern) demo_cfg
                  (Some ["datetime,a,b,c,ch1,ch2"; "100,x,y,z,50.0,75.0";
                         "soon,x,y,z,1,2"; "300,x,y,z,1,2"])
                  (world_at 400 demo_dials [])
    = Done tt w' /\
    trace w' = trace (world_at 400 demo_dials []) ++ evs /\
    Forall (fun e => is_log e = true) evs /\
    clock w' = clock (world_at 400 demo_dials []) /\
    dials w' = dials (world_at 400 demo_dials []).
Proof.
  apply (runConditions_nothing_to_come (X := demo_extern) demo_cfg
           "datetime,a,b,c,ch1,ch2"
           ["100,x,y,z,50.0,75.0"; "soon,x,y,z,1,2"; "300,x,y,z,1,2"]
           (world_at 400 demo_dials [])).
  constructor; [vm_compute; reflexivity|].
  constructor; [vm_compute; exact I|].
  constructor; [vm_compute; reflexivity|].
  constructor.
Defined.

Lemma main_runs_schedule_witness :
  main (X := demo_extern) demo_cfg (Some demo_file) 3 (world_at 150 demo_dials [])
  = runConditions (X := demo_extern) demo_cfg (Some demo_file)
                  (world_at 150 demo_dials []).
Proof.
  apply (main_runs_schedule (X := demo_extern) demo_cfg (Some demo_file) 3
           (world_at 150 demo_dials [])).
  - discriminate.
  - reflexivity.
Defined.


Lemma minMax_fixes_range_and_order_witness :
  (0 <= 500 <= 1000 -> minMax 500 = 500) /\
  minMax (minMax 500) = minMax 500 /\
  (500 <= 1700 -> minMax 500 <= minMax 1700).
Proof. apply (minMax_fixes_range_and_order 500 1700). Defined.
